(** * Mapbase VScript documentation generator: a shallow embedding of generate.py

    The script reads a text dump, cuts it into record blocks, parses each
    block into an [Instance], classifies the instances into five category
    dictionaries ([gather_info]), renders one Markdown document per category
    ([generate_docs]) and writes ten files.

    Conventions of the embedding:
    - a Python [str] is a [string]; a character is an [ascii] read as a code
      point below 256 (Latin-1), which fixes what [\s] and [str.splitlines]
      treat as white space and as line boundaries;
    - a raised exception is [Err e]; the functions are otherwise total;
    - a Python [dict] is an association list in insertion order: assigning to
      an existing key replaces the value in place, a new key goes to the end;
    - an object's attributes are such a dictionary; an attribute holds a
      string or a list of instances;
    - a file holds the characters stored in it: reading in text mode turns
      the line endings [\r\n] and [\r] into [\n], writing stores the text
      as it is, the line separator of the platform being [\n]. *)

From Stdlib Require Import String Ascii List Bool Arith Lia.
Import ListNotations.
Open Scope list_scope.
Open Scope string_scope.

(** ** Exceptions and results *)

Inductive exn : Type :=
| IndexError | AttributeError | TypeError | KeyError | ValueError | OSError.

Inductive result (A : Type) : Type :=
| Ok (a : A)
| Err (e : exn).
Arguments Ok {A} a.
Arguments Err {A} e.

Definition bind {A B : Type} (r : result A) (k : A -> result B) : result B :=
  match r with
  | Ok a => k a
  | Err e => Err e
  end.

Notation "x <- r ;; k" := (bind r (fun x => k))
  (at level 61, r at next level, right associativity).

Definition is_ok {A : Type} (r : result A) : bool :=
  match r with Ok _ => true | Err _ => false end.

Definition of_option {A : Type} (e : exn) (o : option A) : result A :=
  match o with Some a => Ok a | None => Err e end.

(** ** Characters *)

Definition nl : ascii := "010"%char.
Definition cr : ascii := "013"%char.
Definition colon : ascii := ":"%char.
Definition equals_sign : ascii := "="%char.

Definition code_in (codes : list nat) (c : ascii) : bool :=
  existsb (Nat.eqb (nat_of_ascii c)) codes.

(** [\s] of a [str] pattern, on code points below 256. *)
Definition is_space : ascii -> bool :=
  code_in [9; 10; 11; 12; 13; 28; 29; 30; 31; 32; 133; 160]%nat.

(** The line boundaries of [str.splitlines], on code points below 256. *)
Definition is_linebreak : ascii -> bool :=
  code_in [10; 11; 12; 13; 28; 29; 30; 133]%nat.

(** ** Python dictionaries *)

Definition dict (V : Type) : Type := list (string * V).

Fixpoint dict_get {V : Type} (k : string) (d : dict V) : option V :=
  match d with
  | [] => None
  | (k', v) :: d' => if k =? k' then Some v else dict_get k d'
  end.

Fixpoint dict_set {V : Type} (k : string) (v : V) (d : dict V) : dict V :=
  match d with
  | [] => [(k, v)]
  | (k', v') :: d' =>
      if k =? k' then (k, v) :: d' else (k', v') :: dict_set k v d'
  end.

Definition dict_keys {V : Type} (d : dict V) : list string := map fst d.
Definition dict_values {V : Type} (d : dict V) : list V := map snd d.

Definition dict_mem {V : Type} (k : string) (d : dict V) : bool :=
  match dict_get k d with Some _ => true | None => false end.

(** [d[k]] as an expression. *)
Definition dict_item {V : Type} (k : string) (d : dict V) : result V :=
  of_option KeyError (dict_get k d).

(** ** String library functions used by the script *)

(** [str.splitlines()]. *)
Fixpoint splitlines (s : string) : list string :=
  match s with
  | EmptyString => []
  | String c t =>
      if is_linebreak c then
        match t with
        | String c' t' =>
            if (Ascii.eqb c cr && Ascii.eqb c' nl)%bool
            then EmptyString :: splitlines t'
            else EmptyString :: splitlines t
        | EmptyString => [EmptyString]
        end
      else
        match splitlines t with
        | [] => [String c EmptyString]
        | l :: ls => String c l :: ls
        end
  end.

(** [s.split(sep)] for a separator that is not empty: the pieces between the
    successive leftmost occurrences of [sep].  [skip] counts the characters of
    a separator just found that are still to be passed over. *)
Fixpoint split_from (sep : string) (skip : nat) (s : string) : list string :=
  match s with
  | EmptyString => [EmptyString]
  | String c t =>
      match skip with
      | S k => split_from sep k t
      | O =>
          if prefix sep s
          then EmptyString :: split_from sep (String.length sep - 1) t
          else
            match split_from sep 0 t with
            | [] => [String c EmptyString]
            | l :: ls => String c l :: ls
            end
      end
  end.

Definition split (sep s : string) : list string := split_from sep 0 s.

(** [s.split(sep)[0]]. *)
Definition split_head (sep s : string) : string := hd EmptyString (split sep s).

(** [s.split(sep, 1)] for a one-character separator. *)
Fixpoint split_once (sep : ascii) (s : string) : list string :=
  match s with
  | EmptyString => [EmptyString]
  | String c t =>
      if Ascii.eqb c sep then [EmptyString; t]
      else
        match split_once sep t with
        | l :: ls => String c l :: ls
        | [] => [String c EmptyString]
        end
  end.

(** ** The line pattern of [Instance.__init__]

    The pattern is: a group of one or more characters other than a colon, a
    colon, any white space, and a group of any characters other than a
    newline.  It is searched for, not anchored. *)

(** The longest prefix of characters satisfying [p], and what follows it. *)
Fixpoint span (p : ascii -> bool) (s : string) : string * string :=
  match s with
  | EmptyString => (EmptyString, EmptyString)
  | String c t =>
      if p c then let (a, b) := span p t in (String c a, b)
      else (EmptyString, s)
  end.

Definition not_colon (c : ascii) : bool := negb (Ascii.eqb c colon).
Definition not_newline (c : ascii) : bool := negb (Ascii.eqb c nl).

(** The pattern matched at the very start of [s]: [[^:]+] takes the maximal
    run of non-colons (a shorter run is never followed by a colon), [\s*] the
    maximal run of white space and the last group everything up to a newline. *)
Definition match_here (s : string) : option (string * string) :=
  match span not_colon s with
  | (EmptyString, _) => None
  | (name, String c rest) =>
      if Ascii.eqb c colon
      then Some (name, fst (span not_newline (snd (span is_space rest))))
      else None
  | (_, EmptyString) => None
  end.

(** [re.findall(pattern, s)[0]]: the two groups of the leftmost match;
    [None] stands for the IndexError of indexing an empty list. *)
Fixpoint findall_first (s : string) : option (string * string) :=
  match match_here s with
  | Some m => Some m
  | None =>
      match s with
      | EmptyString => None
      | String _ t => findall_first t
      end
  end.

(** ** The separator pattern [\n?={37}\n?] *)

(** [s] without [n] leading equals signs, when it has that many. *)
Fixpoint eq_run (n : nat) (s : string) : option string :=
  match n with
  | O => Some s
  | S n' =>
      match s with
      | String c t => if Ascii.eqb c equals_sign then eq_run n' t else None
      | EmptyString => None
      end
  end.

Definition opt_nl_length (s : string) : nat :=
  match s with
  | String c _ => if Ascii.eqb c nl then 1 else 0
  | EmptyString => 0
  end.

(** Length of the match of [\n?={37}\n?] at the start of [s], if any.  When
    the optional leading newline is taken and the equals signs do not follow,
    the retry without it fails too, the first character being a newline. *)
Definition sep_match (s : string) : option nat :=
  match s with
  | String c t =>
      if Ascii.eqb c nl then
        match eq_run 37 t with
        | Some r => Some (1 + 37 + opt_nl_length r)
        | None => None
        end
      else
        match eq_run 37 s with
        | Some r => Some (37 + opt_nl_length r)
        | None => None
        end
  | EmptyString => None
  end.

(** [re.sub(r"\n?={37}\n?", "", s)]; [skip] counts the characters of the
    current match still to be dropped. *)
Fixpoint sub_from (skip : nat) (s : string) : string :=
  match s with
  | EmptyString => EmptyString
  | String c t =>
      match skip with
      | S k => sub_from k t
      | O =>
          match sep_match s with
          | Some (S k) => sub_from k t
          | _ => String c (sub_from 0 t)
          end
      end
  end.

Definition re_sub_separator (s : string) : string := sub_from 0 s.

(** ** Instances *)

(** An object of class [Instance] is its attribute dictionary.  The class
    body only annotates [Type], [Name], [Description], [Value] and
    [Signature]: a fresh object has no attribute. *)
Inductive Instance : Type :=
| MkInstance (attrs : list (string * attr))
with attr : Type :=
| AStr (s : string)
| AList (l : list Instance).

Definition attrs_of (o : Instance) : dict attr :=
  match o with MkInstance a => a end.

Definition new_object : Instance := MkInstance [].

(** [getattr(o, name, None)]. *)
Definition getattr (o : Instance) (name : string) : option attr :=
  dict_get name (attrs_of o).

(** [o.name = v] for a name written in the source. *)
Definition assign (o : Instance) (name : string) (v : attr) : Instance :=
  MkInstance (dict_set name v (attrs_of o)).

(** [setattr(o, name, v)] with a string [v] and a name read from the input:
    [__class__] and [__dict__] reject a string (TypeError) and [__weakref__]
    is read-only (AttributeError); every other name is stored. *)
Definition setattr (o : Instance) (name : string) (v : attr) : result Instance :=
  if (name =? "__class__") || (name =? "__dict__") then Err TypeError
  else if name =? "__weakref__" then Err AttributeError
  else Ok (assign o name v).

(** One iteration of the loop of [Instance.__init__]. *)
Definition init_line (self : Instance) (info : string) : result Instance :=
  match findall_first info with
  | None => Err IndexError
  | Some (name, value) =>
      match getattr self "Type" with
      | None =>
          let self := assign self "Type" (AStr name) in
          let self := assign self "Name" (AStr value) in
          if name =? "Enum" then
            Ok (assign self "Values" (AList []))
          else if name =? "Class" then
            let self := assign self "Functions" (AList []) in
            let self := assign self "Members" (AList []) in
            Ok (assign self "Hooks" (AList []))
          else Ok self
      | Some _ => setattr self name (AStr value)
      end
  end.

Fixpoint init_lines (self : Instance) (lines : list string) : result Instance :=
  match lines with
  | [] => Ok self
  | info :: rest => self' <- init_line self info ;; init_lines self' rest
  end.

(** [Instance(text_info)]. *)
Definition Instance_init (text_info : string) : result Instance :=
  self <- init_lines new_object (splitlines text_info) ;;
  match getattr self "Description" with
  | None => Ok (assign self "Description" (AStr ""))
  | Some _ => Ok self
  end.

(** Reading an attribute as a string, as in [inst.Type].  The attributes read
    this way ([Type], [Name], [Value], [Description], [Signature]) are only
    ever given strings; a missing attribute is the AttributeError. *)
Definition get_str (o : Instance) (name : string) : result string :=
  match getattr o name with
  | Some (AStr s) => Ok s
  | Some (AList _) => Err TypeError
  | None => Err AttributeError
  end.

(** ** gather_info *)

Definition NL : string := String nl EmptyString.

Definition Info : Type := dict (dict Instance).

Definition info_init : Info :=
  [("Enum", []); ("Constant", []); ("Class", []); ("Function", []);
   ("Hook", [])].

(** [info[cat][key].field.append(inst)].  The parent object is referenced
    from this one dictionary slot only, so the update in place is an update
    of the slot. *)
Definition append_child (info : Info) (cat key field : string)
    (inst : Instance) : result Info :=
  d <- dict_item cat info ;;
  parent <- dict_item key d ;;
  match getattr parent field with
  | Some (AList l) =>
      Ok (dict_set cat
            (dict_set key (assign parent field (AList (l ++ [inst])%list)) d)
            info)
  | _ => Err AttributeError
  end.

(** The condition
    [inst.Type == ty and (p := inst.Name.split(sep)[0]) in info[cat].keys()]:
    [Some p] when it holds. *)
Definition owner (info : Info) (inst : Instance) (ty sep cat : string)
    : result (option string) :=
  t <- get_str inst "Type" ;;
  if t =? ty then
    name <- get_str inst "Name" ;;
    d <- dict_item cat info ;;
    let p := split_head sep name in
    Ok (if dict_mem p d then Some p else None)
  else Ok None.

(** [info[inst.Type][inst.Name] = inst]. *)
Definition file_record (info : Info) (inst : Instance) : result Info :=
  t <- get_str inst "Type" ;;
  d <- dict_item t info ;;
  name <- get_str inst "Name" ;;
  Ok (dict_set t (dict_set name inst d) info).

(** The first [if] of the loop body, about enum constants. *)
Definition attach_constant (info : Info) (inst : Instance) : result Info :=
  o <- owner info inst "Constant" "." "Enum" ;;
  match o with
  | Some enum_const => append_child info "Enum" enum_const "Values" inst
  | None => Ok info
  end.

(** The second statement of the loop body: [if / elif / elif / else]. *)
Definition attach_or_file (info : Info) (inst : Instance) : result Info :=
  o <- owner info inst "Function" "::" "Class" ;;
  match o with
  | Some class_func => append_child info "Class" class_func "Functions" inst
  | None =>
      o <- owner info inst "Member" "." "Class" ;;
      match o with
      | Some class_member =>
          append_child info "Class" class_member "Members" inst
      | None =>
          o <- owner info inst "Hook" " -> " "Class" ;;
          match o with
          | Some class_hook =>
              append_child info "Class" class_hook "Hooks" inst
          | None => file_record info inst
          end
      end
  end.

Definition classify (info : Info) (inst : Instance) : result Info :=
  info' <- attach_constant info inst ;;
  attach_or_file info' inst.

(** The body of the loop of [gather_info] on one block. *)
Definition gather_step (info : Info) (line : string) : result Info :=
  inst <- Instance_init (re_sub_separator line) ;;
  classify info inst.

Fixpoint gather_loop (info : Info) (blocks : list string) : result Info :=
  match blocks with
  | [] => Ok info
  | line :: rest => info' <- gather_step info line ;; gather_loop info' rest
  end.

Definition gather_info (raw : string) : result Info :=
  gather_loop info_init (split (NL ++ NL) raw).

(** ** Rendering *)

Definition pretty_names : dict string :=
  [("Enum", "Enums"); ("Constant", "Constants"); ("Class", "Classes");
   ("Function", "Global Functions"); ("Hook", "Global Hooks")].

(** Truth value of a string. *)
Definition nonempty (s : string) : bool :=
  match s with EmptyString => false | _ => true end.

(** Truth value of an attribute. *)
Definition truthy (v : attr) : bool :=
  match v with
  | AStr s => nonempty s
  | AList [] => false
  | AList _ => true
  end.

(** The elements a rendering loop goes through.  A string attribute in the
    place of a list yields its characters, and reading [Name] of a character
    is an AttributeError; an empty string yields nothing. *)
Definition elements (v : attr) : result (list Instance) :=
  match v with
  | AList l => Ok l
  | AStr EmptyString => Ok []
  | AStr _ => Err AttributeError
  end.

(** [o.name] for an attribute that may hold a list. *)
Definition get_attr (o : Instance) (name : string) : result attr :=
  of_option AttributeError (getattr o name).

(** One iteration of the loop of [generate_table]. *)
Definition table_row (constant : Instance) : result string :=
  name <- get_str constant "Name" ;;
  value <- get_str constant "Value" ;;
  desc <- get_str constant "Description" ;;
  Ok ("| " ++ name ++ " | " ++ value ++ " |"
      ++ (if nonempty desc then " " ++ desc ++ " |" else "")
      ++ NL).

Fixpoint table_rows (constants : list Instance) : result string :=
  match constants with
  | [] => Ok ""
  | constant :: rest =>
      row <- table_row constant ;;
      rows <- table_rows rest ;;
      Ok (row ++ rows)
  end.

Definition table_header : string :=
  "| Name | Value | Description |" ++ NL ++ "| --- | --- | --- |" ++ NL.

Definition generate_table (constants : list Instance) : result string :=
  rows <- table_rows constants ;;
  Ok (table_header ++ rows ++ NL).

Fixpoint hashes (n : nat) : string :=
  match n with O => "" | S n' => "#" ++ hashes n' end.

Definition describe_signed (function : Instance) (indents : nat)
    : result string :=
  name <- get_str function "Name" ;;
  desc <- get_str function "Description" ;;
  signature <- get_str function "Signature" ;;
  Ok (hashes indents ++ " " ++ name ++ NL
      ++ (if nonempty desc then NL ++ desc ++ NL else "")
      ++ NL ++ "```cpp" ++ NL ++ signature ++ NL ++ "```" ++ NL).

(** [sep.join(describe_signed(x, indents) for x in l)]. *)
Fixpoint join_signed (sep : string) (indents : nat) (l : list Instance)
    : result string :=
  match l with
  | [] => Ok ""
  | [x] => describe_signed x indents
  | x :: rest =>
      d <- describe_signed x indents ;;
      ds <- join_signed sep indents rest ;;
      Ok (d ++ sep ++ ds)
  end.

Definition signed_page (signed_list : list Instance) (type : string)
    : result string :=
  body <- join_signed NL 4 signed_list ;;
  Ok ("### " ++ type ++ NL ++ NL ++ (body ++ NL)).

(** [s[:-1]]. *)
Fixpoint drop_last (s : string) : string :=
  match s with
  | EmptyString => EmptyString
  | String _ EmptyString => EmptyString
  | String c t => String c (drop_last t)
  end.

(** The part of a class section for one of [Members], [Functions],
    [Hooks]: [if c.field: doc += signed_page(c.field, label)]. *)
Definition class_part (class_instance : Instance) (field : string)
    : result string :=
  v <- get_attr class_instance field ;;
  if truthy v then
    l <- elements v ;;
    signed_page l field
  else Ok "".

(** The text added for one entry of a category, first [match] of
    [generate_docs]. *)
Definition entry_section (type : string) (class_instance : Instance)
    : result string :=
  if type =? "Enum" then
    name <- get_str class_instance "Name" ;;
    desc <- get_str class_instance "Description" ;;
    values <- get_attr class_instance "Values" ;;
    l <- elements values ;;
    table <- generate_table l ;;
    Ok ("## " ++ name ++ NL ++ NL
        ++ (if nonempty desc then desc ++ NL else "") ++ table)
  else if type =? "Class" then
    name <- get_str class_instance "Name" ;;
    desc <- get_str class_instance "Description" ;;
    members <- class_part class_instance "Members" ;;
    functions <- class_part class_instance "Functions" ;;
    hooks <- class_part class_instance "Hooks" ;;
    Ok ("## " ++ name ++ NL ++ NL
        ++ (if nonempty desc then desc ++ NL ++ NL else "")
        ++ members ++ functions ++ hooks)
  else Ok "".

Fixpoint entry_sections (type : string) (l : list Instance) : result string :=
  match l with
  | [] => Ok ""
  | x :: rest =>
      s <- entry_section type x ;;
      ss <- entry_sections type rest ;;
      Ok (s ++ ss)
  end.

(** The text added after the entries, second [match] of [generate_docs]. *)
Definition category_tail (type : string) (class_dict : dict Instance)
    : result string :=
  if type =? "Constant" then generate_table (dict_values class_dict)
  else if (type =? "Function") || (type =? "Hook") then
    body <- join_signed NL 2 (dict_values class_dict) ;;
    Ok (body ++ NL)
  else Ok "".

Section Render.
(** The module-level [version], first line of the dump. *)
Variable version : string.

(** One iteration of the outer loop of [generate_docs]. *)
Definition generate_doc (category type : string) (class_dict : dict Instance)
    : result string :=
  pretty <- dict_item type pretty_names ;;
  sections <- entry_sections type (dict_values class_dict) ;;
  tail <- category_tail type class_dict ;;
  Ok (drop_last
        ("# VScript " ++ category ++ " " ++ pretty ++ ", version " ++ version
         ++ NL ++ NL ++ "Generated by Macosaro" ++ NL ++ NL
         ++ sections ++ tail)).

Fixpoint generate_docs_loop (category : string) (items : Info)
    : result (list string) :=
  match items with
  | [] => Ok []
  | (type, class_dict) :: rest =>
      doc <- generate_doc category type class_dict ;;
      docs <- generate_docs_loop category rest ;;
      Ok (doc :: docs)
  end.

Definition generate_docs (info_dict : Info) (category : string)
    : result (list string) :=
  generate_docs_loop category info_dict.
End Render.

(** ** The file system and the script as a whole *)

Inductive node : Type :=
| File (content : string)
| Dir.

(** Paths relative to the working directory, to what they hold. *)
Definition filesystem : Type := dict node.

(** Statements of the script: they read and change the file system and may
    raise; what was written before an exception stays written. *)
Definition M (A : Type) : Type := filesystem -> result A * filesystem.

Definition ret {A : Type} (a : A) : M A := fun fs => (Ok a, fs).

Definition mbind {A B : Type} (m : M A) (k : A -> M B) : M B :=
  fun fs =>
    match m fs with
    | (Ok a, fs') => k a fs'
    | (Err e, fs') => (Err e, fs')
    end.

(** A computation that does not touch the file system. *)
Definition lift {A : Type} (r : result A) : M A := fun fs => (r, fs).

Notation "x <~ m ;; k" := (mbind m (fun x => k))
  (at level 61, m at next level, right associativity).
Notation "m ;;; k" := (mbind m (fun _ => k))
  (at level 61, right associativity).

(** What a file opened in text mode hands to the program: a carriage
    return followed by a newline, and a carriage return alone, are read as
    one newline. *)
Fixpoint universal_newlines (s : string) : string :=
  match s with
  | EmptyString => EmptyString
  | String c t =>
      if Ascii.eqb c cr then
        match t with
        | String c' t' =>
            if Ascii.eqb c' nl then String nl (universal_newlines t')
            else String nl (universal_newlines t)
        | EmptyString => String nl EmptyString
        end
      else String c (universal_newlines t)
  end.

(** [open(path, "r").read()]. *)
Definition read_file (path : string) : M string :=
  fun fs =>
    match dict_get path fs with
    | Some (File content) => (Ok (universal_newlines content), fs)
    | _ => (Err OSError, fs)
    end.

(** [os.path.exists(path)]. *)
Definition path_exists (path : string) : M bool :=
  fun fs => (Ok (dict_mem path fs), fs).

(** [os.mkdir(path)]. *)
Definition mkdir (path : string) : M unit :=
  fun fs =>
    if dict_mem path fs then (Err OSError, fs)
    else (Ok tt, dict_set path Dir fs).

(** [write(path, content)] for a path [dir/name]: [dir] has to be a
    directory and the path must not be one; the file is created or
    truncated and receives [content]. *)
Definition write (path content : string) : M unit :=
  fun fs =>
    match dict_get (split_head "/" path) fs with
    | Some Dir =>
        match dict_get path fs with
        | Some Dir => (Err OSError, fs)
        | _ => (Ok tt, dict_set path (File content) fs)
        end
    | _ => (Err OSError, fs)
    end.

(** [a, b = l]. *)
Definition unpack2 (l : list string) : result (string * string) :=
  match l with
  | [a; b] => Ok (a, b)
  | _ => Err ValueError
  end.

(** [l[i]]. *)
Definition index (l : list string) (i : nat) : result string :=
  of_option IndexError (nth_error l i).

Definition input_path : string := "mapbase_7.1.txt".
Definition client_marker : string := NL ++ "DOCUMENTATION_CLIENT" ++ NL.

(** The statements from [open] to the assignment of [client_docs]: the
    only access to the file system is the read of the dump. *)
Definition load_docs : M (list string * list string) :=
  dump <~ read_file input_path ;;
  p <~ lift (unpack2 (split_once nl dump)) ;;
  let (version, dump) := p in
  q <~ lift (unpack2 (split client_marker dump)) ;;
  let (server_text, client_text) := q in
  server_docs <~ lift (info <- gather_info server_text ;;
                       generate_docs version info "Server") ;;
  client_docs <~ lift (info <- gather_info client_text ;;
                       generate_docs version info "Client") ;;
  ret (server_docs, client_docs).

(** The block the script spells out once for [server] and once for
    [client]: make the directory if nothing has its name, then write the
    five documents. *)
Definition write_docs (dir : string) (docs : list string) : M unit :=
  e <~ path_exists dir ;;
  (if e then ret tt else mkdir dir) ;;;
  d <~ lift (index docs 0) ;; write (dir ++ "/enums.md") d ;;;
  d <~ lift (index docs 1) ;; write (dir ++ "/constants.md") d ;;;
  d <~ lift (index docs 2) ;; write (dir ++ "/classes.md") d ;;;
  d <~ lift (index docs 3) ;; write (dir ++ "/functions.md") d ;;;
  d <~ lift (index docs 4) ;; write (dir ++ "/hooks.md") d.

(** The script, top to bottom. *)
Definition main : M unit :=
  docs <~ load_docs ;;
  write_docs "server" (fst docs) ;;;
  write_docs "client" (snd docs).

(** * Definitions used in the statements *)

(** ** Lines and attributes *)

Fixpoint str_forall (p : ascii -> bool) (s : string) : bool :=
  match s with
  | EmptyString => true
  | String c t => p c && str_forall p t
  end.

Definition is_colon (c : ascii) : bool := Ascii.eqb c colon.

(** The names [setattr] refuses. *)
Definition rejected_name (name : string) : bool :=
  (name =? "__class__") || (name =? "__dict__") || (name =? "__weakref__").

(** The object after the first line [name: value] of a block. *)
Definition first_object (name value : string) : Instance :=
  let self := assign (assign new_object "Type" (AStr name)) "Name" (AStr value) in
  if name =? "Enum" then assign self "Values" (AList [])
  else if name =? "Class" then
    assign (assign (assign self "Functions" (AList [])) "Members" (AList []))
      "Hooks" (AList [])
  else self.

(** The value given to attribute [name] by the last of [lines] whose key is
    [name]. *)
Fixpoint last_value (name : string) (lines : list string) : option string :=
  match lines with
  | [] => None
  | l :: rest =>
      match last_value name rest with
      | Some v => Some v
      | None =>
          match findall_first l with
          | Some (k, v) => if name =? k then Some v else None
          | None => None
          end
      end
  end.

(** A line the loop of [Instance.__init__] gets past: it matches the
    pattern and, unless it is the first line, its key is one [setattr]
    stores. *)
Definition line_ok (first : bool) (l : string) : bool :=
  match findall_first l with
  | None => false
  | Some (k, _) => first || negb (rejected_name k)
  end.

Definition lines_ok (lines : list string) : bool :=
  match lines with
  | [] => true
  | l0 :: rest => line_ok true l0 && forallb (line_ok false) rest
  end.

(** The value group after the colon: white space is passed over and the
    rest of the line is taken. *)
Definition value_of (rest : string) : string :=
  fst (span not_newline (snd (span is_space rest))).

(** The split at the first colon of a line: the key is the text before it,
    the value the text after it and after the white space that follows. *)
Definition split_at_first_colon (line : string) : option (string * string) :=
  match span not_colon line with
  | (key, String _ rest) => Some (key, value_of rest)
  | (_, EmptyString) => None
  end.

(** The split at the first colon that is followed by white space: the other
    way to read the first colon-plus-whitespace boundary. *)
Fixpoint split_at_first_colon_space (line : string) : option (string * string) :=
  match line with
  | EmptyString => None
  | String c t =>
      if is_colon c && nonempty (fst (span is_space t))
      then Some (EmptyString, value_of t)
      else option_map (fun kv => (String c (fst kv), snd kv))
                      (split_at_first_colon_space t)
  end.

(** [line] without the colons it begins with. *)
Definition strip_colons (line : string) : string := snd (span is_colon line).

(** ** Separators *)

(** A run of [n] equals signs. *)
Fixpoint equals (n : nat) : string :=
  match n with
  | O => EmptyString
  | S n' => String equals_sign (equals n')
  end.

(** Somewhere in [s] there are [n] equals signs in a row. *)
Fixpoint has_run (n : nat) (s : string) : bool :=
  match eq_run n s with
  | Some _ => true
  | None =>
      match s with
      | EmptyString => false
      | String _ t => has_run n t
      end
  end.

(** [s] without one newline at its start, when it has one. *)
Definition strip_first_nl (s : string) : string :=
  match s with
  | String c t => if Ascii.eqb c nl then t else s
  | EmptyString => EmptyString
  end.

(** [s] without one newline at its end, when it has one. *)
Fixpoint strip_last_nl (s : string) : string :=
  match s with
  | EmptyString => EmptyString
  | String c EmptyString => if Ascii.eqb c nl then EmptyString else s
  | String c t => String c (strip_last_nl t)
  end.

(** ** The state of gather_info *)

(** [info[c]], for a category [c] of [info]. *)
Definition category (info : Info) (c : string) : dict Instance :=
  match dict_get c info with Some d => d | None => [] end.

Definition categories : list string :=
  ["Enum"; "Constant"; "Class"; "Function"; "Hook"].

(** What the loop of [gather_info] keeps true of [info]: it has the five
    categories, and no category holds a name twice. *)
Definition wf (info : Info) : Prop :=
  dict_keys info = categories /\
  forall c, NoDup (dict_keys (category info c)).

(** A record that is of one of the types that can have a parent and has
    none. *)
Definition no_parent (info : Info) (t n : string) : Prop :=
  (t = "Constant" /\
   dict_mem (split_head "." n) (category info "Enum") = false)
  \/ (t = "Function" /\
      dict_mem (split_head "::" n) (category info "Class") = false)
  \/ (t = "Hook" /\
      dict_mem (split_head " -> " n) (category info "Class") = false).

(** One of the three conditions that attach a record to a Class holds. *)
Definition has_class_owner (info : Info) (t n : string) : bool :=
  ((t =? "Function") && dict_mem (split_head "::" n) (category info "Class"))
  || ((t =? "Member") && dict_mem (split_head "." n) (category info "Class"))
  || ((t =? "Hook") && dict_mem (split_head " -> " n) (category info "Class")).

(** The block parses to an Enum record named [E]. *)
Definition is_enum_block (E block : string) : Prop :=
  exists i,
    Instance_init (re_sub_separator block) = Ok i /\
    get_str i "Type" = Ok "Enum" /\
    get_str i "Name" = Ok E.

(** [inst] is among the Values of the Enum filed under [E]. *)
Definition nested_under (E : string) (inst : Instance) (info : Info) : Prop :=
  exists e vs,
    dict_get E (category info "Enum") = Some e /\
    getattr e "Values" = Some (AList vs) /\
    In inst vs.


(** [piece] occurs in [text]. *)
Definition contains (piece text : string) : Prop :=
  exists a b, text = a ++ piece ++ b.

(** [piece] occurs in [text] and is not at its end. *)
Definition inside (piece text : string) : Prop :=
  exists a b, text = a ++ piece ++ b /\ b <> "".

(** ** Sample inputs *)

Definition enum_record (name : string) (values : list Instance) : Instance :=
  MkInstance [("Type", AStr "Enum"); ("Name", AStr name);
              ("Values", AList values); ("Description", AStr "")].

Definition raw_C1 : string :=
  "Enum: E" ++ NL ++ NL ++ "Constant: E.X" ++ NL ++ "Value: 1".

Definition constant_C1 : Instance :=
  MkInstance [("Type", AStr "Constant"); ("Name", AStr "E.X");
              ("Value", AStr "1"); ("Description", AStr "")].

Definition info_C1 : Info :=
  dict_set "Constant" [("E.X", constant_C1)]
    (dict_set "Enum" [("E", enum_record "E" [constant_C1])] info_init).

Definition raw_C2 : string := "Member: Foo.bar" ++ NL ++ "Signature: int bar".

Definition function_C2 : Instance :=
  MkInstance [("Type", AStr "Function"); ("Name", AStr "Foo::bar");
              ("Signature", AStr "int bar()"); ("Description", AStr "")].

Definition member_C2 : Instance :=
  MkInstance [("Type", AStr "Member"); ("Name", AStr "Bar.x");
              ("Signature", AStr "int x"); ("Description", AStr "")].

Definition info_C2 : Info :=
  dict_set "Enum" [("Foo", enum_record "Foo" [])] info_init.

Definition block_C3 : string := "Constant: X" ++ NL ++ "Type: Enum".

Definition constant_C4 : Instance :=
  MkInstance [("Type", AStr "Constant"); ("Name", AStr "E.X");
              ("Value", AStr "1"); ("Description", AStr "")].

Definition info_C4 : Info :=
  dict_set "Enum" [("E", enum_record "E" [])] info_init.

Definition info_C4' : Info :=
  dict_set "Constant" [("E.X", constant_C4)]
    (dict_set "Enum" [("E", enum_record "E" [constant_C4])] info_init).

Definition raw_C4_again : string :=
  "Enum: E" ++ NL ++ NL ++ "Constant: E.X" ++ NL ++ "Value: 1" ++ NL ++ NL
  ++ "Enum: E".

Definition block_C5 : string := equals 5 ++ NL ++ "Enum: Foo".

Definition block_C6 : string := "Enum: A" ++ NL ++ "__class__: B".


Definition line_C8 : string := ":a:b: c".

Definition block_C9 : string :=
  "Constant: E.X" ++ NL ++ "Value: 0x10" ++ NL ++ "Description: sixteen".

Definition constant_C10 : Instance :=
  MkInstance [("Type", AStr "Constant"); ("Name", AStr "E.X");
              ("Value", AStr "1"); ("Description", AStr "")].

Definition raw_C10_twice : string :=
  "Enum: E" ++ NL ++ NL ++ "Constant: E.X" ++ NL ++ "Value: 1" ++ NL ++ NL
  ++ "Constant: E.X" ++ NL ++ "Value: 2".

Definition constant_C10_later : Instance :=
  MkInstance [("Type", AStr "Constant"); ("Name", AStr "E.X");
              ("Value", AStr "2"); ("Description", AStr "")].









(** ** Definitions for the further properties *)

(** No character of [s] is a line boundary of [str.splitlines]. *)
Definition single_line (s : string) : bool :=
  str_forall (fun c => negb (is_linebreak c)) s.

(** The attributes [Instance.__init__] creates as lists. *)
Definition list_attributes : list string :=
  ["Values"; "Functions"; "Members"; "Hooks"].

Definition block_X3 : string :=
  "Function: Foo::Bar" ++ NL ++ "Signature: void Foo::Bar(int)" ++ NL
  ++ "Description: does it".

(** The separator and the list of a Class that the loop of [gather_info]
    uses for a record of type [t]. *)
Definition class_rule (t : string) : option (string * string) :=
  if t =? "Function" then Some ("::", "Functions")
  else if t =? "Member" then Some (".", "Members")
  else if t =? "Hook" then Some (" -> ", "Hooks")
  else None.

(** Every record filed in a category has the category as its Type and its
    key as its Name. *)
Definition filed_under_own_name (info : Info) : Prop :=
  forall c n i,
    dict_get n (category info c) = Some i ->
    get_str i "Type" = Ok c /\ get_str i "Name" = Ok n.

(** The four kinds of children: the parent's category and list, the child's
    Type and the separator that ends the parent's name in the child's. *)
Definition child_rules : list (string * string * string * string) :=
  [("Enum", "Values", "Constant", ".");
   ("Class", "Functions", "Function", "::");
   ("Class", "Members", "Member", ".");
   ("Class", "Hooks", "Hook", " -> ")].

(** Every record in a list of a parent is of the Type of that list, and the
    prefix of its Name is the key of the parent. *)
Definition children_belong (info : Info) : Prop :=
  forall cat field ty sep n e vs v,
    In (cat, field, ty, sep) child_rules ->
    dict_get n (category info cat) = Some e ->
    getattr e field = Some (AList vs) ->
    In v vs ->
    get_str v "Type" = Ok ty /\
    exists nm, get_str v "Name" = Ok nm /\ split_head sep nm = n.

(** A record as the parser makes it: the lists it has are empty. *)
Definition fresh (inst : Instance) : Prop :=
  forall a l, getattr inst a = Some (AList l) -> l = [].

Definition class_record (name : string) (functions : list Instance) : Instance :=
  MkInstance [("Type", AStr "Class"); ("Name", AStr name);
              ("Functions", AList functions); ("Members", AList []);
              ("Hooks", AList []); ("Description", AStr "")].

Definition function_X5 : Instance :=
  MkInstance [("Type", AStr "Function"); ("Name", AStr "C::f");
              ("Signature", AStr "void f()"); ("Description", AStr "")].

Definition info_X5 : Info :=
  dict_set "Class" [("C", class_record "C" [])] info_init.

Definition raw_X6 : string :=
  "Enum: E" ++ NL ++ NL ++ "Constant: E.X" ++ NL ++ "Value: 1" ++ NL ++ NL
  ++ "Class: C" ++ NL ++ NL ++ "Hook: C -> OnEvent" ++ NL
  ++ "Signature: void OnEvent()".

Definition constant_X6 : Instance :=
  MkInstance [("Type", AStr "Constant"); ("Name", AStr "E.X");
              ("Value", AStr "1"); ("Description", AStr "")].

Definition hook_X6 : Instance :=
  MkInstance [("Type", AStr "Hook"); ("Name", AStr "C -> OnEvent");
              ("Signature", AStr "void OnEvent()"); ("Description", AStr "")].

Definition class_X6 : Instance :=
  MkInstance [("Type", AStr "Class"); ("Name", AStr "C");
              ("Functions", AList []); ("Members", AList []);
              ("Hooks", AList [hook_X6]); ("Description", AStr "")].

Definition info_X6 : Info :=
  [("Enum", [("E", enum_record "E" [constant_X6])]);
   ("Constant", [("E.X", constant_X6)]);
   ("Class", [("C", class_X6)]);
   ("Function", []);
   ("Hook", [])].

(** Some block of [raw] is empty once its separators are stripped. *)
Definition has_empty_block (raw : string) : Prop :=
  exists block,
    In block (split (NL ++ NL) raw) /\ re_sub_separator block = "".

(** The attribute the renderer reads of every record filed in a category,
    besides Name and Description. *)
Definition rendered_attribute : list (string * string) :=
  [("Constant", "Value"); ("Function", "Signature"); ("Hook", "Signature")].

Definition dump_X9 : string :=
  "1.0" ++ NL ++ "Enum: Foo" ++ NL ++ "Description: test" ++ NL ++ NL
  ++ "Constant: Foo.A" ++ NL ++ "Value: 1" ++ NL ++ "DOCUMENTATION_CLIENT"
  ++ NL.

(** ** Definitions for the properties of the writer *)

Definition not_slash (c : ascii) : bool := negb (Ascii.eqb c "/"%char).

(** The five file names, as they follow the directory in a path. *)
Definition doc_files : list string :=
  ["/enums.md"; "/constants.md"; "/classes.md"; "/functions.md"; "/hooks.md"].

(** The paths [write_docs dir] may create or change. *)
Definition output_paths (dir : string) : list string :=
  dir :: map (String.append dir) doc_files.

(** A statement that leaves every path outside [P] as it is, whether it
    returns or raises. *)
Definition touches_only {A : Type} (P : string -> Prop) (m : M A) : Prop :=
  forall fs r fs',
    m fs = (r, fs') ->
    forall p, ~ P p -> dict_get p fs' = dict_get p fs.

(** The file system lets [write_docs dir] through: nothing has the name
    [dir] or a directory has, and no directory has the name of one of the
    five files. *)
Definition fs_ready (dir : string) (fs : filesystem) : Prop :=
  (dict_get dir fs = None \/ dict_get dir fs = Some Dir)
  /\ forall f, In f doc_files -> dict_get (dir ++ f) fs <> Some Dir.

Definition dump_X11 : string :=
  "7.1" ++ NL ++ "Enum: E" ++ NL ++ "DOCUMENTATION_CLIENT" ++ NL
  ++ "Function: f" ++ NL ++ "Signature: void f()".

Definition fs_X11 : filesystem :=
  [(input_path, File dump_X11); ("notes.txt", File "keep")].

(** The file system after the script has run on [fs_X11]. *)
Definition fs_X11' : filesystem := Eval vm_compute in snd (main fs_X11).

(** The directory step of [write_docs]. *)
Definition enter_dir (dir : string) : M unit :=
  e <~ path_exists dir ;; (if e then ret tt else mkdir dir).

(** One of the five steps: [write(dir + f, docs[i])]. *)
Definition write_doc (dir : string) (docs : list string) (i : nat) (f : string)
    : M unit :=
  d <~ lift (index docs i) ;; write (dir ++ f) d.

(** The steps of [write_docs] after the directory: index and file name. *)
Definition doc_steps : list (nat * string) :=
  [(0, "/enums.md"); (1, "/constants.md"); (2, "/classes.md");
   (3, "/functions.md"); (4, "/hooks.md")]%nat.

Fixpoint write_all (dir : string) (docs : list string)
    (steps : list (nat * string)) : M unit :=
  match steps with
  | [] => ret tt
  | (i, f) :: rest => write_doc dir docs i f ;;; write_all dir docs rest
  end.

(** A step can run: the document exists and no directory has the file's
    path. *)
Definition step_ready (dir : string) (docs : list string) (fs : filesystem)
    (s : nat * string) : Prop :=
  (fst s < length docs)%nat /\ dict_get (dir ++ snd s) fs <> Some Dir.

Definition slash_named (s : nat * string) : Prop :=
  exists g, snd s = String "/"%char g.

(** After the steps, every file holds its document. *)
Definition step_done (dir : string) (docs : list string) (fs : filesystem)
    (s : nat * string) : Prop :=
  exists d, index docs (fst s) = Ok d
            /\ dict_get (dir ++ snd s) fs = Some (File d).

Definition written (dir : string) (docs : list string) (fs : filesystem) : Prop :=
  dict_get dir fs = Some Dir /\ Forall (step_done dir docs fs) doc_steps.

(** [sep.join(l)]. *)
Fixpoint join_rest (sep : string) (l : list string) : string :=
  match l with
  | [] => ""
  | x :: rest => sep ++ x ++ join_rest sep rest
  end.

Definition join (sep : string) (l : list string) : string :=
  match l with
  | [] => ""
  | x :: rest => x ++ join_rest sep rest
  end.

Definition dump_X15 : string := "7.1".

(** Neither a newline nor a carriage return. *)
Definition no_line_end (c : ascii) : bool :=
  negb (Ascii.eqb c nl) && negb (Ascii.eqb c cr).

(** A dump stored with the line endings [\r\n]. *)
Definition stored_X15 : string :=
  "7.1" ++ String cr NL ++ "Enum: E" ++ String cr NL
  ++ "DOCUMENTATION_CLIENT" ++ String cr NL
  ++ "Function: f" ++ String cr NL ++ "Signature: void f()".

Definition fs_X15 : filesystem := [(input_path, File stored_X15)].

Definition dump_X16 : string :=
  "7.1" ++ NL ++ "Enum: E" ++ NL ++ "DOCUMENTATION_CLIENT" ++ NL
  ++ "Enum: F" ++ NL ++ "DOCUMENTATION_CLIENT" ++ NL ++ "Enum: G".

(** ** Definitions for the properties of the renderer *)

(** Every filed record and every child in one of its lists has a
    Description. *)
Definition described (info : Info) : Prop :=
  forall c n i,
    dict_get n (category info c) = Some i ->
    (exists d, get_str i "Description" = Ok d)
    /\ forall field vs v,
         getattr i field = Some (AList vs) -> In v vs ->
         exists d, get_str v "Description" = Ok d.

Definition named (i : Instance) : Prop :=
  exists n d, get_str i "Name" = Ok n /\ get_str i "Description" = Ok d.

(** The record has the attribute, as a string. *)
Definition has_str (field : string) (i : Instance) : bool :=
  is_ok (get_str i field).

(** The attribute is a list of records that satisfy [p], or is the empty
    string. *)
Definition children_ok (field : string) (p : Instance -> bool) (i : Instance)
    : bool :=
  match getattr i field with
  | Some (AList vs) => forallb p vs
  | Some (AStr s) => negb (nonempty s)
  | None => false
  end.

Definition class_ok (c : Instance) : bool :=
  children_ok "Members" (has_str "Signature") c
  && children_ok "Functions" (has_str "Signature") c
  && children_ok "Hooks" (has_str "Signature") c.

(** What the renderer reads besides Name and Description is there. *)
Definition renderable (info : Info) : bool :=
  forallb (children_ok "Values" (has_str "Value"))
    (dict_values (category info "Enum"))
  && forallb (has_str "Value") (dict_values (category info "Constant"))
  && forallb class_ok (dict_values (category info "Class"))
  && forallb (has_str "Signature") (dict_values (category info "Function"))
  && forallb (has_str "Signature") (dict_values (category info "Hook")).

Definition raw_X17 : string :=
  "Enum: E" ++ NL ++ NL ++ "Constant: E.X" ++ NL ++ NL ++ "Class: C".

(** The text ends with a line break, or is empty. *)
Definition ends_nl (s : string) : Prop := exists s', s = s' ++ NL.

Definition nl_or_empty (s : string) : Prop := s = "" \/ ends_nl s.

(** The first lines of every document. *)
Definition page_header (version category pretty : string) : string :=
  "# VScript " ++ category ++ " " ++ pretty ++ ", version " ++ version
  ++ NL ++ NL ++ "Generated by Macosaro" ++ NL ++ NL.

(** * Properties *)

(** ** Strings and dictionaries *)

Lemma append_nil_r (s : string) : s ++ "" = s.
Proof. induction s as [|c s IH]; simpl; [reflexivity | now rewrite IH]. Qed.

Lemma append_assoc_r (a b c : string) : (a ++ b) ++ c = a ++ (b ++ c).
Proof. induction a as [|x a IH]; simpl; [reflexivity | now rewrite IH]. Qed.

Lemma length_append (a b : string) :
  String.length (a ++ b) = String.length a + String.length b.
Proof. induction a as [|c a IH]; simpl; [reflexivity | now rewrite IH]. Qed.

Section DictFacts.
Variable V : Type.
Implicit Types (d : dict V) (k : string) (v : V).

Lemma dict_get_set_eq d k v : dict_get k (dict_set k v d) = Some v.
Proof.
  induction d as [|[k' v'] d IH]; simpl.
  - now rewrite String.eqb_refl.
  - destruct (k =? k') eqn:E; simpl; rewrite ?String.eqb_refl, ?E; auto.
Qed.

Lemma dict_get_set_neq d k k' v :
  k <> k' -> dict_get k (dict_set k' v d) = dict_get k d.
Proof.
  intros Hne. apply String.eqb_neq in Hne.
  induction d as [|[k0 v0] d IH]; simpl.
  - now rewrite Hne.
  - destruct (k' =? k0) eqn:E; simpl.
    + apply String.eqb_eq in E. subst k0. now rewrite Hne.
    + now rewrite IH.
Qed.

Lemma dict_get_set d k k' v :
  dict_get k (dict_set k' v d) = if k =? k' then Some v else dict_get k d.
Proof.
  destruct (String.eqb_spec k k') as [->|Hne].
  - apply dict_get_set_eq.
  - now apply dict_get_set_neq.
Qed.

Lemma dict_mem_keys d k : dict_mem k d = true <-> In k (dict_keys d).
Proof.
  unfold dict_mem, dict_keys.
  induction d as [|[k' v'] d IH]; simpl.
  - split; [discriminate | tauto].
  - destruct (String.eqb_spec k k') as [->|Hne].
    + split; auto.
    + rewrite IH. split; [auto | intros [H|H]; congruence].
Qed.

Lemma dict_keys_set d k v :
  dict_keys (dict_set k v d) =
  if dict_mem k d then dict_keys d else (dict_keys d ++ [k])%list.
Proof.
  unfold dict_mem, dict_keys.
  induction d as [|[k' v'] d IH]; simpl; [reflexivity|].
  destruct (String.eqb_spec k k') as [->|Hne]; simpl; [reflexivity|].
  rewrite IH. now destruct (dict_get k d).
Qed.

Lemma dict_keys_set_mem d k v :
  dict_mem k d = true -> dict_keys (dict_set k v d) = dict_keys d.
Proof. intros H. now rewrite dict_keys_set, H. Qed.

Lemma dict_set_NoDup d k v :
  NoDup (dict_keys d) -> NoDup (dict_keys (dict_set k v d)).
Proof.
  intros Hnd. rewrite dict_keys_set.
  destruct (dict_mem k d) eqn:E; [assumption|].
  apply NoDup_app; [assumption | repeat constructor; simpl; tauto |].
  intros x Hx [<-|[]]. apply dict_mem_keys in Hx. congruence.
Qed.


End DictFacts.

(** ** Attributes of a parsed instance *)

Lemma getattr_assign (o : Instance) (a b : string) (v : attr) :
  getattr (assign o b v) a = if a =? b then Some v else getattr o a.
Proof. unfold getattr, assign. simpl. apply dict_get_set. Qed.

Lemma setattr_ok (o : Instance) (name : string) (v : attr) :
  rejected_name name = false -> setattr o name v = Ok (assign o name v).
Proof.
  unfold rejected_name, setattr. intros H.
  apply orb_false_elim in H as [H ->]. now rewrite H.
Qed.

Lemma setattr_err (o : Instance) (name : string) (v : attr) :
  rejected_name name = true -> is_ok (setattr o name v) = false.
Proof.
  unfold rejected_name, setattr. intros H.
  destruct ((name =? "__class__") || (name =? "__dict__")); [reflexivity|].
  simpl in H. now rewrite H.
Qed.

Lemma setattr_inv (o o' : Instance) (name : string) (v : attr) :
  setattr o name v = Ok o' -> rejected_name name = false /\ o' = assign o name v.
Proof.
  intros H. destruct (rejected_name name) eqn:E.
  - apply (setattr_err o name v) in E. rewrite H in E. discriminate.
  - rewrite setattr_ok in H by assumption. now inversion H.
Qed.

Lemma init_line_first (info : string) :
  init_line new_object info =
  match findall_first info with
  | Some (name, value) => Ok (first_object name value)
  | None => Err IndexError
  end.
Proof.
  unfold init_line, first_object.
  destruct (findall_first info) as [[name value]|]; [|reflexivity].
  simpl. destruct (name =? "Enum"); [reflexivity|].
  now destruct (name =? "Class").
Qed.

Lemma init_line_later (self : Instance) (info : string) :
  getattr self "Type" <> None ->
  init_line self info =
  match findall_first info with
  | Some (name, value) => setattr self name (AStr value)
  | None => Err IndexError
  end.
Proof.
  intros H. unfold init_line.
  destruct (findall_first info) as [[name value]|]; [|reflexivity].
  destruct (getattr self "Type"); [reflexivity | congruence].
Qed.

Lemma first_object_Type (name value : string) :
  getattr (first_object name value) "Type" = Some (AStr name).
Proof.
  unfold first_object.
  destruct (name =? "Enum"); [reflexivity|].
  now destruct (name =? "Class").
Qed.

(** What the lines after the first leave in each attribute. *)
Lemma init_lines_attr (lines : list string) :
  forall self self' a,
    getattr self "Type" <> None ->
    init_lines self lines = Ok self' ->
    getattr self' a =
    match last_value a lines with
    | Some v => Some (AStr v)
    | None => getattr self a
    end.
Proof.
  induction lines as [|l rest IH]; intros self self' a HT H; simpl in *.
  - now inversion H.
  - rewrite init_line_later in H by assumption.
    destruct (findall_first l) as [[k v]|]; [|discriminate].
    destruct (setattr self k (AStr v)) as [self1|e] eqn:Es; [|discriminate].
    simpl in H. apply setattr_inv in Es as [_ ->].
    assert (HT1 : getattr (assign self k (AStr v)) "Type" <> None)
      by (rewrite getattr_assign; destruct ("Type" =? k); congruence).
    rewrite (IH _ _ a HT1 H).
    destruct (last_value a rest); [reflexivity|].
    rewrite getattr_assign. now destruct (a =? k).
Qed.

(** The attributes of the record made from a block that has lines. *)
Lemma Instance_init_attr (block l0 : string) (rest : list string)
    (inst : Instance) :
  splitlines block = l0 :: rest ->
  Instance_init block = Ok inst ->
  exists k v,
    findall_first l0 = Some (k, v) /\
    forall a,
      getattr inst a =
      match last_value a rest with
      | Some x => Some (AStr x)
      | None =>
          match getattr (first_object k v) a with
          | Some x => Some x
          | None => if a =? "Description" then Some (AStr "") else None
          end
      end.
Proof.
  unfold Instance_init. intros -> H. simpl in H.
  rewrite init_line_first in H.
  destruct (findall_first l0) as [[k v]|]; [|discriminate].
  simpl in H. exists k, v. split; [reflexivity|].
  destruct (init_lines (first_object k v) rest) as [self|e] eqn:E;
    [|discriminate].
  simpl in H.
  assert (HT : getattr (first_object k v) "Type" <> None)
    by (rewrite first_object_Type; discriminate).
  intros a. pose proof (init_lines_attr rest _ _ a HT E) as Ha.
  pose proof (init_lines_attr rest _ _ "Description" HT E) as Hd.
  destruct (getattr self "Description") as [d|] eqn:Ed; inversion H; subst.
  - rewrite Ha. destruct (last_value a rest) eqn:El; [reflexivity|].
    destruct (getattr (first_object k v) a) eqn:Ea; [reflexivity|].
    destruct (String.eqb_spec a "Description") as [->|]; [|reflexivity].
    rewrite El, Ea in Hd. congruence.
  - rewrite getattr_assign.
    destruct (String.eqb_spec a "Description") as [->|].
    + destruct (last_value "Description" rest); [congruence|].
      now rewrite <- Hd.
    + rewrite Ha. destruct (last_value a rest); [reflexivity|].
      now destruct (getattr (first_object k v) a).
Qed.

(** ** The line pattern *)

Lemma span_append (p : ascii -> bool) (s : string) :
  fst (span p s) ++ snd (span p s) = s.
Proof.
  induction s as [|c t IH]; simpl; [reflexivity|].
  destruct (p c); [|reflexivity].
  destruct (span p t) as [a b]. simpl in *. now rewrite IH.
Qed.

Lemma span_fst_forall (p : ascii -> bool) (s : string) :
  str_forall p (fst (span p s)) = true.
Proof.
  induction s as [|c t IH]; simpl; [reflexivity|].
  destruct (p c) eqn:E; [|reflexivity].
  destruct (span p t) as [a b]. simpl in *. now rewrite E.
Qed.

Lemma span_snd_head (p : ascii -> bool) (s : string) (c : ascii) (r : string) :
  snd (span p s) = String c r -> p c = false.
Proof.
  induction s as [|x t IH]; simpl; [discriminate|].
  destruct (p x) eqn:E.
  - destruct (span p t) as [a b]. simpl in *. exact IH.
  - simpl. intros H. now inversion H; subst.
Qed.

Lemma span_forall (p : ascii -> bool) (s : string) :
  str_forall p s = true -> span p s = (s, EmptyString).
Proof.
  induction s as [|c t IH]; simpl; [reflexivity|].
  intros H. apply andb_prop in H as [-> H]. now rewrite IH.
Qed.

Lemma str_forall_app (p : ascii -> bool) (a b : string) :
  str_forall p (a ++ b) = str_forall p a && str_forall p b.
Proof.
  induction a as [|x a IH]; simpl; [reflexivity|].
  now rewrite IH, andb_assoc.
Qed.

(** A text without a colon has no match. *)
Lemma findall_first_no_colon (s : string) :
  str_forall not_colon s = true -> findall_first s = None.
Proof.
  induction s as [|c t IH]; intros H.
  - reflexivity.
  - simpl findall_first. unfold match_here. rewrite (span_forall _ _ H).
    simpl in H. apply andb_prop in H as [_ H]. now apply IH.
Qed.

Lemma strip_colons_cons (c : ascii) (t : string) :
  strip_colons (String c t) =
  if Ascii.eqb c colon then strip_colons t else String c t.
Proof.
  unfold strip_colons. simpl. unfold is_colon at 1.
  destruct (Ascii.eqb c colon); [|reflexivity].
  now destruct (span is_colon t).
Qed.

Lemma match_here_colon (t : string) : match_here (String colon t) = None.
Proof. reflexivity. Qed.

Lemma span_not_colon_cons (c : ascii) (t : string) :
  Ascii.eqb c colon = false ->
  span not_colon (String c t) =
  (String c (fst (span not_colon t)), snd (span not_colon t)).
Proof.
  intros Ec. simpl. unfold not_colon at 1. rewrite Ec. simpl.
  now destruct (span not_colon t).
Qed.

Lemma findall_first_cons (c : ascii) (t : string) :
  findall_first (String c t) =
  match match_here (String c t) with
  | Some m => Some m
  | None => findall_first t
  end.
Proof. reflexivity. Qed.

Lemma findall_first_strip_colons (line : string) :
  findall_first line = split_at_first_colon (strip_colons line).
Proof.
  induction line as [|c t IH]; [reflexivity|].
  rewrite strip_colons_cons, findall_first_cons.
  destruct (Ascii.eqb c colon) eqn:Ec.
  - apply Ascii.eqb_eq in Ec. subst c.
    rewrite match_here_colon. exact IH.
  - unfold match_here, split_at_first_colon.
    rewrite (span_not_colon_cons c t Ec).
    pose proof (span_snd_head not_colon t) as Hh.
    pose proof (span_append not_colon t) as Ha.
    pose proof (span_fst_forall not_colon t) as Hf.
    destruct (span not_colon t) as [a b]. simpl fst in *. simpl snd in *.
    destruct b as [|c' r].
    + rewrite append_nil_r in Ha. subst a.
      now apply findall_first_no_colon.
    + specialize (Hh c' r eq_refl). unfold not_colon in Hh.
      apply negb_false_iff in Hh. now rewrite Hh.
Qed.

(** ** When parsing a block fails *)

Lemma init_lines_ok (rest : list string) :
  forall self,
    getattr self "Type" <> None ->
    is_ok (init_lines self rest) = forallb (line_ok false) rest.
Proof.
  induction rest as [|l rest IH]; intros self HT; simpl; [reflexivity|].
  rewrite init_line_later by assumption. unfold line_ok at 1.
  destruct (findall_first l) as [[k v]|]; [|reflexivity].
  simpl. destruct (rejected_name k) eqn:Er; simpl.
  - pose proof (setattr_err self k (AStr v) Er) as He.
    now destruct (setattr self k (AStr v)).
  - rewrite setattr_ok by assumption. simpl. apply IH.
    rewrite getattr_assign. destruct ("Type" =? k); congruence.
Qed.

Lemma Instance_init_ok (block : string) :
  is_ok (Instance_init block) = lines_ok (splitlines block).
Proof.
  unfold Instance_init.
  assert (Hd : forall r : result Instance,
    is_ok (self <- r ;;
           match getattr self "Description" with
           | None => Ok (assign self "Description" (AStr ""))
           | Some _ => Ok self
           end) = is_ok r).
  { intros [self|e]; simpl; [|reflexivity].
    now destruct (getattr self "Description"). }
  rewrite Hd. destruct (splitlines block) as [|l0 rest]; [reflexivity|].
  simpl. rewrite init_line_first. unfold line_ok at 1.
  destruct (findall_first l0) as [[k v]|]; [|reflexivity].
  simpl. apply init_lines_ok. rewrite first_object_Type. discriminate.
Qed.

Lemma forallb_false_split (A : Type) (p : A -> bool) (l : list A) :
  forallb p l = false <->
  exists pre x post, l = (pre ++ x :: post)%list /\ p x = false.
Proof.
  split.
  - induction l as [|a l IH]; simpl; [discriminate|].
    destruct (p a) eqn:E; simpl.
    + intros H. destruct (IH H) as (pre & x & post & -> & Hx).
      now exists (a :: pre), x, post.
    + intros _. now exists [], a, l.
  - intros (pre & x & post & -> & Hx). rewrite forallb_app. simpl.
    rewrite Hx. simpl. apply andb_false_r.
Qed.

(** ** C3: the Type of a parsed record *)

(** C3, counterexample.  The first line of [block_C3] has key [Constant],
    yet the record parsed from the block has Type [Enum]: the later line
    [Type: Enum] goes through [setattr] like any other attribute line. *)
Lemma C3_later_Type_line_changes_Type :
  option_map fst (findall_first (hd "" (splitlines block_C3))) = Some "Constant"
  /\ (inst <- Instance_init block_C3 ;; get_str inst "Type") = Ok "Enum".
Proof. split; reflexivity. Qed.

(** C3, as amended.  For every block with at least one line that parses,
    the first line matches the pattern and the record's Type is the value of
    the last later line whose key is [Type] if there is one, and the key of
    the first line otherwise. *)
Theorem C3_Type_is_first_key_unless_reassigned :
  forall (block l0 : string) (rest : list string) (inst : Instance),
    splitlines block = l0 :: rest ->
    Instance_init block = Ok inst ->
    exists k v,
      findall_first l0 = Some (k, v) /\
      get_str inst "Type" =
      Ok (match last_value "Type" rest with Some t => t | None => k end).
Proof.
  intros block l0 rest inst Hl Hi.
  destruct (Instance_init_attr block l0 rest inst Hl Hi) as (k & v & Hk & Ha).
  exists k, v. split; [assumption|].
  unfold get_str. rewrite (Ha "Type").
  destruct (last_value "Type" rest); [reflexivity|].
  now rewrite first_object_Type.
Qed.

Lemma C3_Type_is_first_key_unless_reassigned_witness :
  exists k v,
    findall_first "Enum: Foo" = Some (k, v) /\
    get_str (MkInstance [("Type", AStr "Enum"); ("Name", AStr "Foo");
                         ("Values", AList []); ("Description", AStr "d")])
            "Type" =
    Ok (match last_value "Type" ["Description: d"] with
        | Some t => t
        | None => k
        end).
Proof.
  apply (C3_Type_is_first_key_unless_reassigned
           ("Enum: Foo" ++ NL ++ "Description: d")); reflexivity.
Defined.

(** ** C6: when parsing fails *)

(** C6, counterexample.  The empty block is parsed without failure, into a
    record that has a Description and nothing else; and [block_C6], whose two
    lines both match the pattern, fails to parse. *)
Lemma C6_empty_block_parses :
  Instance_init "" = Ok (MkInstance [("Description", AStr "")])
  /\ map findall_first (splitlines block_C6)
     = [Some ("Enum", "A"); Some ("__class__", "B")]
  /\ Instance_init block_C6 = Err TypeError.
Proof. repeat split; reflexivity. Qed.

(** C6, as amended.  Parsing a block fails exactly when one of its lines
    does not match the pattern, or a line after the first has a key that
    [setattr] refuses.  The empty block does not fail in the parser: it gives
    a record without Type, and it is [gather_info] that fails on it, reading
    the Type. *)
Theorem C6_parse_fails_iff_bad_line :
  (forall block : string,
      is_ok (Instance_init block) = false <->
      exists pre l post,
        splitlines block = (pre ++ l :: post)%list /\
        (findall_first l = None \/
         (pre <> [] /\
          exists k v, findall_first l = Some (k, v) /\ rejected_name k = true)))
  /\ is_ok (Instance_init "") = true
  /\ (forall info : Info, gather_step info "" = Err AttributeError).
Proof.
  split; [|split; reflexivity].
  intros block. rewrite Instance_init_ok.
  destruct (splitlines block) as [|l0 rest]; simpl.
  - split; [discriminate|].
    intros (pre & l & post & H & _). now destruct pre.
  - unfold line_ok at 1. split.
    + destruct (findall_first l0) as [[k0 v0]|] eqn:E0.
      * simpl. intros H. apply forallb_false_split in H.
        destruct H as (pre & l & post & -> & Hl).
        exists (l0 :: pre), l, post. split; [reflexivity|].
        unfold line_ok in Hl.
        destruct (findall_first l) as [[k v]|]; [|now left].
        right. split; [discriminate|]. exists k, v. split; [reflexivity|].
        simpl in Hl. now apply negb_false_iff in Hl.
      * intros _. exists [], l0, rest. split; [reflexivity | now left].
    + intros (pre & l & post & H & Hbad).
      destruct pre as [|p pre]; simpl in H; inversion H; subst.
      * destruct Hbad as [-> | [Hne _]]; [reflexivity | congruence].
      * destruct (findall_first p) as [[k0 v0]|]; [|reflexivity].
        simpl. apply forallb_false_split. exists pre, l, post.
        split; [reflexivity|]. unfold line_ok.
        destruct Hbad as [-> | (_ & k & v & -> & Hr)]; [reflexivity|].
        simpl. now rewrite Hr.
Qed.

(** ** C8: where a line is split *)

(** C8, counterexample.  [line_C8] is split after [a], at its second colon:
    neither at its first colon nor at its first colon followed by white
    space. *)
Lemma C8_split_not_at_first_colon :
  findall_first line_C8 = Some ("a", "b: c")
  /\ split_at_first_colon line_C8 = Some ("", "a:b: c")
  /\ split_at_first_colon_space line_C8 = Some (":a:b", "c").
Proof. repeat split; reflexivity. Qed.

Lemma span_fst_empty (p : ascii -> bool) (s : string) :
  fst (span p s) = EmptyString -> snd (span p s) = s.
Proof.
  destruct s as [|c t]; simpl; [reflexivity|].
  destruct (p c); [|reflexivity].
  destruct (span p t). discriminate.
Qed.

Lemma split_at_first_colon_inv (s k v : string) :
  split_at_first_colon s = Some (k, v) ->
  exists rest,
    s = k ++ String colon rest /\
    str_forall not_colon k = true /\
    v = value_of rest.
Proof.
  unfold split_at_first_colon. intros H.
  pose proof (span_snd_head not_colon s) as Hh.
  pose proof (span_append not_colon s) as Ha.
  pose proof (span_fst_forall not_colon s) as Hf.
  destruct (span not_colon s) as [a b]. simpl in *.
  destruct b as [|c rest]; [discriminate|]. inversion H; subst.
  specialize (Hh c rest eq_refl). unfold not_colon in Hh.
  apply negb_false_iff, Ascii.eqb_eq in Hh. subst c.
  exists rest. auto.
Qed.

(** C8, as amended.  The split is at the first colon that comes after a
    character other than a colon: a matching line is a run of colons (empty
    when the line does not begin with a colon), the key, which is not empty
    and has no colon, that colon, a run of white space, the value, and a tail
    that is empty when the line has no newline.  The value is what follows
    the white space, whatever colons it contains.  For a line that does not
    begin with a colon this is the split at its first colon. *)
Theorem C8_split_at_first_colon_after_key :
  forall line k v : string,
    findall_first line = Some (k, v) ->
    exists colons ws tail : string,
      line = colons ++ k ++ String colon (ws ++ v ++ tail)
      /\ str_forall is_colon colons = true
      /\ k <> EmptyString
      /\ str_forall not_colon k = true
      /\ str_forall is_space ws = true
      /\ (forall c r, v ++ tail = String c r -> is_space c = false)
      /\ str_forall not_newline v = true
      /\ (str_forall not_newline line = true -> tail = EmptyString)
      /\ (colons = EmptyString ->
          split_at_first_colon line = Some (k, v)).
Proof.
  intros line k v H. rewrite findall_first_strip_colons in H.
  pose proof (split_at_first_colon_inv _ _ _ H) as (rest & Hs & Hk & Hv).
  exists (fst (span is_colon line)), (fst (span is_space rest)),
         (snd (span not_newline (snd (span is_space rest)))).
  assert (Hline : line = fst (span is_colon line) ++ k ++
                         String colon (fst (span is_space rest) ++ v ++
                           snd (span not_newline (snd (span is_space rest))))).
  { rewrite Hv. unfold value_of. rewrite span_append, span_append, <- Hs.
    unfold strip_colons. now rewrite span_append. }
  split; [exact Hline|].
  split; [apply span_fst_forall|].
  split.
  { intros ->. simpl in Hs.
    apply (span_snd_head is_colon line) in Hs. discriminate. }
  split; [exact Hk|].
  split; [apply span_fst_forall|].
  split.
  { intros c r Hc. subst v. unfold value_of in Hc. rewrite span_append in Hc.
    now apply (span_snd_head is_space rest) in Hc. }
  split; [subst v; apply span_fst_forall|].
  split.
  { intros Hnl.
    destruct (snd (span not_newline (snd (span is_space rest))))
      as [|c r] eqn:Et; [reflexivity|].
    apply span_snd_head in Et.
    rewrite Hline in Hnl. rewrite !str_forall_app in Hnl. simpl in Hnl.
    rewrite !str_forall_app in Hnl. simpl in Hnl. rewrite Et in Hnl.
    rewrite !andb_false_r in Hnl. discriminate. }
  intros Hc. unfold strip_colons in H.
  rewrite (span_fst_empty _ _ Hc) in H. exact H.
Qed.

Lemma C8_split_at_first_colon_after_key_witness :
  exists colons ws tail : string,
    "Signature: void A::f()" =
      colons ++ "Signature" ++ String colon (ws ++ "void A::f()" ++ tail)
    /\ str_forall is_colon colons = true
    /\ "Signature" <> EmptyString
    /\ str_forall not_colon "Signature" = true
    /\ str_forall is_space ws = true
    /\ (forall c r, "void A::f()" ++ tail = String c r -> is_space c = false)
    /\ str_forall not_newline "void A::f()" = true
    /\ (str_forall not_newline "Signature: void A::f()" = true ->
        tail = EmptyString)
    /\ (colons = EmptyString ->
        split_at_first_colon "Signature: void A::f()"
        = Some ("Signature", "void A::f()")).
Proof.
  apply (C8_split_at_first_colon_after_key "Signature: void A::f()").
  reflexivity.
Defined.

(** ** C5: the separator lines that are stripped *)

(** C5, counterexample.  A separator line of five equals signs is left in
    the block, which then fails to parse; of a line of 38 equals signs one
    sign is left, and a line of 74 is removed whole. *)
Lemma C5_short_run_not_stripped :
  re_sub_separator block_C5 = block_C5
  /\ Instance_init (re_sub_separator block_C5) = Err IndexError
  /\ re_sub_separator (equals 38 ++ NL ++ "Enum: Foo")
     = "=" ++ NL ++ "Enum: Foo"
  /\ re_sub_separator (equals 74 ++ NL ++ "Enum: Foo") = "Enum: Foo".
Proof. repeat split; reflexivity. Qed.

Lemma eq_run_spec (n : nat) (s r : string) :
  eq_run n s = Some r <-> s = equals n ++ r.
Proof.
  revert s. induction n as [|n IH]; intros s; simpl.
  - split; [intros H; now inversion H | now intros ->].
  - destruct s as [|c t].
    + split; discriminate.
    + destruct (Ascii.eqb_spec c equals_sign) as [->|Hne].
      * rewrite IH. split; [now intros -> | intros H; now inversion H].
      * split; [discriminate | intros H; inversion H; congruence].
Qed.

Lemma eq_run_equals (n : nat) (r : string) : eq_run n (equals n ++ r) = Some r.
Proof. now apply eq_run_spec. Qed.

Lemma sub_from_skip (a : string) :
  forall (k : nat) (s : string),
    sub_from (String.length a + k) (a ++ s) = sub_from k s.
Proof. induction a as [|c a IH]; intros k s; simpl; [reflexivity | apply IH]. Qed.

Lemma length_equals (n : nat) : String.length (equals n) = n.
Proof. induction n; simpl; congruence. Qed.

Lemma sub_from_opt_nl (post : string) :
  sub_from (opt_nl_length post) post = sub_from 0 (strip_first_nl post).
Proof.
  destruct post as [|c t]; [reflexivity|].
  unfold opt_nl_length, strip_first_nl.
  destruct (Ascii.eqb c nl); reflexivity.
Qed.

(** A match found at the start of [s] covers a run of 37 equals signs. *)
Lemma sep_match_some (s : string) (k : nat) :
  sep_match s = Some k ->
  exists a b, s = a ++ equals 37 ++ b.
Proof.
  unfold sep_match. destruct s as [|c t]; [discriminate|].
  destruct (Ascii.eqb c nl).
  - destruct (eq_run 37 t) as [r|] eqn:E; [|discriminate].
    intros _. apply eq_run_spec in E. exists (String c ""), r. now rewrite E.
  - destruct (eq_run 37 (String c t)) as [r|] eqn:E; [|discriminate].
    intros _. apply eq_run_spec in E. now exists "", r.
Qed.

Lemma sub_from_0_cons (c : ascii) (t : string) :
  sub_from 0 (String c t) =
  match sep_match (String c t) with
  | Some (S k) => sub_from k t
  | _ => String c (sub_from 0 t)
  end.
Proof. reflexivity. Qed.

Lemma sub_from_no_run (s : string) :
  (forall a b, s <> a ++ equals 37 ++ b) -> sub_from 0 s = s.
Proof.
  induction s as [|c t IH]; intros H; [reflexivity|].
  rewrite sub_from_0_cons.
  destruct (sep_match (String c t)) as [k|] eqn:E.
  - apply sep_match_some in E as (a & b & E). now apply H in E.
  - rewrite IH; [reflexivity|].
    intros a b ->. now apply (H (String c a) b).
Qed.

Lemma sep_match_run (post : string) :
  sep_match (equals 37 ++ post) = Some (37 + opt_nl_length post).
Proof.
  unfold sep_match.
  change (equals 37 ++ post) with (String equals_sign (equals 36 ++ post)) at 1.
  change (Ascii.eqb equals_sign nl) with false. cbv iota.
  change (String equals_sign (equals 36 ++ post)) with (equals 37 ++ post).
  now rewrite eq_run_equals.
Qed.

Lemma sub_from_run (post : string) :
  sub_from 0 (equals 37 ++ post) = sub_from 0 (strip_first_nl post).
Proof.
  change (equals 37 ++ post) with (String equals_sign (equals 36 ++ post)).
  rewrite sub_from_0_cons.
  change (String equals_sign (equals 36 ++ post)) with (equals 37 ++ post).
  rewrite sep_match_run.
  change (37 + opt_nl_length post) with (S (36 + opt_nl_length post)).
  cbv iota.
  rewrite <- (length_equals 36) at 1.
  rewrite sub_from_skip. apply sub_from_opt_nl.
Qed.

Lemma has_run_spec (n : nat) (s : string) :
  has_run n s = true <-> exists a b, s = a ++ equals n ++ b.
Proof.
  induction s as [|c t IH].
  - cbn [has_run]. destruct (eq_run n "") as [r|] eqn:E.
    + split; [intros _|reflexivity]. apply eq_run_spec in E.
      now exists "", r.
    + split; [discriminate|]. intros (a & b & H).
      destruct a as [|x a]; [|discriminate]. simpl in H.
      apply eq_run_spec in H. congruence.
  - cbn [has_run]. destruct (eq_run n (String c t)) as [r|] eqn:E.
    + split; [intros _|reflexivity]. apply eq_run_spec in E.
      now exists "", r.
    + rewrite IH. split.
      * intros (a & b & ->). now exists (String c a), b.
      * intros (a & b & H). destruct a as [|x a].
        -- simpl in H. apply eq_run_spec in H. congruence.
        -- inversion H. now exists a, b.
Qed.

Lemma has_run_false (n : nat) (s : string) :
  has_run n s = false <-> forall a b, s <> a ++ equals n ++ b.
Proof.
  split.
  - intros H a b E.
    assert (Ht : has_run n s = true) by (apply has_run_spec; now exists a, b).
    congruence.
  - intros H. destruct (has_run n s) eqn:E; [|reflexivity].
    apply has_run_spec in E as (a & b & E). now destruct (H a b).
Qed.

Lemma has_run_tail (n : nat) (c : ascii) (t : string) :
  has_run n (String c t) = false -> has_run n t = false.
Proof.
  cbn [has_run]. now destruct (eq_run n (String c t)).
Qed.

Lemma has_run_head (n : nat) (s : string) :
  has_run n s = false -> eq_run n s = None.
Proof.
  destruct s as [|c t]; cbn [has_run];
    [destruct (eq_run n "") | destruct (eq_run n (String c t))];
    congruence.
Qed.

Lemma equals_snoc (n : nat) (r : string) :
  equals n ++ String equals_sign r = equals (S n) ++ r.
Proof. induction n as [|n IH]; simpl; [reflexivity | now rewrite IH]. Qed.

(** Equals signs at the start of [x ++ y] that fit in [x] are at the start
    of [x]. *)
Lemma eq_run_in_prefix (n : nat) :
  forall x y r,
    eq_run n (x ++ y) = Some r -> n <= String.length x ->
    exists b, eq_run n x = Some b.
Proof.
  induction n as [|n IH]; intros x y r H Hl; [now exists x|].
  destruct x as [|c x]; [simpl in Hl; lia|].
  simpl in H |- *. destruct (Ascii.eqb c equals_sign); [|discriminate].
  apply (IH x y r H). simpl in Hl. lia.
Qed.

(** No match of the pattern begins in [pre] when the run that follows it is
    the first of its length. *)
Lemma sep_match_before_run (c : ascii) (pre post : string) :
  has_run 37 (String c pre ++ equals 36) = false ->
  sep_match (String c (pre ++ equals 37 ++ post))
  = match pre with
    | EmptyString =>
        if Ascii.eqb c nl then Some (1 + 37 + opt_nl_length post) else None
    | _ => None
    end.
Proof.
  intros H.
  assert (E37 : equals 37 ++ post = equals 36 ++ String equals_sign post)
    by (symmetry; apply equals_snoc).
  assert (Hhead : eq_run 37 (String c (pre ++ equals 37 ++ post)) = None).
  { destruct (eq_run 37 (String c (pre ++ equals 37 ++ post))) as [r|] eqn:E;
      [|reflexivity].
    exfalso. rewrite E37 in E.
    change (String c (pre ++ equals 36 ++ String equals_sign post))
      with (String c pre ++ equals 36 ++ String equals_sign post) in E.
    rewrite <- append_assoc_r in E.
    apply eq_run_in_prefix in E as [b E].
    - apply has_run_head in H. congruence.
    - rewrite length_append, length_equals. simpl. lia. }
  unfold sep_match. rewrite Hhead.
  destruct (Ascii.eqb c nl) eqn:En.
  - destruct pre as [|c' pre].
    + change ("" ++ equals 37 ++ post) with (equals 37 ++ post).
      now rewrite eq_run_equals.
    + destruct (eq_run 37 (String c' pre ++ equals 37 ++ post)) as [r|] eqn:E;
        [|reflexivity].
      exfalso. rewrite E37 in E. rewrite <- append_assoc_r in E.
      apply eq_run_in_prefix in E as [b E].
      * pose proof (has_run_head 37 _
                      (has_run_tail 37 c (String c' pre ++ equals 36) H))
          as Hn.
        congruence.
      * rewrite length_append, length_equals. simpl. lia.
  - now destruct pre.
Qed.

Lemma sub_from_leftmost_run (pre post : string) :
  has_run 37 (pre ++ equals 36) = false ->
  sub_from 0 (pre ++ equals 37 ++ post)
  = strip_last_nl pre ++ sub_from 0 (strip_first_nl post).
Proof.
  induction pre as [|c pre IH]; intros H.
  - apply sub_from_run.
  - pose proof (has_run_tail 37 c _ H) as Ht. specialize (IH Ht).
    change ((String c pre) ++ equals 37 ++ post)
      with (String c (pre ++ equals 37 ++ post)).
    rewrite sub_from_0_cons, (sep_match_before_run c pre post H).
    destruct pre as [|c' pre'].
    + change ("" ++ equals 37 ++ post) with (equals 37 ++ post) in *.
      destruct (Ascii.eqb c nl) eqn:En.
      * change (1 + 37 + opt_nl_length post)
          with (S (37 + opt_nl_length post)).
        cbv iota. rewrite <- (length_equals 37) at 1.
        rewrite sub_from_skip, sub_from_opt_nl. simpl. now rewrite En.
      * rewrite IH. simpl. now rewrite En.
    + rewrite IH. reflexivity.
Qed.

(** Every text with a run of 37 equals signs is some [pre], the first such
    run, and the text after it. *)
Lemma leftmost_run (s : string) :
  has_run 37 s = true ->
  exists pre post,
    s = pre ++ equals 37 ++ post /\ has_run 37 (pre ++ equals 36) = false.
Proof.
  induction s as [|c t IH]; [discriminate|].
  cbn [has_run]. destruct (eq_run 37 (String c t)) as [r|] eqn:E.
  - intros _. apply eq_run_spec in E. exists "", r.
    split; [exact E | reflexivity].
  - intros H. destruct (IH H) as (pre & post & -> & Hfree).
    exists (String c pre), post. split; [reflexivity|].
    change (String c pre ++ equals 36) with (String c (pre ++ equals 36)).
    cbn [has_run].
    destruct (eq_run 37 (String c (pre ++ equals 36))) as [b|] eqn:Eb;
      [|exact Hfree].
    exfalso. apply eq_run_spec in Eb.
    assert (Es : String c (pre ++ equals 37 ++ post)
                 = equals 37 ++ b ++ String equals_sign post).
    { rewrite <- (equals_snoc 36 post).
      change (String c (pre ++ equals 36 ++ String equals_sign post))
        with (String c pre ++ equals 36 ++ String equals_sign post).
      rewrite <- append_assoc_r.
      change (String c pre ++ equals 36) with (String c (pre ++ equals 36)).
      rewrite Eb. now rewrite !append_assoc_r. }
    apply eq_run_spec in Es. congruence.
Qed.

(** C5, as amended.  A block without 37 equals signs in a row, such as one
    with a shorter separator line, is left as it is.  Every other block is
    some text [pre], its first run of 37 equals signs and the text [post]
    after it: [pre] is kept, less the newline at its end when it has one,
    the 37 signs are removed, and [post], less the newline at its start when
    it has one, is treated likewise.  So of a longer run 37 signs are
    removed at a time. *)
Theorem C5_separator_of_37_stripped :
  (forall s : string, has_run 37 s = false -> re_sub_separator s = s)
  /\ (forall s : string,
         has_run 37 s = true ->
         exists pre post,
           s = pre ++ equals 37 ++ post
           /\ has_run 37 (pre ++ equals 36) = false)
  /\ (forall pre post : string,
         has_run 37 (pre ++ equals 36) = false ->
         re_sub_separator (pre ++ equals 37 ++ post)
         = strip_last_nl pre ++ re_sub_separator (strip_first_nl post))
  /\ (forall (n : nat) (post : string),
         re_sub_separator (equals (37 + S n) ++ post)
         = re_sub_separator (equals (S n) ++ post)).
Proof.
  split; [|split; [|split]].
  - intros s H. apply sub_from_no_run. now apply has_run_false.
  - exact leftmost_run.
  - exact sub_from_leftmost_run.
  - intros n post.
    assert (E : equals (37 + S n) ++ post
                = "" ++ equals 37 ++ String equals_sign (equals n ++ post)).
    { clear. change (37 + S n) with (S (36 + S n)).
      generalize 36. intros k. induction k as [|k IH]; [reflexivity|].
      simpl in *. now rewrite IH. }
    rewrite E. unfold re_sub_separator.
    rewrite (sub_from_leftmost_run "" _ eq_refl). reflexivity.
Qed.

Lemma C5_separator_of_37_stripped_witness :
  has_run 37 block_C5 = false
  /\ re_sub_separator block_C5 = block_C5
  /\ has_run 37 (("Signature: f(int a = 0)" ++ NL) ++ equals 36) = false
  /\ re_sub_separator
       (("Signature: f(int a = 0)" ++ NL) ++ equals 37
        ++ (NL ++ "Description: d"))
     = "Signature: f(int a = 0)" ++ "Description: d".
Proof.
  destruct C5_separator_of_37_stripped as (Hnone & _ & Hrun & _).
  split; [reflexivity|].
  split; [exact (Hnone block_C5 eq_refl)|].
  split; [reflexivity|].
  rewrite (Hrun ("Signature: f(int a = 0)" ++ NL) (NL ++ "Description: d")
             eq_refl).
  reflexivity.
Defined.

(** ** The state of gather_info *)

Lemma wf_init : wf info_init.
Proof.
  split; [reflexivity|]. intros c. unfold category.
  simpl. repeat (destruct (c =? _); [constructor|]). constructor.
Qed.

Lemma wf_get (info : Info) (c : string) :
  wf info -> In c categories -> dict_get c info = Some (category info c).
Proof.
  intros [Hk _] Hin. unfold category. rewrite <- Hk in Hin.
  apply dict_mem_keys in Hin. unfold dict_mem in Hin.
  destruct (dict_get c info); [reflexivity | discriminate].
Qed.

Lemma category_get (info : Info) (c : string) (d : dict Instance) :
  dict_get c info = Some d -> category info c = d.
Proof. unfold category. now intros ->. Qed.

Lemma category_set (info : Info) (c c' : string) (d : dict Instance) :
  category (dict_set c' d info) c = if c =? c' then d else category info c.
Proof. unfold category. rewrite dict_get_set. now destruct (c =? c'). Qed.

Lemma wf_set (info : Info) (c : string) (d : dict Instance) :
  wf info -> dict_get c info <> None -> NoDup (dict_keys d) ->
  wf (dict_set c d info).
Proof.
  intros [Hk Hn] Hc Hd. split.
  - rewrite dict_keys_set_mem; [assumption|].
    unfold dict_mem. destruct (dict_get c info); congruence.
  - intros c0. rewrite category_set. destruct (c0 =? c); auto.
Qed.

Lemma append_child_inv (info info' : Info) (cat key field : string)
    (inst : Instance) :
  append_child info cat key field inst = Ok info' ->
  exists d parent l,
    dict_get cat info = Some d /\
    dict_get key d = Some parent /\
    getattr parent field = Some (AList l) /\
    info' = dict_set cat
              (dict_set key (assign parent field (AList (l ++ [inst])%list)) d)
              info.
Proof.
  unfold append_child, dict_item.
  destruct (dict_get cat info) as [d|] eqn:Ed; [|discriminate]. simpl.
  destruct (dict_get key d) as [parent|] eqn:Ep; [|discriminate]. simpl.
  destruct (getattr parent field) as [[s|l]|] eqn:Ea; try discriminate.
  intros H. inversion H. exists d, parent, l. repeat split; assumption.
Qed.

Lemma file_record_inv (info info' : Info) (inst : Instance) :
  file_record info inst = Ok info' ->
  exists t n d,
    get_str inst "Type" = Ok t /\
    get_str inst "Name" = Ok n /\
    dict_get t info = Some d /\
    info' = dict_set t (dict_set n inst d) info.
Proof.
  unfold file_record, dict_item.
  destruct (get_str inst "Type") as [t|] eqn:Et; [|discriminate]. simpl.
  destruct (dict_get t info) as [d|] eqn:Ed; [|discriminate]. simpl.
  destruct (get_str inst "Name") as [n|] eqn:En; [|discriminate]. simpl.
  intros H. inversion H. exists t, n, d. repeat split; assumption.
Qed.

(** Appending a child changes one entry of one category and no key. *)
Lemma append_child_category (info info' : Info) (cat key field : string)
    (inst : Instance) :
  append_child info cat key field inst = Ok info' ->
  (forall c, dict_keys (category info' c) = dict_keys (category info c))
  /\ (forall c, c <> cat -> category info' c = category info c)
  /\ dict_keys info' = dict_keys info.
Proof.
  intros H. apply append_child_inv in H as (d & parent & l & Hd & Hp & _ & ->).
  assert (Hm : dict_mem key d = true) by (unfold dict_mem; now rewrite Hp).
  repeat split.
  - intros c. rewrite category_set.
    destruct (String.eqb_spec c cat) as [->|]; [|reflexivity].
    rewrite (category_get _ _ _ Hd). now apply dict_keys_set_mem.
  - intros c Hc. rewrite category_set.
    apply String.eqb_neq in Hc. now rewrite Hc.
  - apply dict_keys_set_mem. unfold dict_mem. now rewrite Hd.
Qed.

Lemma append_child_wf (info info' : Info) (cat key field : string)
    (inst : Instance) :
  append_child info cat key field inst = Ok info' -> wf info -> wf info'.
Proof.
  intros H [Hk Hn]. apply append_child_category in H as (Hkeys & _ & Hi).
  split; [congruence|]. intros c. rewrite Hkeys. apply Hn.
Qed.

Lemma file_record_wf (info info' : Info) (inst : Instance) :
  file_record info inst = Ok info' -> wf info -> wf info'.
Proof.
  intros H Hwf. apply file_record_inv in H as (t & n & d & _ & _ & Hd & ->).
  apply wf_set; [assumption | congruence |].
  apply dict_set_NoDup. rewrite <- (category_get _ _ _ Hd). apply Hwf.
Qed.

(** The two statements of the loop body, by cases. *)
Lemma attach_constant_cases (info info1 : Info) (inst : Instance) :
  attach_constant info inst = Ok info1 ->
  (owner info inst "Constant" "." "Enum" = Ok None /\ info1 = info)
  \/ exists e,
       owner info inst "Constant" "." "Enum" = Ok (Some e) /\
       append_child info "Enum" e "Values" inst = Ok info1.
Proof.
  unfold attach_constant.
  destruct (owner info inst "Constant" "." "Enum") as [[e|]|]; simpl;
    [| |discriminate].
  - intros H. right. now exists e.
  - intros H. left. now inversion H.
Qed.

Lemma attach_or_file_cases (info info' : Info) (inst : Instance) :
  attach_or_file info inst = Ok info' ->
  (exists key field, append_child info "Class" key field inst = Ok info')
  \/ file_record info inst = Ok info'.
Proof.
  unfold attach_or_file.
  destruct (owner info inst "Function" "::" "Class") as [[c|]|]; simpl;
    [eauto | | discriminate].
  destruct (owner info inst "Member" "." "Class") as [[c|]|]; simpl;
    [eauto | | discriminate].
  destruct (owner info inst "Hook" " -> " "Class") as [[c|]|]; simpl;
    [eauto | | discriminate].
  auto.
Qed.

Lemma classify_inv (info info' : Info) (inst : Instance) :
  classify info inst = Ok info' ->
  exists info1,
    attach_constant info inst = Ok info1 /\ attach_or_file info1 inst = Ok info'.
Proof.
  unfold classify. destruct (attach_constant info inst) as [info1|];
    [|discriminate].
  simpl. intros H. now exists info1.
Qed.

Lemma classify_wf (info info' : Info) (inst : Instance) :
  classify info inst = Ok info' -> wf info -> wf info'.
Proof.
  intros H Hwf. apply classify_inv in H as (info1 & H1 & H2).
  assert (Hwf1 : wf info1).
  { apply attach_constant_cases in H1 as [[_ ->] | (e & _ & H1)];
      [assumption | now apply (append_child_wf _ _ _ _ _ _ H1)]. }
  apply attach_or_file_cases in H2 as [(key & field & H2) | H2].
  - now apply (append_child_wf _ _ _ _ _ _ H2).
  - now apply (file_record_wf _ _ _ H2).
Qed.

Lemma gather_step_inv (info info' : Info) (line : string) :
  gather_step info line = Ok info' ->
  exists inst,
    Instance_init (re_sub_separator line) = Ok inst /\
    classify info inst = Ok info'.
Proof.
  unfold gather_step.
  destruct (Instance_init (re_sub_separator line)) as [inst|]; [|discriminate].
  simpl. intros H. now exists inst.
Qed.

Lemma gather_loop_wf (blocks : list string) :
  forall info info',
    gather_loop info blocks = Ok info' -> wf info -> wf info'.
Proof.
  induction blocks as [|b blocks IH]; intros info info' H Hwf; simpl in H.
  - now inversion H; subst.
  - destruct (gather_step info b) as [info1|] eqn:E; [|discriminate].
    simpl in H. apply (IH _ _ H).
    apply gather_step_inv in E as (inst & _ & E).
    now apply (classify_wf _ _ _ E).
Qed.

Lemma owner_eval (info : Info) (inst : Instance) (ty sep cat t n : string) :
  wf info -> In cat categories ->
  get_str inst "Type" = Ok t -> get_str inst "Name" = Ok n ->
  owner info inst ty sep cat =
  Ok (if t =? ty
      then if dict_mem (split_head sep n) (category info cat)
           then Some (split_head sep n) else None
      else None).
Proof.
  intros Hwf Hc Ht Hn. unfold owner, dict_item. rewrite Ht. simpl.
  destruct (t =? ty); [|reflexivity].
  rewrite Hn, (wf_get info cat Hwf Hc). reflexivity.
Qed.

Lemma owner_some (info : Info) (inst : Instance) (ty sep cat p : string) :
  owner info inst ty sep cat = Ok (Some p) ->
  get_str inst "Type" = Ok ty /\
  exists n,
    get_str inst "Name" = Ok n /\ p = split_head sep n /\
    dict_mem p (category info cat) = true.
Proof.
  unfold owner, dict_item.
  destruct (get_str inst "Type") as [t|]; [|discriminate]. simpl.
  destruct (String.eqb_spec t ty) as [->|]; [|discriminate].
  destruct (get_str inst "Name") as [n|]; [|discriminate]. simpl.
  destruct (dict_get cat info) as [d|] eqn:Ed; [|discriminate]. simpl.
  rewrite (category_get _ _ _ Ed).
  destruct (dict_mem (split_head sep n) d) eqn:Em; [|discriminate].
  intros H. inversion H; subst. split; [reflexivity|]. now exists n.
Qed.

Lemma not_a_category (info : Info) (t : string) :
  wf info -> ~ In t categories -> dict_get t info = None.
Proof.
  intros [Hk _] Hn. destruct (dict_get t info) eqn:E; [|reflexivity].
  exfalso. apply Hn. rewrite <- Hk. apply dict_mem_keys.
  unfold dict_mem. now rewrite E.
Qed.

Lemma in_categories_dec (c : string) :
  existsb (String.eqb c) categories = true -> In c categories.
Proof.
  intros H. apply existsb_exists in H as (x & Hx & E).
  apply String.eqb_eq in E. now subst.
Qed.

(** Rewrites the four conditions of the loop body to their values, from the
    Type and the Name of the record. *)
Ltac eval_owners Hwf Ht Hn :=
  rewrite ?(owner_eval _ _ "Constant" "." "Enum" _ _ Hwf
              (in_categories_dec "Enum" eq_refl) Ht Hn),
          ?(owner_eval _ _ "Function" "::" "Class" _ _ Hwf
              (in_categories_dec "Class" eq_refl) Ht Hn),
          ?(owner_eval _ _ "Member" "." "Class" _ _ Hwf
              (in_categories_dec "Class" eq_refl) Ht Hn),
          ?(owner_eval _ _ "Hook" " -> " "Class" _ _ Hwf
              (in_categories_dec "Class" eq_refl) Ht Hn).

Lemma classify_no_parent (info : Info) (inst : Instance) (t n : string) :
  wf info ->
  get_str inst "Type" = Ok t -> get_str inst "Name" = Ok n ->
  no_parent info t n ->
  classify info inst
  = Ok (dict_set t (dict_set n inst (category info t)) info).
Proof.
  intros Hwf Ht Hn Hnp.
  assert (Hfile : file_record info inst
                  = Ok (dict_set t (dict_set n inst (category info t)) info)).
  { unfold file_record, dict_item. rewrite Ht, Hn. simpl.
    rewrite (wf_get info t Hwf); [reflexivity|].
    apply in_categories_dec.
    now destruct Hnp as [[-> _]|[[-> _]|[-> _]]]. }
  unfold classify, attach_constant, attach_or_file.
  eval_owners Hwf Ht Hn.
  destruct Hnp as [[-> Hm]|[[-> Hm]|[-> Hm]]];
    repeat (simpl; rewrite ?Hm; eval_owners Hwf Ht Hn); exact Hfile.
Qed.

Lemma classify_lone_member (info : Info) (inst : Instance) (n : string) :
  wf info ->
  get_str inst "Type" = Ok "Member" -> get_str inst "Name" = Ok n ->
  dict_mem (split_head "." n) (category info "Class") = false ->
  classify info inst = Err KeyError.
Proof.
  intros Hwf Ht Hn Hm.
  unfold classify, attach_constant, attach_or_file.
  repeat (simpl; rewrite ?Hm; eval_owners Hwf Ht Hn).
  unfold file_record, dict_item. rewrite Ht. simpl.
  rewrite (not_a_category info "Member" Hwf); [reflexivity|].
  simpl. intuition discriminate.
Qed.

(** ** C2: records without a parent *)

(** C2, counterexample.  A Member record whose prefix names no Class makes
    [gather_info] fail: [info] has no Member category to file it in. *)
Lemma C2_lone_member_fails : gather_info raw_C2 = Err KeyError.
Proof. reflexivity. Qed.

(** C2, as amended.  In every state the loop of [gather_info] reaches, a
    record of type Constant, Function or Hook that matches no parent is filed
    under its type and name, nothing else changes and nothing fails; a
    Member record whose prefix names no Class is not filed: classifying it
    fails with a KeyError. *)
Theorem C2_parentless_record_filed :
  forall (pre : list string) (info : Info) (inst : Instance) (t n : string),
    gather_loop info_init pre = Ok info ->
    get_str inst "Type" = Ok t ->
    get_str inst "Name" = Ok n ->
    (no_parent info t n ->
     classify info inst
     = Ok (dict_set t (dict_set n inst (category info t)) info))
    /\ (t = "Member" ->
        dict_mem (split_head "." n) (category info "Class") = false ->
        classify info inst = Err KeyError).
Proof.
  intros pre info inst t n Hloop Ht Hn.
  pose proof (gather_loop_wf pre _ _ Hloop wf_init) as Hwf.
  split.
  - now apply classify_no_parent.
  - intros ->. now apply classify_lone_member.
Qed.

Lemma C2_parentless_record_filed_witness :
  gather_loop info_init ["Enum: Foo"] = Ok info_C2
  /\ no_parent info_C2 "Function" "Foo::bar"
  /\ classify info_C2 function_C2
     = Ok (dict_set "Function" [("Foo::bar", function_C2)] info_C2)
  /\ dict_mem (split_head "." "Bar.x") (category info_C2 "Class") = false
  /\ classify info_C2 member_C2 = Err KeyError.
Proof.
  assert (Hnp : no_parent info_C2 "Function" "Foo::bar")
    by (right; left; split; reflexivity).
  split; [reflexivity | split; [exact Hnp | split]].
  - exact (proj1 (C2_parentless_record_filed ["Enum: Foo"] info_C2 function_C2
                    "Function" "Foo::bar" eq_refl eq_refl eq_refl) Hnp).
  - split; [reflexivity|].
    exact (proj2 (C2_parentless_record_filed ["Enum: Foo"] info_C2 member_C2
                    "Member" "Bar.x" eq_refl eq_refl eq_refl)
             eq_refl eq_refl).
Defined.

(** ** C4: a constant is nested when its enum came first *)

Lemma attach_or_file_typed (info info' : Info) (inst : Instance) :
  attach_or_file info inst = Ok info' ->
  (exists key field t,
      get_str inst "Type" = Ok t /\
      In t ["Function"; "Member"; "Hook"] /\
      append_child info "Class" key field inst = Ok info')
  \/ file_record info inst = Ok info'.
Proof.
  unfold attach_or_file.
  destruct (owner info inst "Function" "::" "Class") as [[c|]|] eqn:E1; simpl;
    [| |discriminate].
  { intros H. left. exists c, "Functions", "Function".
    apply owner_some in E1 as [Ht _]. repeat split; simpl; auto. }
  destruct (owner info inst "Member" "." "Class") as [[c|]|] eqn:E2; simpl;
    [| |discriminate].
  { intros H. left. exists c, "Members", "Member".
    apply owner_some in E2 as [Ht _]. repeat split; simpl; auto. }
  destruct (owner info inst "Hook" " -> " "Class") as [[c|]|] eqn:E3; simpl;
    [| |discriminate].
  { intros H. left. exists c, "Hooks", "Hook".
    apply owner_some in E3 as [Ht _]. repeat split; simpl; auto. }
  auto.
Qed.

(** What the second statement of the loop body does to a category other
    than Class, for a record of another type than that category. *)
Lemma attach_or_file_other (info info' : Info) (inst : Instance) (c t : string) :
  attach_or_file info inst = Ok info' ->
  get_str inst "Type" = Ok t -> c <> t -> c <> "Class" ->
  category info' c = category info c.
Proof.
  intros H Ht Hct Hcc.
  apply attach_or_file_typed in H as [(key & field & t' & _ & _ & H) | H].
  - apply append_child_category in H as (_ & H & _). now apply H.
  - apply file_record_inv in H as (t' & n & d & Ht' & _ & _ & ->).
    rewrite category_set. assert (t' = t) by congruence. subst t'.
    apply String.eqb_neq in Hct. now rewrite Hct.
Qed.

(** The names of the Enum category after one record: those before, and the
    record's own name when it is an Enum. *)
Lemma classify_enum_keys (info info' : Info) (inst : Instance) (E : string) :
  classify info inst = Ok info' ->
  In E (dict_keys (category info' "Enum")) <->
  In E (dict_keys (category info "Enum"))
  \/ (get_str inst "Type" = Ok "Enum" /\ get_str inst "Name" = Ok E).
Proof.
  intros H. apply classify_inv in H as (info1 & H1 & H2).
  assert (K1 : dict_keys (category info1 "Enum")
               = dict_keys (category info "Enum")).
  { apply attach_constant_cases in H1 as [[_ ->] | (e & _ & H1)];
      [reflexivity|].
    apply append_child_category in H1 as (H1 & _). apply H1. }
  rewrite <- K1. clear K1 H1.
  apply attach_or_file_typed in H2 as [(key & field & t & Ht & Hin & H2) | H2].
  - apply append_child_category in H2 as (H2 & _). rewrite H2.
    split; [auto|]. intros [H|[Ht' _]]; [assumption|].
    rewrite Ht in Ht'. inversion Ht'; subst. simpl in Hin.
    intuition discriminate.
  - apply file_record_inv in H2 as (t & n & d & Ht & Hn & Hd & ->).
    rewrite category_set.
    destruct (String.eqb_spec "Enum" t) as [<-|Hne].
    + rewrite (category_get _ _ _ Hd), dict_keys_set.
      destruct (dict_mem n d) eqn:Em.
      * split; [auto|]. intros [H|[_ Hn']]; [assumption|].
        apply dict_mem_keys. congruence.
      * rewrite in_app_iff. simpl. split.
        -- intros [H|[<-|[]]]; auto.
        -- intros [H|[_ Hn']]; [auto|]. right. left. congruence.
    + split; [auto|]. intros [H|[Ht' _]]; [assumption | congruence].
Qed.

Lemma gather_loop_enum_keys (blocks : list string) (E : string) :
  forall info info',
    gather_loop info blocks = Ok info' ->
    In E (dict_keys (category info' "Enum")) <->
    In E (dict_keys (category info "Enum"))
    \/ exists b, In b blocks /\ is_enum_block E b.
Proof.
  induction blocks as [|b blocks IH]; intros info info' H; simpl in H.
  - inversion H; subst. split; [auto|]. now intros [H'|(b & [] & _)].
  - destruct (gather_step info b) as [info1|] eqn:E1; [|discriminate].
    simpl in H. rewrite (IH _ _ H).
    apply gather_step_inv in E1 as (inst & Hi & Hc).
    rewrite (classify_enum_keys _ _ _ E Hc). split.
    + intros [[Hk|[Ht Hn]]|(b' & Hb' & He)].
      * now left.
      * right. exists b. split; [now left | now exists inst].
      * right. exists b'. split; [now right | assumption].
    + intros [Hk|(b' & [<-|Hb'] & He)].
      * now left; left.
      * left. right. destruct He as (i & Hi' & Ht & Hn).
        rewrite Hi in Hi'. inversion Hi'; subst. now split.
      * right. now exists b'.
Qed.

Lemma dict_get_keys (V : Type) (d : dict V) (k : string) (v : V) :
  dict_get k d = Some v -> In k (dict_keys d).
Proof.
  intros H. apply dict_mem_keys. unfold dict_mem. now rewrite H.
Qed.

Lemma dict_mem_false_keys (V : Type) (d : dict V) (k : string) :
  ~ In k (dict_keys d) -> dict_mem k d = false.
Proof.
  intros H. destruct (dict_mem k d) eqn:E; [|reflexivity].
  now apply dict_mem_keys in E.
Qed.

(** A record already among the Values of the Enum filed under [E] stays
    there when another record is classified, unless that record is itself
    an Enum named [E]. *)
Lemma classify_keeps_nested (info info' : Info) (i inst : Instance) (E : string) :
  classify info i = Ok info' ->
  ~ (get_str i "Type" = Ok "Enum" /\ get_str i "Name" = Ok E) ->
  nested_under E inst info -> nested_under E inst info'.
Proof.
  intros Hc Hne (e & vs & He & Hv & Hin).
  apply classify_inv in Hc as (info1 & H1 & H2).
  assert (N1 : nested_under E inst info1).
  { apply attach_constant_cases in H1 as [[_ ->] | (k & _ & H1)].
    - now exists e, vs.
    - apply append_child_inv in H1 as (d & parent & l & Hd & Hp & Hl & ->).
      unfold nested_under. rewrite category_set. simpl.
      rewrite (category_get _ _ _ Hd) in He.
      destruct (String.eqb_spec E k) as [->|Hk].
      + rewrite dict_get_set_eq.
        exists (assign parent "Values" (AList (l ++ [i])%list)),
               (l ++ [i])%list.
        rewrite getattr_assign. simpl. repeat split.
        apply in_or_app. left.
        rewrite Hp in He. inversion He; subst e.
        rewrite Hl in Hv. now inversion Hv; subst.
      + rewrite dict_get_set_neq by assumption. now exists e, vs. }
  clear He Hv Hin H1. destruct N1 as (e1 & vs1 & He & Hv & Hin).
  apply attach_or_file_typed in H2 as [(key & field & t & _ & _ & H2) | H2].
  - apply append_child_category in H2 as (_ & H2 & _).
    exists e1, vs1. now rewrite H2 by discriminate.
  - apply file_record_inv in H2 as (t & n & d & Ht & Hn & Hd & ->).
    exists e1, vs1. rewrite category_set.
    destruct (String.eqb_spec "Enum" t) as [<-|Hte]; [|auto].
    rewrite (category_get _ _ _ Hd) in He.
    rewrite dict_get_set_neq; [auto|].
    intros ->. now apply Hne.
Qed.

Lemma gather_loop_keeps_nested (post : list string) (inst : Instance)
    (E : string) :
  forall info final,
    gather_loop info post = Ok final ->
    (forall b, In b post -> ~ is_enum_block E b) ->
    nested_under E inst info -> nested_under E inst final.
Proof.
  induction post as [|b post IH]; intros info final H Hno Hn; simpl in H.
  - now inversion H; subst.
  - destruct (gather_step info b) as [info1|] eqn:E1; [|discriminate].
    simpl in H. apply (IH _ _ H).
    + intros b' Hb'. apply Hno. now right.
    + apply gather_step_inv in E1 as (i & Hi & Hc).
      apply (classify_keeps_nested _ _ _ _ _ Hc); [|assumption].
      intros [Ht Hnm]. apply (Hno b); [now left | now exists i].
Qed.

(** C4, counterexample.  The block of the Enum [E] comes before the block
    of the Constant [E.X], and a second block of the Enum [E] comes after
    it.  In the result the Enum [E] has no Values: the Constant is not
    nested under it, although the Enum appeared earlier; it is filed under
    Constants only. *)
Lemma C4_later_enum_block_unnests :
  exists info,
    gather_info raw_C4_again = Ok info
    /\ split (NL ++ NL) raw_C4_again
       = ["Enum: E"; "Constant: E.X" ++ NL ++ "Value: 1"; "Enum: E"]
    /\ is_enum_block "E" "Enum: E"
    /\ Instance_init (re_sub_separator ("Constant: E.X" ++ NL ++ "Value: 1"))
       = Ok constant_C4
    /\ category info "Enum" = [("E", enum_record "E" [])]
    /\ ~ nested_under "E" constant_C4 info
    /\ dict_get "E.X" (category info "Constant") = Some constant_C4.
Proof.
  eexists. split; [reflexivity|]. split; [reflexivity|].
  split; [exists (enum_record "E" []); repeat split; reflexivity|].
  split; [reflexivity|]. split; [reflexivity|]. split; [|reflexivity].
  intros (e & vs & He & Hv & Hin). cbv in He. inversion He; subst e.
  cbv in Hv. inversion Hv; subst vs. destruct Hin.
Qed.

(** C4, as amended.  Take a Constant record whose name has the prefix [E]
    before the first dot, classified after the blocks [pre] without a
    failure.  It is among the Values of the Enum filed under [E] after its
    classification if and only if one of the blocks of [pre] is an Enum
    block named [E].  When none is, the Enum category is left as it was, so
    the record is nested nowhere, and the record is filed under its name in
    the Constant category.  When one is, the record is still among these
    Values after any further blocks [post] classified without a failure,
    provided none of them is again an Enum block named [E]. *)
Theorem C4_constant_nested_iff_enum_earlier :
  forall (pre : list string) (block : string) (info info' : Info)
         (inst : Instance) (name : string),
    gather_loop info_init pre = Ok info ->
    Instance_init (re_sub_separator block) = Ok inst ->
    get_str inst "Type" = Ok "Constant" ->
    get_str inst "Name" = Ok name ->
    gather_step info block = Ok info' ->
    (nested_under (split_head "." name) inst info' <->
     exists b, In b pre /\ is_enum_block (split_head "." name) b)
    /\ ((~ exists b, In b pre /\ is_enum_block (split_head "." name) b) ->
        category info' "Enum" = category info "Enum" /\
        dict_get name (category info' "Constant") = Some inst)
    /\ (forall (post : list string) (final : Info),
           gather_loop info' post = Ok final ->
           (forall b, In b post -> ~ is_enum_block (split_head "." name) b) ->
           (exists b, In b pre /\ is_enum_block (split_head "." name) b) ->
           nested_under (split_head "." name) inst final).
Proof.
  intros pre block info info' inst name Hloop Hinit Ht Hn Hstep.
  pose proof (gather_loop_wf pre _ _ Hloop wf_init) as Hwf.
  apply gather_step_inv in Hstep as (inst0 & Hinit0 & Hc).
  rewrite Hinit in Hinit0. inversion Hinit0; subst inst0. clear Hinit0.
  set (E := split_head "." name) in *.
  assert (K : In E (dict_keys (category info "Enum")) <->
              exists b, In b pre /\ is_enum_block E b).
  { rewrite (gather_loop_enum_keys pre E _ _ Hloop).
    split; [intros [[]|H]; exact H | now right]. }
  assert (Hnest : (exists b, In b pre /\ is_enum_block E b) ->
                  nested_under E inst info').
  { intros Hex. apply K, dict_mem_keys in Hex.
    apply classify_inv in Hc as (info1 & H1 & H2).
    unfold attach_constant in H1.
    rewrite (owner_eval info inst "Constant" "." "Enum" "Constant" name Hwf
               (in_categories_dec "Enum" eq_refl) Ht Hn) in H1.
    simpl in H1. fold E in H1. rewrite Hex in H1. simpl in H1.
    apply append_child_inv in H1 as (d & parent & l & Hd & Hp & Hl & ->).
    exists (assign parent "Values" (AList (l ++ [inst])%list)),
           (l ++ [inst])%list.
    rewrite (attach_or_file_other _ _ _ "Enum" "Constant" H2 Ht)
      by discriminate.
    rewrite category_set. simpl. rewrite dict_get_set_eq, getattr_assign.
    simpl. repeat split. apply in_or_app. right. now left. }
  split; [split; [|exact Hnest] | split].
  - intros (e & vs & He & _ & _). apply K.
    apply dict_get_keys in He.
    apply (classify_enum_keys _ _ _ E Hc) in He as [He|[Ht' _]];
      [assumption | congruence].
  - intros Hno.
    assert (Hm : dict_mem E (category info "Enum") = false).
    { apply dict_mem_false_keys. intros Hin. now apply Hno, K. }
    rewrite (classify_no_parent info inst "Constant" name Hwf Ht Hn) in Hc
      by (left; now split).
    inversion Hc; subst info'. rewrite !category_set. simpl.
    split; [reflexivity | apply dict_get_set_eq].
  - intros post final Hpost Hnone Hex.
    apply (gather_loop_keeps_nested post inst E _ _ Hpost Hnone).
    now apply Hnest.
Qed.

Lemma C4_constant_nested_iff_enum_earlier_witness :
  gather_loop info_init ["Enum: E"] = Ok info_C4
  /\ gather_step info_C4 ("Constant: E.X" ++ NL ++ "Value: 1") = Ok info_C4'
  /\ (nested_under (split_head "." "E.X") constant_C4 info_C4' <->
      exists b, In b ["Enum: E"] /\ is_enum_block (split_head "." "E.X") b).
Proof.
  split; [reflexivity | split; [reflexivity|]].
  exact (proj1 (C4_constant_nested_iff_enum_earlier ["Enum: E"]
                  ("Constant: E.X" ++ NL ++ "Value: 1") info_C4 info_C4'
                  constant_C4 "E.X" eq_refl eq_refl eq_refl eq_refl eq_refl)).
Defined.

(** ** Records that are filed *)

Lemma attach_constant_keeps (info info1 : Info) (inst : Instance) :
  attach_constant info inst = Ok info1 ->
  (forall c, dict_keys (category info1 c) = dict_keys (category info c))
  /\ (forall c, c <> "Enum" -> category info1 c = category info c)
  /\ (wf info -> wf info1).
Proof.
  intros H. apply attach_constant_cases in H as [[_ ->] | (e & _ & H)].
  - split; [reflexivity | split; [reflexivity | exact (fun H => H)]].
  - pose proof (append_child_category _ _ _ _ _ _ H) as (Hk & Ho & _).
    split; [exact Hk | split; [exact Ho|]].
    exact (append_child_wf _ _ _ _ _ _ H).
Qed.


Lemma attach_or_file_standalone (info : Info) (inst : Instance) (t n : string) :
  wf info ->
  get_str inst "Type" = Ok t -> get_str inst "Name" = Ok n ->
  has_class_owner info t n = false ->
  attach_or_file info inst = file_record info inst.
Proof.
  intros Hwf Ht Hn Hno. unfold has_class_owner in Hno.
  apply orb_false_elim in Hno as [Hno H3].
  apply orb_false_elim in Hno as [H1 H2].
  unfold attach_or_file.
  eval_owners Hwf Ht Hn.
  destruct (t =? "Function"); simpl in H1; rewrite ?H1; simpl;
    eval_owners Hwf Ht Hn;
    destruct (t =? "Member"); simpl in H2; rewrite ?H2; simpl;
    eval_owners Hwf Ht Hn;
    destruct (t =? "Hook"); simpl in H3; rewrite ?H3; reflexivity.
Qed.

(** ** C7: a malformed block stops the script before it writes *)




(** The part of the script before the writes leaves the files as they
    are. *)
Lemma load_docs_pure (fs : filesystem) : snd (load_docs fs) = fs.
Proof.
  unfold load_docs, mbind, read_file, lift, ret.
  destruct (dict_get input_path fs) as [[stored|]|]; try reflexivity.
  generalize (universal_newlines stored). intros dump.
  destruct (unpack2 (split_once nl dump)) as [[version body]|]; [|reflexivity].
  destruct (unpack2 (split client_marker body)) as [[server client]|];
    [|reflexivity].
  destruct (info <- gather_info server ;; generate_docs version info "Server");
    [|reflexivity].
  now destruct (info <- gather_info client ;;
                generate_docs version info "Client").
Qed.

Lemma main_load_failure (fs : filesystem) (e : exn) :
  fst (load_docs fs) = Err e -> main fs = (Err e, fs).
Proof.
  intros H. pose proof (load_docs_pure fs) as Hp.
  unfold main, mbind at 1.
  destruct (load_docs fs) as [r fs']. simpl in *. now subst.
Qed.



(** ** C9: a parsed constant and its table row *)

(** C9.  Take a block that parses, whose first line has the key Constant
    and the value [n], and whose last Value line has the value [v].  The
    record's Name is [n], or the value of the last Name line when there is
    one, its Value is [v] and its Description is the value of the last
    Description line, the empty string when there is none.  The table of
    this record is the header and one row that holds the Name and the Value
    as they are, followed by a Description cell exactly when the Description
    is not empty. *)
Theorem C9_constant_row_preserves_name_value :
  forall (block l0 : string) (rest : list string) (inst : Instance)
         (n v : string),
    splitlines block = l0 :: rest ->
    findall_first l0 = Some ("Constant", n) ->
    last_value "Value" rest = Some v ->
    Instance_init block = Ok inst ->
    exists name desc,
      name = match last_value "Name" rest with Some x => x | None => n end
      /\ desc = match last_value "Description" rest with
                | Some d => d
                | None => ""
                end
      /\ get_str inst "Name" = Ok name
      /\ get_str inst "Value" = Ok v
      /\ get_str inst "Description" = Ok desc
      /\ generate_table [inst]
         = Ok (table_header
               ++ ("| " ++ name ++ " | " ++ v ++ " |"
                   ++ (if nonempty desc then " " ++ desc ++ " |" else "")
                   ++ NL)
               ++ NL).
Proof.
  intros block l0 rest inst n v Hl H0 Hv Hinit.
  destruct (Instance_init_attr _ _ _ _ Hl Hinit) as (k & v0 & Hk & Ha).
  rewrite H0 in Hk. inversion Hk; subst k v0. clear Hk.
  do 2 eexists. split; [reflexivity | split; [reflexivity|]].
  assert (HN : get_str inst "Name"
               = Ok (match last_value "Name" rest with
                     | Some x => x
                     | None => n
                     end)).
  { unfold get_str. rewrite (Ha "Name").
    now destruct (last_value "Name" rest). }
  assert (HV : get_str inst "Value" = Ok v).
  { unfold get_str. now rewrite (Ha "Value"), Hv. }
  assert (HD : get_str inst "Description"
               = Ok (match last_value "Description" rest with
                     | Some d => d
                     | None => ""
                     end)).
  { unfold get_str. rewrite (Ha "Description").
    now destruct (last_value "Description" rest). }
  repeat split; try assumption.
  unfold generate_table, table_rows, table_row.
  rewrite HN, HV, HD. simpl. now rewrite append_nil_r.
Qed.

Lemma C9_constant_row_preserves_name_value_witness :
  exists inst,
    Instance_init block_C9 = Ok inst
    /\ generate_table [inst]
       = Ok (table_header ++ "| E.X | 0x10 | sixteen |" ++ NL ++ NL).
Proof.
  destruct (Instance_init block_C9) as [inst|] eqn:E; [|discriminate].
  exists inst. split; [reflexivity|].
  destruct (C9_constant_row_preserves_name_value block_C9 "Constant: E.X"
              ["Value: 0x10"; "Description: sixteen"] inst "E.X" "0x10"
              eq_refl eq_refl eq_refl E)
    as (name & desc & -> & -> & _ & _ & _ & H).
  exact H.
Defined.

(** * Further properties *)

(** ** Records as [Instance.__init__] leaves them *)

Lemma first_object_list (k v a : string) (l : list Instance) :
  getattr (first_object k v) a = Some (AList l) ->
  l = [] /\ In a list_attributes.
Proof.
  unfold first_object, list_attributes.
  destruct (k =? "Enum"); [|destruct (k =? "Class")];
    rewrite ?getattr_assign;
    repeat match goal with
           | |- context [if a =? ?s then _ else _] =>
               destruct (String.eqb_spec a s) as [->|]
           end;
    intros H; inversion H; subst; simpl; auto 10.
Qed.

Lemma first_object_Name (k v : string) :
  getattr (first_object k v) "Name" = Some (AStr v).
Proof.
  unfold first_object.
  destruct (k =? "Enum"); [reflexivity|].
  now destruct (k =? "Class").
Qed.

Lemma Instance_init_empty (block : string) :
  splitlines block = [] ->
  Instance_init block = Ok (MkInstance [("Description", AStr "")]).
Proof. unfold Instance_init. now intros ->. Qed.

Lemma last_value_in (a : string) (lines : list string) (v : string) :
  last_value a lines = Some v ->
  exists l k, In l lines /\ findall_first l = Some (k, v).
Proof.
  induction lines as [|l rest IH]; simpl; [discriminate|].
  destruct (last_value a rest) as [v'|].
  - intros H. inversion H; subst.
    destruct (IH eq_refl) as (l' & k & Hin & Hf). exists l', k. auto.
  - destruct (findall_first l) as [[k v']|] eqn:E; [|discriminate].
    destruct (a =? k); [|discriminate].
    intros H. inversion H; subst. exists l, k. auto.
Qed.

Lemma parsed_lists_empty (block : string) (inst : Instance) (a : string)
    (l : list Instance) :
  Instance_init block = Ok inst ->
  getattr inst a = Some (AList l) ->
  l = [] /\ In a list_attributes.
Proof.
  intros Hinit.
  destruct (splitlines block) as [|l0 rest] eqn:El.
  - rewrite (Instance_init_empty block El) in Hinit. inversion Hinit; subst.
    unfold getattr. simpl. destruct (a =? "Description"); discriminate.
  - destruct (Instance_init_attr block l0 rest inst El Hinit)
      as (k & v & Hk & Ha).
    rewrite (Ha a). destruct (last_value a rest); [discriminate|].
    destruct (getattr (first_object k v) a) as [x|] eqn:E.
    + intros H. inversion H; subst. now apply first_object_list in E.
    + destruct (a =? "Description"); discriminate.
Qed.

(** X1.  What a record that parses always has: a Description that is a
    string; a Type and a Name that are strings when the block has a line, and
    neither when it has none; and, as lists, only empty ones, under the four
    names the constructor gives to an Enum or a Class. *)
Theorem X1_parsed_record_attributes :
  forall (block : string) (inst : Instance),
    Instance_init block = Ok inst ->
    (exists d, get_str inst "Description" = Ok d)
    /\ (splitlines block <> [] ->
        exists t n, get_str inst "Type" = Ok t /\ get_str inst "Name" = Ok n)
    /\ (splitlines block = [] ->
        getattr inst "Type" = None /\ getattr inst "Name" = None)
    /\ (forall a l,
           getattr inst a = Some (AList l) -> l = [] /\ In a list_attributes).
Proof.
  intros block inst Hinit.
  destruct (splitlines block) as [|l0 rest] eqn:El.
  - rewrite (Instance_init_empty block El) in Hinit. inversion Hinit; subst.
    split; [now exists ""|]. split; [congruence|]. split; [now split|].
    intros a l. apply (parsed_lists_empty block).
    now apply Instance_init_empty.
  - destruct (Instance_init_attr block l0 rest inst El Hinit)
      as (k & v & Hk & Ha).
    split; [|split; [|split]].
    + unfold get_str. rewrite (Ha "Description").
      destruct (last_value "Description" rest) as [d|]; [now exists d|].
      destruct (getattr (first_object k v) "Description") as [[s|l]|] eqn:E.
      * now exists s.
      * apply first_object_list in E as [_ E]. simpl in E.
        intuition discriminate.
      * now exists "".
    + intros _.
      exists (match last_value "Type" rest with Some t => t | None => k end),
             (match last_value "Name" rest with Some n => n | None => v end).
      unfold get_str. rewrite (Ha "Type"), (Ha "Name").
      rewrite first_object_Type, first_object_Name.
      destruct (last_value "Type" rest), (last_value "Name" rest); auto.
    + discriminate.
    + intros a l. now apply (parsed_lists_empty block).
Qed.

Lemma X1_parsed_record_attributes_witness :
  Instance_init "Class: C"
  = Ok (MkInstance [("Type", AStr "Class"); ("Name", AStr "C");
                    ("Functions", AList []); ("Members", AList []);
                    ("Hooks", AList []); ("Description", AStr "")])
  /\ exists t n,
       get_str (MkInstance [("Type", AStr "Class"); ("Name", AStr "C");
                            ("Functions", AList []); ("Members", AList []);
                            ("Hooks", AList []); ("Description", AStr "")])
         "Type" = Ok t
       /\ get_str (MkInstance [("Type", AStr "Class"); ("Name", AStr "C");
                               ("Functions", AList []); ("Members", AList []);
                               ("Hooks", AList []); ("Description", AStr "")])
            "Name" = Ok n.
Proof.
  split; [reflexivity|].
  apply (proj1 (proj2 (X1_parsed_record_attributes "Class: C" _ eq_refl))).
  discriminate.
Defined.

(** ** Lines and values have no line break *)

Lemma splitlines_single_line_bounded (n : nat) :
  forall s l,
    String.length s <= n -> In l (splitlines s) -> single_line l = true.
Proof.
  induction n as [|n IH]; intros s l Hlen Hin.
  - destruct s; [destruct Hin | simpl in Hlen; lia].
  - destruct s as [|c t]; [destruct Hin|].
    simpl in Hlen. simpl in Hin.
    destruct (is_linebreak c) eqn:Ec.
    + destruct t as [|c' t'].
      * destruct Hin as [<-|[]]. reflexivity.
      * destruct (Ascii.eqb c cr && Ascii.eqb c' nl)%bool;
          destruct Hin as [<-|Hin]; try reflexivity.
        -- apply (IH t'); [simpl in Hlen; lia | assumption].
        -- apply (IH (String c' t')); [lia | assumption].
    + assert (IHt : forall l', In l' (splitlines t) -> single_line l' = true)
        by (intros l' Hl'; apply (IH t); [lia | assumption]).
      destruct (splitlines t) as [|l0 ls].
      * destruct Hin as [<-|[]]. unfold single_line. simpl. now rewrite Ec.
      * destruct Hin as [<-|Hin].
        -- unfold single_line. simpl. rewrite Ec. simpl.
           apply (IHt l0). now left.
        -- apply IHt. now right.
Qed.

Lemma splitlines_single_line (s l : string) :
  In l (splitlines s) -> single_line l = true.
Proof. apply (splitlines_single_line_bounded (String.length s)). lia. Qed.

(** The key and the value of a line are pieces of the line. *)
Lemma findall_first_pieces (line k v : string) :
  findall_first line = Some (k, v) ->
  (exists a b, line = a ++ k ++ b) /\ (exists a b, line = a ++ v ++ b).
Proof.
  intros H. rewrite findall_first_strip_colons in H.
  apply split_at_first_colon_inv in H as (rest & Hs & _ & Hv).
  pose proof (span_append is_colon line) as Hc. fold (strip_colons line) in Hc.
  rewrite Hs in Hc. split.
  - exists (fst (span is_colon line)), (String colon rest). now rewrite Hc.
  - exists (fst (span is_colon line) ++ k ++ String colon
              (fst (span is_space rest))),
           (snd (span not_newline (snd (span is_space rest)))).
    rewrite Hv. unfold value_of. rewrite span_append.
    rewrite <- Hc at 1.
    rewrite <- (span_append is_space rest) at 1.
    rewrite !append_assoc_r. reflexivity.
Qed.

Lemma str_forall_piece (p : ascii -> bool) (a s b : string) :
  str_forall p (a ++ s ++ b) = true -> str_forall p s = true.
Proof.
  rewrite !str_forall_app. intros H.
  apply andb_prop in H as [_ H]. now apply andb_prop in H as [H _].
Qed.

Lemma findall_first_single_line (line k v : string) :
  single_line line = true ->
  findall_first line = Some (k, v) ->
  single_line k = true /\ single_line v = true.
Proof.
  unfold single_line. intros Hl H.
  apply findall_first_pieces in H as [(a & b & Hk) (c & d & Hv)].
  split.
  - rewrite Hk in Hl. now apply str_forall_piece in Hl.
  - rewrite Hv in Hl. now apply str_forall_piece in Hl.
Qed.

(** X2.  Every string attribute of a record that parses is free of line
    breaks: the Name, Value, Description and Signature that the renderer
    writes into a table row or a heading never break the line. *)
Theorem X2_attribute_values_single_line :
  forall (block : string) (inst : Instance) (a s : string),
    Instance_init block = Ok inst ->
    getattr inst a = Some (AStr s) ->
    single_line s = true.
Proof.
  intros block inst a s Hinit Hget.
  destruct (splitlines block) as [|l0 rest] eqn:El.
  - rewrite (Instance_init_empty block El) in Hinit. inversion Hinit; subst.
    unfold getattr in Hget. simpl in Hget.
    destruct (a =? "Description"); inversion Hget. reflexivity.
  - assert (Hlines : forall l, In l (l0 :: rest) -> single_line l = true).
    { intros l Hl. apply (splitlines_single_line block). now rewrite El. }
    destruct (Instance_init_attr block l0 rest inst El Hinit)
      as (k & v & Hk & Ha).
    assert (H0 : single_line k = true /\ single_line v = true).
    { apply (findall_first_single_line l0); [apply Hlines; now left | exact Hk]. }
    rewrite (Ha a) in Hget.
    destruct (last_value a rest) as [x|] eqn:Ev.
    + inversion Hget; subst x.
      apply last_value_in in Ev as (l & k' & Hin & Hf).
      apply (findall_first_single_line l k' s); [|exact Hf].
      apply Hlines. now right.
    + destruct (getattr (first_object k v) a) as [y|] eqn:Ef.
      * inversion Hget; subst y. clear Hget.
        unfold first_object in Ef.
        destruct (k =? "Enum"); [|destruct (k =? "Class")];
          rewrite ?getattr_assign in Ef;
          repeat match type of Ef with
                 | context [if a =? ?n then _ else _] =>
                     destruct (a =? n)
                 end;
          inversion Ef; subst; tauto.
      * destruct (a =? "Description"); inversion Hget. reflexivity.
Qed.

Lemma X2_attribute_values_single_line_witness :
  Instance_init ("Constant: E.X" ++ NL ++ "Value: 1")
  = Ok (MkInstance [("Type", AStr "Constant"); ("Name", AStr "E.X");
                    ("Value", AStr "1"); ("Description", AStr "")])
  /\ single_line "E.X" = true.
Proof.
  split; [reflexivity|].
  exact (X2_attribute_values_single_line ("Constant: E.X" ++ NL ++ "Value: 1")
           _ "Name" "E.X" eq_refl eq_refl).
Defined.

(** ** Rendering of parsed records *)

Lemma parsed_Name (block l0 : string) (rest : list string) (inst : Instance)
    (k v : string) :
  splitlines block = l0 :: rest ->
  findall_first l0 = Some (k, v) ->
  Instance_init block = Ok inst ->
  get_str inst "Name"
  = Ok (match last_value "Name" rest with Some x => x | None => v end)
  /\ get_str inst "Description"
     = Ok (match last_value "Description" rest with
           | Some d => d
           | None => ""
           end).
Proof.
  intros Hl H0 Hinit.
  destruct (Instance_init_attr block l0 rest inst Hl Hinit)
    as (k' & v' & Hk & Ha).
  rewrite H0 in Hk. inversion Hk; subst k' v'. clear Hk.
  unfold get_str. rewrite (Ha "Name"), (Ha "Description"), first_object_Name.
  split.
  - now destruct (last_value "Name" rest).
  - destruct (last_value "Description" rest); [reflexivity|].
    destruct (getattr (first_object k v) "Description") as [[s|l]|] eqn:E;
      [| |reflexivity].
    + unfold first_object in E.
      destruct (k =? "Enum"); [|destruct (k =? "Class")]; discriminate.
    + apply first_object_list in E as [_ E]. simpl in E.
      intuition discriminate.
Qed.

(** X3.  Take a block that parses, whose first line has the value [n] and
    whose last Signature line has the value [sig].  Its rendering by
    [describe_signed] is a heading of [indents] hash signs with the Name, the
    Description between blank lines exactly when it is not empty, and a [cpp]
    code fence that holds the Signature as it is.  The Name is [n], or the
    value of the last Name line when there is one. *)
Theorem X3_describe_signed_of_parsed :
  forall (block l0 : string) (rest : list string) (inst : Instance)
         (k n sig : string) (indents : nat),
    splitlines block = l0 :: rest ->
    findall_first l0 = Some (k, n) ->
    last_value "Signature" rest = Some sig ->
    Instance_init block = Ok inst ->
    exists name desc,
      name = match last_value "Name" rest with Some x => x | None => n end
      /\ desc = match last_value "Description" rest with
                | Some d => d
                | None => ""
                end
      /\ describe_signed inst indents
         = Ok (hashes indents ++ " " ++ name ++ NL
               ++ (if nonempty desc then NL ++ desc ++ NL else "")
               ++ NL ++ "```cpp" ++ NL ++ sig ++ NL ++ "```" ++ NL).
Proof.
  intros block l0 rest inst k n sig indents Hl H0 Hs Hinit.
  destruct (parsed_Name block l0 rest inst k n Hl H0 Hinit) as [HN HD].
  destruct (Instance_init_attr block l0 rest inst Hl Hinit)
    as (k' & v' & _ & Ha).
  do 2 eexists. split; [reflexivity | split; [reflexivity|]].
  unfold describe_signed. rewrite HN, HD. simpl.
  unfold get_str. rewrite (Ha "Signature"), Hs. reflexivity.
Qed.

Lemma X3_describe_signed_of_parsed_witness :
  exists inst,
    Instance_init block_X3 = Ok inst
    /\ describe_signed inst 4
       = Ok ("#### Foo::Bar" ++ NL ++ NL ++ "does it" ++ NL ++ NL
             ++ "```cpp" ++ NL ++ "void Foo::Bar(int)" ++ NL ++ "```" ++ NL).
Proof.
  destruct (Instance_init block_X3) as [inst|] eqn:E; [|discriminate].
  exists inst. split; [reflexivity|].
  destruct (X3_describe_signed_of_parsed block_X3 "Function: Foo::Bar"
              ["Signature: void Foo::Bar(int)"; "Description: does it"]
              inst "Function" "Foo::Bar" "void Foo::Bar(int)" 4
              eq_refl eq_refl eq_refl E)
    as (name & desc & -> & -> & H).
  exact H.
Defined.

(** X4.  A block that parses, starts with an Enum line and has no Values
    line renders, as an entry of the enums document, as its heading, its
    Description when not empty, and a table of the two header rows only; a
    block that starts with a Class line and has no Members, Functions or
    Hooks line renders as its heading and its Description only, with none of
    the three sub-lists. *)
Theorem X4_fresh_enum_and_class_sections :
  forall (block l0 : string) (rest : list string) (inst : Instance)
         (n : string),
    splitlines block = l0 :: rest ->
    Instance_init block = Ok inst ->
    exists name desc,
      name = match last_value "Name" rest with Some x => x | None => n end
      /\ desc = match last_value "Description" rest with
                | Some d => d
                | None => ""
                end
      /\ (findall_first l0 = Some ("Enum", n) ->
          last_value "Values" rest = None ->
          entry_section "Enum" inst
          = Ok ("## " ++ name ++ NL ++ NL
                ++ (if nonempty desc then desc ++ NL else "")
                ++ table_header ++ NL))
      /\ (findall_first l0 = Some ("Class", n) ->
          last_value "Members" rest = None ->
          last_value "Functions" rest = None ->
          last_value "Hooks" rest = None ->
          entry_section "Class" inst
          = Ok ("## " ++ name ++ NL ++ NL
                ++ (if nonempty desc then desc ++ NL ++ NL else ""))).
Proof.
  intros block l0 rest inst n Hl Hinit.
  destruct (Instance_init_attr block l0 rest inst Hl Hinit)
    as (k' & v' & Hk & Ha).
  do 2 eexists. split; [reflexivity | split; [reflexivity|]].
  split.
  - intros H0 Hv.
    destruct (parsed_Name block l0 rest inst "Enum" n Hl H0 Hinit) as [HN HD].
    rewrite H0 in Hk. inversion Hk; subst k' v'.
    unfold entry_section. simpl. rewrite HN, HD. simpl.
    unfold get_attr. rewrite (Ha "Values"), Hv. simpl.
    reflexivity.
  - intros H0 Hm Hf Hh.
    destruct (parsed_Name block l0 rest inst "Class" n Hl H0 Hinit) as [HN HD].
    rewrite H0 in Hk. inversion Hk; subst k' v'.
    unfold entry_section. simpl. rewrite HN, HD. simpl.
    unfold class_part, get_attr.
    rewrite (Ha "Members"), Hm, (Ha "Functions"), Hf, (Ha "Hooks"), Hh.
    simpl. now rewrite !append_nil_r.
Qed.

Lemma X4_fresh_enum_and_class_sections_witness :
  exists inst,
    Instance_init ("Enum: E" ++ NL ++ "Description: d") = Ok inst
    /\ entry_section "Enum" inst
       = Ok ("## E" ++ NL ++ NL ++ "d" ++ NL ++ table_header ++ NL).
Proof.
  destruct (Instance_init ("Enum: E" ++ NL ++ "Description: d"))
    as [inst|] eqn:E; [|discriminate].
  exists inst. split; [reflexivity|].
  destruct (X4_fresh_enum_and_class_sections
              ("Enum: E" ++ NL ++ "Description: d") "Enum: E"
              ["Description: d"] inst "E" eq_refl E)
    as (name & desc & -> & -> & H & _).
  exact (H eq_refl eq_refl).
Defined.

(** ** Children of a Class *)

(** X5.  In every state the loop of [gather_info] reaches, classifying a
    Function, Member or Hook record whose prefix (before [::], [.] or [ -> ])
    names a Class of [info] is appending it to the Functions, Members or
    Hooks of that Class: it fails only when that attribute of the Class is
    not a list, and otherwise changes this one list and nothing else, so the
    record is not filed in a category of its own. *)
Theorem X5_class_child_nested_only :
  forall (pre : list string) (info : Info) (inst : Instance)
         (t name sep field : string),
    gather_loop info_init pre = Ok info ->
    get_str inst "Type" = Ok t ->
    get_str inst "Name" = Ok name ->
    class_rule t = Some (sep, field) ->
    dict_mem (split_head sep name) (category info "Class") = true ->
    classify info inst
    = append_child info "Class" (split_head sep name) field inst
    /\ forall info',
         classify info inst = Ok info' ->
         (exists c l,
             dict_get (split_head sep name) (category info "Class") = Some c
             /\ getattr c field = Some (AList l)
             /\ info'
                = dict_set "Class"
                    (dict_set (split_head sep name)
                       (assign c field (AList (l ++ [inst])%list))
                       (category info "Class"))
                    info)
         /\ forall cat, cat <> "Class" -> category info' cat = category info cat.
Proof.
  intros pre info inst t name sep field Hloop Ht Hn Hrule Hm.
  pose proof (gather_loop_wf pre _ _ Hloop wf_init) as Hwf.
  assert (Hc : classify info inst
               = append_child info "Class" (split_head sep name) field inst).
  { unfold class_rule in Hrule.
    unfold classify, attach_constant, attach_or_file.
    destruct (String.eqb_spec t "Function") as [->|];
      [|destruct (String.eqb_spec t "Member") as [->|];
        [|destruct (String.eqb_spec t "Hook") as [->|]; [|discriminate]]];
      inversion Hrule; subst sep field;
      repeat (simpl; rewrite ?Hm; eval_owners Hwf Ht Hn); reflexivity. }
  split; [exact Hc|].
  intros info' H. rewrite Hc in H.
  pose proof (append_child_category _ _ _ _ _ _ H) as (_ & Hother & _).
  split; [|exact Hother].
  apply append_child_inv in H as (d & c & l & Hd & Hp & Hl & ->).
  apply category_get in Hd. subst d. now exists c, l.
Qed.

Lemma X5_class_child_nested_only_witness :
  gather_loop info_init ["Class: C"] = Ok info_X5
  /\ class_rule "Function" = Some ("::", "Functions")
  /\ dict_mem (split_head "::" "C::f") (category info_X5 "Class") = true
  /\ classify info_X5 function_X5
     = Ok (dict_set "Class" [("C", class_record "C" [function_X5])] info_init)
  /\ category
       (dict_set "Class" [("C", class_record "C" [function_X5])] info_init)
       "Function"
     = category info_X5 "Function".
Proof.
  destruct (X5_class_child_nested_only ["Class: C"] info_X5 function_X5
              "Function" "C::f" "::" "Functions"
              eq_refl eq_refl eq_refl eq_refl eq_refl) as [Hc Hpost].
  split; [reflexivity | split; [reflexivity | split; [reflexivity|]]].
  split; [rewrite Hc; reflexivity|].
  apply (Hpost _ eq_refl). discriminate.
Defined.

(** ** What gather_info keeps true of its result *)

Lemma get_str_assign_other (o : Instance) (a b : string) (v : attr) :
  a <> b -> get_str (assign o b v) a = get_str o a.
Proof.
  intros H. unfold get_str. rewrite getattr_assign.
  apply String.eqb_neq in H. now rewrite H.
Qed.

Lemma child_rule_field (cat field ty sep : string) :
  In (cat, field, ty, sep) child_rules ->
  field <> "Type" /\ field <> "Name".
Proof.
  unfold child_rules. simpl.
  intros [H|[H|[H|[H|[]]]]]; inversion H; split; discriminate.
Qed.

Lemma child_rule_unique (cat field ty sep ty' sep' : string) :
  In (cat, field, ty, sep) child_rules ->
  In (cat, field, ty', sep') child_rules ->
  ty' = ty /\ sep' = sep.
Proof.
  unfold child_rules. simpl.
  intros [H|[H|[H|[H|[]]]]] [H'|[H'|[H'|[H'|[]]]]];
    inversion H; subst; inversion H'; subst; auto.
Qed.

(** Appending a child of the right kind keeps both properties. *)
Lemma append_child_keeps (info info' : Info) (cat key field ty sep nm : string)
    (inst : Instance) :
  filed_under_own_name info -> children_belong info ->
  In (cat, field, ty, sep) child_rules ->
  get_str inst "Type" = Ok ty ->
  get_str inst "Name" = Ok nm ->
  split_head sep nm = key ->
  append_child info cat key field inst = Ok info' ->
  filed_under_own_name info' /\ children_belong info'.
Proof.
  intros Hf Hb Hrule Ht Hn Hkey H.
  apply append_child_inv in H as (d & parent & l & Hd & Hp & Hl & ->).
  apply category_get in Hd. subst d.
  destruct (child_rule_field _ _ _ _ Hrule) as [HfT HfN].
  split.
  - intros c n i. rewrite category_set.
    destruct (String.eqb_spec c cat) as [->|]; [|apply Hf].
    rewrite dict_get_set.
    destruct (String.eqb_spec n key) as [->|]; [|apply Hf].
    intros Hi. inversion Hi; subst i.
    rewrite !get_str_assign_other by congruence. now apply Hf.
  - intros cat2 field2 ty2 sep2 n e vs v Hrule2. rewrite category_set.
    destruct (String.eqb_spec cat2 cat) as [->|]; [|now apply Hb].
    rewrite dict_get_set.
    destruct (String.eqb_spec n key) as [->|]; [|now apply Hb].
    intros He. inversion He; subst e. rewrite getattr_assign.
    destruct (String.eqb_spec field2 field) as [->|].
    + intros Hvs Hin. inversion Hvs; subst vs.
      destruct (child_rule_unique _ _ _ _ _ _ Hrule Hrule2) as [-> ->].
      apply in_app_or in Hin as [Hin|[<-|[]]].
      * now apply (Hb cat field ty sep key parent l v).
      * split; [assumption | now exists nm].
    + intros Hvs Hin.
      now apply (Hb cat field2 ty2 sep2 key parent vs v).
Qed.

(** Filing a fresh record keeps both properties. *)
Lemma file_record_keeps (info info' : Info) (inst : Instance) :
  filed_under_own_name info -> children_belong info ->
  fresh inst ->
  file_record info inst = Ok info' ->
  filed_under_own_name info' /\ children_belong info'.
Proof.
  intros Hf Hb Hfresh H.
  apply file_record_inv in H as (t & n & d & Ht & Hn & Hd & ->).
  apply category_get in Hd. subst d. split.
  - intros c n' i. rewrite category_set.
    destruct (String.eqb_spec c t) as [->|]; [|apply Hf].
    rewrite dict_get_set.
    destruct (String.eqb_spec n' n) as [->|]; [|apply Hf].
    intros Hi. inversion Hi; subst i. now split.
  - intros cat field ty sep n' e vs v Hrule. rewrite category_set.
    destruct (String.eqb_spec cat t) as [->|]; [|now apply Hb].
    rewrite dict_get_set.
    destruct (String.eqb_spec n' n) as [->|]; [|now apply Hb].
    intros He. inversion He; subst e.
    intros Hvs Hin. apply Hfresh in Hvs. subst vs. destruct Hin.
Qed.

Lemma classify_keeps (info info' : Info) (inst : Instance) :
  filed_under_own_name info -> children_belong info ->
  fresh inst ->
  classify info inst = Ok info' ->
  filed_under_own_name info' /\ children_belong info'.
Proof.
  intros Hf Hb Hfresh H.
  apply classify_inv in H as (info1 & H1 & H2).
  assert (I1 : filed_under_own_name info1 /\ children_belong info1).
  { apply attach_constant_cases in H1 as [[_ ->] | (e & Ho & H1)];
      [now split|].
    apply owner_some in Ho as (Ht & nm & Hn & -> & _).
    exact (append_child_keeps info info1 "Enum" (split_head "." nm) "Values"
             "Constant" "." nm inst Hf Hb ltac:(simpl; auto 10) Ht Hn eq_refl
             H1). }
  destruct I1 as [Hf1 Hb1]. clear H1.
  unfold attach_or_file in H2.
  destruct (owner info1 inst "Function" "::" "Class") as [[c|]|] eqn:E1;
    simpl in H2; [| |discriminate].
  { apply owner_some in E1 as (Ht & nm & Hn & -> & _).
    exact (append_child_keeps info1 info' "Class" (split_head "::" nm)
             "Functions" "Function" "::" nm inst Hf1 Hb1
             ltac:(simpl; auto 10) Ht Hn eq_refl H2). }
  destruct (owner info1 inst "Member" "." "Class") as [[c|]|] eqn:E2;
    simpl in H2; [| |discriminate].
  { apply owner_some in E2 as (Ht & nm & Hn & -> & _).
    exact (append_child_keeps info1 info' "Class" (split_head "." nm)
             "Members" "Member" "." nm inst Hf1 Hb1
             ltac:(simpl; auto 10) Ht Hn eq_refl H2). }
  destruct (owner info1 inst "Hook" " -> " "Class") as [[c|]|] eqn:E3;
    simpl in H2; [| |discriminate].
  { apply owner_some in E3 as (Ht & nm & Hn & -> & _).
    exact (append_child_keeps info1 info' "Class" (split_head " -> " nm)
             "Hooks" "Hook" " -> " nm inst Hf1 Hb1
             ltac:(simpl; auto 10) Ht Hn eq_refl H2). }
  now apply (file_record_keeps info1 info' inst).
Qed.

Lemma gather_loop_keeps (blocks : list string) :
  forall info info',
    filed_under_own_name info -> children_belong info ->
    gather_loop info blocks = Ok info' ->
    filed_under_own_name info' /\ children_belong info'.
Proof.
  induction blocks as [|b blocks IH]; intros info info' Hf Hb H; simpl in H.
  - inversion H; subst. now split.
  - destruct (gather_step info b) as [info1|] eqn:E; [|discriminate].
    simpl in H. apply gather_step_inv in E as (inst & Hi & Hc).
    assert (Hfresh : fresh inst).
    { intros a l Ha. now apply (parsed_lists_empty _ _ _ _ Hi Ha). }
    destruct (classify_keeps info info1 inst Hf Hb Hfresh Hc) as [Hf1 Hb1].
    now apply (IH info1 info').
Qed.

Lemma gather_info_keeps (raw : string) (info : Info) :
  gather_info raw = Ok info ->
  filed_under_own_name info /\ children_belong info.
Proof.
  apply gather_loop_keeps.
  - intros c n i. unfold category. simpl.
    repeat (destruct (c =? _); [discriminate|]). discriminate.
  - intros cat field ty sep n e vs v _. unfold category. simpl.
    repeat (destruct (cat =? _); [discriminate|]). discriminate.
Qed.

(** X6.  In the result of [gather_info] every record sits where its own
    attributes say: a record filed under the name [n] of the category [c]
    has the Type [c] and the Name [n]. *)
Theorem X6_filed_under_own_type_and_name :
  forall (raw : string) (info : Info) (c n : string) (i : Instance),
    gather_info raw = Ok info ->
    dict_get n (category info c) = Some i ->
    get_str i "Type" = Ok c /\ get_str i "Name" = Ok n.
Proof.
  intros raw info c n i H. apply (proj1 (gather_info_keeps raw info H)).
Qed.

(** X7.  In the result of [gather_info] the lists of a parent hold children
    of their kind only: the Values of the Enum filed under [n] are Constant
    records whose Name begins with [n] up to the first dot, and the
    Functions, Members and Hooks of the Class filed under [n] are Function,
    Member and Hook records whose Name begins with [n] up to the first [::],
    [.] and [ -> ]. *)
Theorem X7_children_belong_to_their_parent :
  forall (raw : string) (info : Info) (cat field ty sep n : string)
         (e : Instance) (vs : list Instance) (v : Instance),
    gather_info raw = Ok info ->
    In (cat, field, ty, sep) child_rules ->
    dict_get n (category info cat) = Some e ->
    getattr e field = Some (AList vs) ->
    In v vs ->
    get_str v "Type" = Ok ty /\
    exists nm, get_str v "Name" = Ok nm /\ split_head sep nm = n.
Proof.
  intros raw info cat field ty sep n e vs v H.
  apply (proj2 (gather_info_keeps raw info H)).
Qed.

Lemma X6_filed_under_own_type_and_name_witness :
  gather_info raw_X6 = Ok info_X6
  /\ dict_get "C" (category info_X6 "Class") = Some class_X6
  /\ get_str class_X6 "Type" = Ok "Class"
  /\ get_str class_X6 "Name" = Ok "C".
Proof.
  split; [reflexivity | split; [reflexivity|]].
  exact (X6_filed_under_own_type_and_name raw_X6 info_X6 "Class" "C" class_X6
           eq_refl eq_refl).
Defined.

Lemma X7_children_belong_to_their_parent_witness :
  gather_info raw_X6 = Ok info_X6
  /\ In ("Class", "Hooks", "Hook", " -> ") child_rules
  /\ dict_get "C" (category info_X6 "Class") = Some class_X6
  /\ getattr class_X6 "Hooks" = Some (AList [hook_X6])
  /\ get_str hook_X6 "Type" = Ok "Hook"
  /\ exists nm, get_str hook_X6 "Name" = Ok nm /\ split_head " -> " nm = "C".
Proof.
  assert (Hr : In ("Class", "Hooks", "Hook", " -> ") child_rules)
    by (simpl; auto 10).
  split; [reflexivity | split; [exact Hr | split; [reflexivity|]]].
  split; [reflexivity|].
  exact (X7_children_belong_to_their_parent raw_X6 info_X6 "Class" "Hooks"
           "Hook" " -> " "C" class_X6 [hook_X6] hook_X6
           eq_refl Hr eq_refl eq_refl (or_introl eq_refl)).
Defined.

(** ** The five documents *)

Lemma wf_shape (info : Info) :
  wf info ->
  info = [("Enum", category info "Enum");
          ("Constant", category info "Constant");
          ("Class", category info "Class");
          ("Function", category info "Function");
          ("Hook", category info "Hook")].
Proof.
  intros [Hk _]. unfold dict_keys, categories in Hk.
  destruct info as [|[k0 d0] [|[k1 d1] [|[k2 d2] [|[k3 d3] [|[k4 d4] [|x r]]]]]];
    simpl in Hk; try discriminate.
  now inversion Hk; subst.
Qed.

Lemma generate_docs_chain (version category_label : string) (info : Info) :
  wf info ->
  generate_docs version info category_label
  = (e <- generate_doc version category_label "Enum" (category info "Enum") ;;
     c <- generate_doc version category_label "Constant"
            (category info "Constant") ;;
     k <- generate_doc version category_label "Class"
            (category info "Class") ;;
     f <- generate_doc version category_label "Function"
            (category info "Function") ;;
     h <- generate_doc version category_label "Hook" (category info "Hook") ;;
     Ok [e; c; k; f; h]).
Proof.
  intros Hwf. rewrite (wf_shape info Hwf) at 1.
  unfold generate_docs. simpl generate_docs_loop.
  destruct (generate_doc version category_label "Enum" (category info "Enum"));
    [|reflexivity].
  destruct (generate_doc version category_label "Constant"
              (category info "Constant")); [|reflexivity].
  destruct (generate_doc version category_label "Class"
              (category info "Class")); [|reflexivity].
  destruct (generate_doc version category_label "Function"
              (category info "Function")); [|reflexivity].
  destruct (generate_doc version category_label "Hook"
              (category info "Hook")); reflexivity.
Qed.

(** X8.  For the result of [gather_info], [generate_docs] makes the
    documents of the categories Enum, Constant, Class, Function and Hook, in
    this order, and fails when one of them fails; so when it succeeds its
    result has exactly five documents, and the document written to
    [enums.md] is the one of the Enum category, and so on to [hooks.md]. *)
Theorem X8_five_documents_in_category_order :
  forall (raw version category_label : string) (info : Info)
         (docs : list string),
    gather_info raw = Ok info ->
    generate_docs version info category_label = Ok docs ->
    exists e c k f h,
      docs = [e; c; k; f; h]
      /\ generate_doc version category_label "Enum" (category info "Enum")
         = Ok e
      /\ generate_doc version category_label "Constant"
           (category info "Constant") = Ok c
      /\ generate_doc version category_label "Class" (category info "Class")
         = Ok k
      /\ generate_doc version category_label "Function"
           (category info "Function") = Ok f
      /\ generate_doc version category_label "Hook" (category info "Hook")
         = Ok h.
Proof.
  intros raw version category_label info docs Hg Hd.
  pose proof (gather_loop_wf _ _ _ Hg wf_init) as Hwf.
  rewrite (generate_docs_chain version category_label info Hwf) in Hd.
  destruct (generate_doc version category_label "Enum" (category info "Enum"))
    as [e|]; [|discriminate].
  destruct (generate_doc version category_label "Constant"
              (category info "Constant")) as [c|]; [|discriminate].
  destruct (generate_doc version category_label "Class"
              (category info "Class")) as [k|]; [|discriminate].
  destruct (generate_doc version category_label "Function"
              (category info "Function")) as [f|]; [|discriminate].
  destruct (generate_doc version category_label "Hook"
              (category info "Hook")) as [h|]; [|discriminate].
  simpl in Hd. inversion Hd. exists e, c, k, f, h. repeat split.
Qed.

(** ** Empty blocks *)

Lemma gather_step_empty (info : Info) (block : string) :
  re_sub_separator block = "" -> gather_step info block = Err AttributeError.
Proof. unfold gather_step. now intros ->. Qed.

Lemma gather_loop_empty_block (blocks : list string) :
  forall info : Info,
    (exists block, In block blocks /\ re_sub_separator block = "") ->
    exists e, gather_loop info blocks = Err e.
Proof.
  induction blocks as [|b blocks IH]; intros info (block & Hb & He).
  - destruct Hb.
  - simpl. destruct Hb as [->|Hb].
    + rewrite (gather_step_empty info block He). now exists AttributeError.
    + destruct (gather_step info b) as [info1|e]; [|now exists e].
      simpl. apply IH. now exists block.
Qed.

Lemma load_docs_fails (fs : filesystem)
    (stored version body server_text client_text : string) :
  dict_get input_path fs = Some (File stored) ->
  split_once nl (universal_newlines stored) = [version; body] ->
  split client_marker body = [server_text; client_text] ->
  (exists e, gather_info server_text = Err e)
  \/ (exists e, gather_info client_text = Err e) ->
  exists e, fst (load_docs fs) = Err e.
Proof.
  intros Hread Hv Hs Hbad.
  unfold load_docs, mbind, read_file, lift, ret.
  rewrite Hread, Hv. simpl. rewrite Hs. simpl.
  destruct Hbad as [(e & He)|(e & He)].
  - rewrite He. simpl. now exists e.
  - destruct (info <- gather_info server_text ;;
              generate_docs version info "Server") as [sd|e'];
      [|now exists e'].
    rewrite He. simpl. now exists e.
Qed.

(** X9.  A block that is empty once its separators are stripped makes
    [gather_info] fail; an empty section is such a block.  So when the
    server or the client section of the dump as it is read (its line
    endings arriving as newlines) is empty, or holds an empty block or a
    block that is only a separator line, the script ends with an exception
    and the file system is as it was. *)
Theorem X9_empty_block_is_fatal :
  (forall raw : string,
      has_empty_block raw -> exists e, gather_info raw = Err e)
  /\ has_empty_block ""
  /\ (forall (fs : filesystem)
             (stored version body server_text client_text : string),
         dict_get input_path fs = Some (File stored) ->
         split_once nl (universal_newlines stored) = [version; body] ->
         split client_marker body = [server_text; client_text] ->
         has_empty_block server_text \/ has_empty_block client_text ->
         exists e, main fs = (Err e, fs)).
Proof.
  assert (H1 : forall raw : string,
             has_empty_block raw -> exists e, gather_info raw = Err e).
  { intros raw. apply gather_loop_empty_block. }
  split; [exact H1 | split].
  - exists "". split; [now left | reflexivity].
  - intros fs dump version body server client Hread Hv Hs Hbad.
    destruct (load_docs_fails fs dump version body server client Hread Hv Hs)
      as (e & He).
    { destruct Hbad as [H|H]; [left | right]; now apply H1. }
    exists e. now apply main_load_failure.
Qed.

Lemma X9_empty_block_is_fatal_witness :
  has_empty_block ""
  /\ exists e, main [(input_path, File dump_X9)]
               = (Err e, [(input_path, File dump_X9)]).
Proof.
  destruct X9_empty_block_is_fatal as (_ & Hempty & Hmain).
  split; [exact Hempty|].
  exact (Hmain [(input_path, File dump_X9)] dump_X9 "1.0" _ _ ""
           eq_refl eq_refl eq_refl (or_intror Hempty)).
Defined.

Lemma X8_five_documents_in_category_order_witness :
  exists docs e c k f h,
    gather_info raw_X6 = Ok info_X6
    /\ generate_docs "7.1" info_X6 "Server" = Ok docs
    /\ docs = [e; c; k; f; h]
    /\ generate_doc "7.1" "Server" "Hook" (category info_X6 "Hook") = Ok h.
Proof.
  destruct (generate_docs "7.1" info_X6 "Server") as [docs|] eqn:E;
    [|discriminate].
  destruct (X8_five_documents_in_category_order raw_X6 "7.1" "Server" info_X6
              docs eq_refl E) as (e & c & k & f & h & Hd & _ & _ & _ & _ & Hh).
  exists docs, e, c, k, f, h.
  split; [reflexivity | split; [reflexivity | split; [exact Hd | exact Hh]]].
Defined.

(** ** Records the renderer cannot render *)

Lemma entry_sections_other (type : string) (l : list Instance) :
  (type =? "Enum") = false -> (type =? "Class") = false ->
  entry_sections type l = Ok "".
Proof.
  intros He Hc. induction l as [|x l IH]; simpl; [reflexivity|].
  unfold entry_section. rewrite He, Hc. simpl. now rewrite IH.
Qed.

Lemma table_rows_error (l : list Instance) (x : Instance) :
  In x l -> is_ok (table_row x) = false -> is_ok (table_rows l) = false.
Proof.
  induction l as [|y l IH]; intros Hin Hx; [destruct Hin|].
  simpl. destruct Hin as [->|Hin].
  - destruct (table_row x); [discriminate | reflexivity].
  - destruct (table_row y); [|reflexivity]. simpl.
    specialize (IH Hin Hx). now destruct (table_rows l).
Qed.

Lemma join_signed_error (sep : string) (indents : nat) (l : list Instance)
    (x : Instance) :
  In x l -> is_ok (describe_signed x indents) = false ->
  is_ok (join_signed sep indents l) = false.
Proof.
  induction l as [|y l IH]; intros Hin Hx; [destruct Hin|].
  destruct Hin as [->|Hin].
  - simpl. destruct l; destruct (describe_signed x indents);
      try discriminate; reflexivity.
  - specialize (IH Hin Hx). destruct l as [|z l]; [destruct Hin|].
    change (join_signed sep indents (y :: z :: l))
      with (d <- describe_signed y indents ;;
            ds <- join_signed sep indents (z :: l) ;;
            Ok (d ++ sep ++ ds)).
    set (J := join_signed sep indents (z :: l)) in *.
    destruct (describe_signed y indents); [|reflexivity].
    destruct J; [discriminate | reflexivity].
Qed.

Lemma dict_get_values (V : Type) (d : dict V) (k : string) (v : V) :
  dict_get k d = Some v -> In v (dict_values d).
Proof.
  unfold dict_values. induction d as [|[k' v'] d IH]; simpl; [discriminate|].
  destruct (k =? k'); [intros H; inversion H; now left | auto].
Qed.

Lemma category_tail_missing (t field n : string) (d : dict Instance)
    (inst : Instance) :
  In (t, field) rendered_attribute ->
  dict_get n d = Some inst ->
  getattr inst field = None ->
  is_ok (category_tail t d) = false.
Proof.
  intros Hin Hget Hnone. apply dict_get_values in Hget.
  assert (Hsigned : field = "Signature" ->
            is_ok (body <- join_signed NL 2 (dict_values d) ;; Ok (body ++ NL))
            = false).
  { intros ->.
    assert (Hr : is_ok (join_signed NL 2 (dict_values d)) = false).
    { apply (join_signed_error _ _ _ inst Hget). unfold describe_signed.
      destruct (get_str inst "Name"); [|reflexivity]. simpl.
      destruct (get_str inst "Description"); [|reflexivity]. simpl.
      unfold get_str. now rewrite Hnone. }
    destruct (join_signed NL 2 (dict_values d)); [discriminate | reflexivity]. }
  unfold rendered_attribute in Hin. simpl in Hin.
  destruct Hin as [H|[H|[H|[]]]]; inversion H; subst t field.
  - change (category_tail "Constant" d) with (generate_table (dict_values d)).
    unfold generate_table.
    assert (Hr : is_ok (table_rows (dict_values d)) = false).
    { apply (table_rows_error _ inst Hget). unfold table_row.
      destruct (get_str inst "Name"); [|reflexivity]. simpl.
      unfold get_str at 1. now rewrite Hnone. }
    destruct (table_rows (dict_values d)); [discriminate | reflexivity].
  - now apply Hsigned.
  - now apply Hsigned.
Qed.

Lemma generate_doc_missing (version category_label t field n : string)
    (d : dict Instance) (inst : Instance) :
  In (t, field) rendered_attribute ->
  dict_get n d = Some inst ->
  getattr inst field = None ->
  is_ok (generate_doc version category_label t d) = false.
Proof.
  intros Hin Hget Hnone.
  pose proof (category_tail_missing t field n d inst Hin Hget Hnone) as Ht.
  unfold generate_doc.
  destruct (dict_item t pretty_names); [|reflexivity]. simpl.
  destruct (entry_sections t (dict_values d)); [|reflexivity]. simpl.
  destruct (category_tail t d); [discriminate | reflexivity].
Qed.

(** X10.  When the result of [gather_info] holds, in its Constant category, a
    record without a Value, or in its Function or Hook category a record
    without a Signature, [generate_docs] fails: the record is filed by the
    parser without complaint and stops the renderer. *)
Theorem X10_missing_value_or_signature_stops_rendering :
  forall (raw version category_label t field n : string) (info : Info)
         (inst : Instance),
    gather_info raw = Ok info ->
    In (t, field) rendered_attribute ->
    dict_get n (category info t) = Some inst ->
    getattr inst field = None ->
    exists e, generate_docs version info category_label = Err e.
Proof.
  intros raw version category_label t field n info inst Hg Hin Hget Hnone.
  pose proof (gather_loop_wf _ _ _ Hg wf_init) as Hwf.
  pose proof (generate_doc_missing version category_label t field n
                (category info t) inst Hin Hget Hnone) as Hdoc.
  assert (H : is_ok (generate_docs version info category_label) = false).
  { rewrite (generate_docs_chain version category_label info Hwf).
    unfold rendered_attribute in Hin. simpl in Hin.
    destruct Hin as [H|[H|[H|[]]]]; inversion H; subst t field;
      repeat match goal with
             | |- context [bind (generate_doc ?v ?c ?t ?d) _] =>
                 destruct (generate_doc v c t d); simpl;
                 try discriminate; try reflexivity
             end. }
  destruct (generate_docs version info category_label) as [docs|e];
    [discriminate | now exists e].
Qed.

Lemma X10_missing_value_or_signature_stops_rendering_witness :
  exists info inst,
    gather_info "Constant: X" = Ok info
    /\ In ("Constant", "Value") rendered_attribute
    /\ dict_get "X" (category info "Constant") = Some inst
    /\ getattr inst "Value" = None
    /\ exists e, generate_docs "7.1" info "Server" = Err e.
Proof.
  destruct (gather_info "Constant: X") as [info|] eqn:E; [|discriminate].
  inversion E; subst info.
  do 2 eexists.
  split; [reflexivity | split; [now left | split; [reflexivity|]]].
  split; [reflexivity|].
  exact (X10_missing_value_or_signature_stops_rendering "Constant: X" "7.1"
           "Server" "Constant" "Value" "X" _ _ eq_refl (or_introl eq_refl)
           eq_refl eq_refl).
Defined.

(** ** The paths the script touches *)

Lemma touches_ret (A : Type) (P : string -> Prop) (a : A) :
  touches_only P (ret a).
Proof. intros fs r fs' H p _. unfold ret in H. now inversion H. Qed.

Lemma touches_lift (A : Type) (P : string -> Prop) (x : result A) :
  touches_only P (lift x).
Proof. intros fs r fs' H p _. unfold lift in H. now inversion H. Qed.

Lemma touches_path_exists (P : string -> Prop) (path : string) :
  touches_only P (path_exists path).
Proof. intros fs r fs' H p _. unfold path_exists in H. now inversion H. Qed.

Lemma touches_read_file (P : string -> Prop) (path : string) :
  touches_only P (read_file path).
Proof.
  intros fs r fs' H p _. unfold read_file in H.
  destruct (dict_get path fs) as [[c|]|]; now inversion H.
Qed.

Lemma touches_mkdir (P : string -> Prop) (path : string) :
  P path -> touches_only P (mkdir path).
Proof.
  intros HP fs r fs' H p Hp. unfold mkdir in H.
  destruct (dict_mem path fs); inversion H; subst; [reflexivity|].
  apply dict_get_set_neq. now intros ->.
Qed.

Lemma touches_write (P : string -> Prop) (path content : string) :
  P path -> touches_only P (write path content).
Proof.
  intros HP fs r fs' H p Hp. unfold write in H.
  destruct (dict_get (split_head "/" path) fs) as [[c|]|];
    try (now inversion H).
  destruct (dict_get path fs) as [[c|]|]; inversion H; subst;
    try reflexivity; apply dict_get_set_neq; now intros ->.
Qed.

Lemma touches_bind (A B : Type) (P : string -> Prop) (m : M A) (k : A -> M B) :
  touches_only P m -> (forall a, touches_only P (k a)) ->
  touches_only P (mbind m k).
Proof.
  intros Hm Hk fs r fs' H p Hp. unfold mbind in H.
  destruct (m fs) as [[a|e] fs1] eqn:E.
  - rewrite (Hk a fs1 r fs' H p Hp). exact (Hm fs (Ok a) fs1 E p Hp).
  - inversion H; subst. exact (Hm fs (Err e) fs' E p Hp).
Qed.

Lemma touches_weaken (A : Type) (P Q : string -> Prop) (m : M A) :
  (forall p, P p -> Q p) -> touches_only P m -> touches_only Q m.
Proof. intros HPQ Hm fs r fs' H p Hp. apply (Hm fs r fs' H). auto. Qed.

Lemma touches_write_docs (dir : string) (docs : list string) :
  touches_only (fun p => In p (output_paths dir)) (write_docs dir docs).
Proof.
  unfold write_docs, output_paths, doc_files.
  repeat first
    [ apply touches_bind; [|intros ?]
    | apply touches_path_exists
    | apply touches_lift
    | apply touches_ret
    | apply touches_mkdir; simpl; auto 10
    | apply touches_write; simpl; auto 10
    | match goal with |- touches_only _ (if ?b then _ else _) => destruct b end ].
Qed.

Lemma touches_load_docs (P : string -> Prop) : touches_only P load_docs.
Proof.
  intros fs r fs' H p _. pose proof (load_docs_pure fs) as Hp.
  rewrite H in Hp. simpl in Hp. now subst.
Qed.

(** X11.  Whether it ends well or with an exception, the script leaves
    every path as it was except the directories [server] and [client] and
    the five files of each: it changes neither the dump it reads nor any
    other file. *)
Theorem X11_script_touches_only_its_outputs :
  forall (fs fs' : filesystem) (r : result unit) (p : string),
    main fs = (r, fs') ->
    ~ In p (output_paths "server" ++ output_paths "client")%list ->
    dict_get p fs' = dict_get p fs.
Proof.
  intros fs fs' r p H Hp. revert fs r fs' H p Hp.
  change (touches_only
            (fun p => In p (output_paths "server" ++ output_paths "client")%list)
            main).
  unfold main.
  apply touches_bind; [apply touches_load_docs | intros docs].
  apply touches_bind; [|intros _].
  - apply (touches_weaken _ _ _ _ (fun p H => in_or_app _ _ p (or_introl H))).
    apply touches_write_docs.
  - apply (touches_weaken _ _ _ _ (fun p H => in_or_app _ _ p (or_intror H))).
    apply touches_write_docs.
Qed.

Lemma X11_script_touches_only_its_outputs_witness :
  main fs_X11 = (Ok tt, fs_X11')
  /\ ~ In "notes.txt" (output_paths "server" ++ output_paths "client")%list
  /\ dict_get "notes.txt" fs_X11' = dict_get "notes.txt" fs_X11.
Proof.
  assert (Hrun : main fs_X11 = (Ok tt, fs_X11')) by (vm_compute; reflexivity).
  assert (Hp : ~ In "notes.txt"
                 (output_paths "server" ++ output_paths "client")%list).
  { simpl. intuition discriminate. }
  split; [exact Hrun | split; [exact Hp|]].
  exact (X11_script_touches_only_its_outputs fs_X11 fs_X11' (Ok tt)
           "notes.txt" Hrun Hp).
Defined.

(** ** Paths *)

Lemma prefix_slash (c : ascii) (t : string) :
  prefix "/" (String c t) = Ascii.eqb "/"%char c.
Proof.
  cbn [prefix]. destruct (ascii_dec "/"%char c) as [<-|Hne].
  - now destruct t.
  - symmetry. now apply Ascii.eqb_neq.
Qed.

Lemma split_head_dir (dir rest : string) :
  str_forall not_slash dir = true ->
  split_head "/" (dir ++ String "/"%char rest) = dir.
Proof.
  unfold split_head, split.
  induction dir as [|c dir IH]; intros H.
  - change ("" ++ String "/"%char rest) with (String "/"%char rest).
    cbn [split_from]. now rewrite prefix_slash.
  - simpl in H. apply andb_prop in H as [Hc H]. specialize (IH H).
    change (String c dir ++ String "/"%char rest)
      with (String c (dir ++ String "/"%char rest)).
    cbn [split_from]. rewrite prefix_slash.
    unfold not_slash in Hc. apply negb_true_iff in Hc.
    rewrite Ascii.eqb_sym, Hc.
    destruct (split_from "/" 0 (dir ++ String "/"%char rest)) as [|l ls];
      simpl in *; now subst.
Qed.

Lemma eqb_append_l (a b c : string) : (a ++ b =? a ++ c) = (b =? c).
Proof.
  induction a as [|x a IH]; simpl; [reflexivity|].
  now rewrite Ascii.eqb_refl.
Qed.

Lemma eqb_append_self (a : string) (c : ascii) (b : string) :
  (a =? a ++ String c b) = false /\ (a ++ String c b =? a) = false.
Proof.
  induction a as [|x a IH]; simpl; [now split|].
  now rewrite Ascii.eqb_refl.
Qed.

(** ** The five writes *)

Lemma mbind_ok (A B : Type) (m : M A) (k : A -> M B) (fs fs' : filesystem)
    (b : B) :
  mbind m k fs = (Ok b, fs') ->
  exists a fs1, m fs = (Ok a, fs1) /\ k a fs1 = (Ok b, fs').
Proof.
  unfold mbind. destruct (m fs) as [[a|e] fs1]; [|discriminate].
  intros H. now exists a, fs1.
Qed.

Lemma mbind_step (A B : Type) (m : M A) (k : A -> M B) (fs fs1 : filesystem)
    (a : A) :
  m fs = (Ok a, fs1) -> mbind m k fs = k a fs1.
Proof. unfold mbind. now intros ->. Qed.

Lemma write_ok_inv (path content : string) (fs fs' : filesystem) :
  write path content fs = (Ok tt, fs') ->
  dict_get (split_head "/" path) fs = Some Dir
  /\ dict_get path fs <> Some Dir
  /\ fs' = dict_set path (File content) fs.
Proof.
  unfold write.
  destruct (dict_get (split_head "/" path) fs) as [[c|]|]; try discriminate.
  destruct (dict_get path fs) as [[c|]|]; try discriminate;
    intros H; inversion H; repeat split; discriminate.
Qed.

Lemma write_ok (path content : string) (fs : filesystem) :
  dict_get (split_head "/" path) fs = Some Dir ->
  dict_get path fs <> Some Dir ->
  write path content fs = (Ok tt, dict_set path (File content) fs).
Proof.
  unfold write. intros -> H.
  destruct (dict_get path fs) as [[c|]|]; congruence.
Qed.

Lemma dict_set_same (V : Type) (d : dict V) (k : string) (v : V) :
  dict_get k d = Some v -> dict_set k v d = d.
Proof.
  induction d as [|[k' v'] d IH]; simpl; [discriminate|].
  destruct (String.eqb_spec k k') as [->|].
  - intros H. now inversion H.
  - intros H. now rewrite IH.
Qed.

Lemma enter_dir_run (dir : string) (fs : filesystem) :
  enter_dir dir fs
  = (Ok tt, if dict_mem dir fs then fs else dict_set dir Dir fs).
Proof.
  unfold enter_dir, mbind, path_exists, ret, mkdir.
  now destruct (dict_mem dir fs) eqn:E; simpl; rewrite ?E.
Qed.

Lemma write_docs_steps (dir : string) (docs : list string) (fs : filesystem) :
  write_docs dir docs fs
  = (enter_dir dir ;;;
     write_doc dir docs 0 "/enums.md" ;;;
     write_doc dir docs 1 "/constants.md" ;;;
     write_doc dir docs 2 "/classes.md" ;;;
     write_doc dir docs 3 "/functions.md" ;;;
     write_doc dir docs 4 "/hooks.md") fs.
Proof.
  unfold write_docs, enter_dir, write_doc, mbind, lift, path_exists.
  destruct (dict_mem dir fs); simpl.
  all: repeat match goal with
       | |- context [match index ?l ?i with _ => _ end] =>
           destruct (index l i); simpl; try reflexivity
       | |- context [match write ?p ?c ?f with _ => _ end] =>
           destruct (write p c f) as [[[]|?] ?]; simpl; try reflexivity
       | |- context [match mkdir ?p ?f with _ => _ end] =>
           destruct (mkdir p f) as [[[]|?] ?]; simpl; try reflexivity
       end.
Qed.

Lemma mbind_ret_unit (m : M unit) (fs : filesystem) :
  (m ;;; ret tt) fs = m fs.
Proof.
  unfold mbind, ret. now destruct (m fs) as [[[]|e] fs'].
Qed.

Lemma write_docs_as_steps (dir : string) (docs : list string) (fs : filesystem) :
  write_docs dir docs fs = (enter_dir dir ;;; write_all dir docs doc_steps) fs.
Proof.
  rewrite write_docs_steps. unfold doc_steps, write_all.
  unfold mbind at 1 6.
  destruct (enter_dir dir fs) as [[[]|e] fs0]; [|reflexivity].
  unfold mbind at 1 5.
  destruct (write_doc dir docs 0 "/enums.md" fs0) as [[[]|e] fs1];
    [|reflexivity].
  unfold mbind at 1 4.
  destruct (write_doc dir docs 1 "/constants.md" fs1) as [[[]|e] fs2];
    [|reflexivity].
  unfold mbind at 1 3.
  destruct (write_doc dir docs 2 "/classes.md" fs2) as [[[]|e] fs3];
    [|reflexivity].
  unfold mbind at 1 2.
  destruct (write_doc dir docs 3 "/functions.md" fs3) as [[[]|e] fs4];
    [|reflexivity].
  now rewrite mbind_ret_unit.
Qed.

Lemma write_doc_run (dir : string) (docs : list string) (i : nat) (g : string)
    (fs : filesystem) :
  str_forall not_slash dir = true ->
  dict_get dir fs = Some Dir ->
  write_doc dir docs i (String "/"%char g) fs
  = match nth_error docs i with
    | None => (Err IndexError, fs)
    | Some d =>
        match dict_get (dir ++ String "/"%char g) fs with
        | Some Dir => (Err OSError, fs)
        | _ => (Ok tt, dict_set (dir ++ String "/"%char g) (File d) fs)
        end
    end.
Proof.
  intros Hs Hd. unfold write_doc, mbind, lift, index, of_option.
  destruct (nth_error docs i) as [d|]; [|reflexivity].
  unfold write. now rewrite (split_head_dir dir g Hs), Hd.
Qed.

Lemma dir_kept (dir : string) (g : string) (n : node) (fs : filesystem) :
  dict_get dir (dict_set (dir ++ String "/"%char g) n fs) = dict_get dir fs.
Proof.
  rewrite dict_get_set.
  now rewrite (proj1 (eqb_append_self dir "/"%char g)).
Qed.

Lemma step_ready_set (dir : string) (docs : list string) (fs : filesystem)
    (p d : string) (s : nat * string) :
  dict_get p fs <> Some Dir ->
  step_ready dir docs (dict_set p (File d) fs) s <-> step_ready dir docs fs s.
Proof.
  intros Hp. unfold step_ready. rewrite dict_get_set.
  destruct (String.eqb_spec (dir ++ snd s) p) as [->|Hne]; [|tauto].
  split; intros [Hi _]; (split; [exact Hi|]); [exact Hp | discriminate].
Qed.

Lemma Forall_step_ready_set (dir : string) (docs : list string)
    (fs : filesystem) (p d : string) (steps : list (nat * string)) :
  dict_get p fs <> Some Dir ->
  Forall (step_ready dir docs (dict_set p (File d) fs)) steps
  <-> Forall (step_ready dir docs fs) steps.
Proof.
  intros Hp. rewrite !Forall_forall.
  split; intros H s Hs; apply (step_ready_set dir docs fs p d s Hp); auto.
Qed.

Lemma write_all_succeeds (dir : string) (docs : list string) :
  str_forall not_slash dir = true ->
  forall (steps : list (nat * string)) (fs : filesystem),
    Forall slash_named steps ->
    dict_get dir fs = Some Dir ->
    (exists fs', write_all dir docs steps fs = (Ok tt, fs'))
    <-> Forall (step_ready dir docs fs) steps.
Proof.
  intros Hs. induction steps as [|[i f] steps IH]; intros fs Hn Hd.
  - split; [constructor | now exists fs].
  - inversion Hn as [|s l [g Hg] Hn']; subst. simpl in Hg. subst f.
    cbn [write_all]. unfold mbind.
    rewrite (write_doc_run dir docs i g fs Hs Hd).
    destruct (nth_error docs i) as [d|] eqn:Ei.
    + assert (Hi : (i < length docs)%nat)
        by (apply nth_error_Some; congruence).
      destruct (dict_get (dir ++ String "/"%char g) fs) as [[c|]|] eqn:Ep.
      * rewrite (IH _ Hn' (eq_trans (dir_kept dir g _ fs) Hd)).
        rewrite Forall_step_ready_set by congruence.
        split; [intros H; constructor; [split; [exact Hi|]|exact H]|].
        -- simpl. congruence.
        -- intros H. now inversion H.
      * split; [intros [fs' H]; discriminate|].
        intros H. inversion H as [|s l [_ Hr] _]; subst. simpl in Hr.
        congruence.
      * rewrite (IH _ Hn' (eq_trans (dir_kept dir g _ fs) Hd)).
        rewrite Forall_step_ready_set by congruence.
        split; [intros H; constructor; [split; [exact Hi|]|exact H]|].
        -- simpl. congruence.
        -- intros H. now inversion H.
    + split; [intros [fs' H]; discriminate|].
      intros H. inversion H as [|s l [Hi _] _]; subst. simpl in Hi.
      apply nth_error_Some in Hi. congruence.
Qed.

Lemma write_all_frame (dir : string) (docs : list string)
    (steps : list (nat * string)) :
  touches_only (fun p => exists s, In s steps /\ p = dir ++ snd s)
    (write_all dir docs steps).
Proof.
  induction steps as [|[i f] steps IH]; cbn [write_all].
  - apply touches_ret.
  - apply touches_bind; [|intros _].
    + unfold write_doc. apply touches_bind; [apply touches_lift|intros d].
      apply touches_write. exists (i, f). split; [now left | reflexivity].
    + apply (touches_weaken _ _ _ _
               (fun p (H : exists s, In s steps /\ p = dir ++ snd s) =>
                  match H with
                  | ex_intro _ s (conj Hin He) =>
                      ex_intro _ s (conj (or_intror Hin) He)
                  end)).
      exact IH.
Qed.

Lemma append_inj_l (a b c : string) : a ++ b = a ++ c -> b = c.
Proof.
  intros H. apply String.eqb_eq. rewrite <- (eqb_append_l a b c).
  now apply String.eqb_eq.
Qed.

Lemma write_all_done (dir : string) (docs : list string) :
  str_forall not_slash dir = true ->
  forall (steps : list (nat * string)) (fs fs' : filesystem),
    Forall slash_named steps ->
    NoDup (map snd steps) ->
    dict_get dir fs = Some Dir ->
    write_all dir docs steps fs = (Ok tt, fs') ->
    dict_get dir fs' = Some Dir /\ Forall (step_done dir docs fs') steps.
Proof.
  intros Hs. induction steps as [|[i f] steps IH]; intros fs fs' Hn Hu Hd H.
  - cbn in H. inversion H; subst. split; [exact Hd | constructor].
  - inversion Hn as [|s l [g Hg] Hn']; subst. simpl in Hg. subst f.
    inversion Hu as [|x l Hx Hu']; subst.
    cbn [write_all] in H. apply mbind_ok in H as ([] & fs1 & H1 & H2).
    rewrite (write_doc_run dir docs i g fs Hs Hd) in H1.
    destruct (nth_error docs i) as [d|] eqn:Ei; [|discriminate].
    assert (E1 : fs1 = dict_set (dir ++ String "/"%char g) (File d) fs).
    { destruct (dict_get (dir ++ String "/"%char g) fs) as [[c|]|];
        now inversion H1. }
    clear H1. subst fs1.
    destruct (IH _ fs' Hn' Hu' (eq_trans (dir_kept dir g _ fs) Hd) H2)
      as [Hd' Hall].
    split; [exact Hd'|]. constructor; [|exact Hall].
    exists d. split; [unfold index; simpl; now rewrite Ei|]. simpl.
    rewrite (write_all_frame dir docs steps _ _ _ H2).
    + apply dict_get_set_eq.
    + intros ([j f] & Hin & He). simpl in He. apply append_inj_l in He.
      apply Hx. rewrite He. now apply (in_map snd) in Hin.
Qed.

Lemma write_all_fixed (dir : string) (docs : list string) :
  str_forall not_slash dir = true ->
  forall (steps : list (nat * string)) (fs : filesystem),
    Forall slash_named steps ->
    dict_get dir fs = Some Dir ->
    Forall (step_done dir docs fs) steps ->
    write_all dir docs steps fs = (Ok tt, fs).
Proof.
  intros Hs. induction steps as [|[i f] steps IH]; intros fs Hn Hd Hall.
  - reflexivity.
  - inversion Hn as [|s l [g Hg] Hn']; subst. simpl in Hg. subst f.
    inversion Hall as [|s l (d & Hi & Hf) Hall']; subst. simpl in Hi, Hf.
    cbn [write_all]. unfold mbind.
    rewrite (write_doc_run dir docs i g fs Hs Hd).
    unfold index, of_option in Hi.
    destruct (nth_error docs i) as [d'|]; [|discriminate].
    inversion Hi; subst d'. rewrite Hf.
    rewrite (dict_set_same _ _ _ _ Hf). now apply IH.
Qed.

Lemma doc_steps_named : Forall slash_named doc_steps.
Proof. unfold doc_steps. repeat constructor; eexists; reflexivity. Qed.

Lemma doc_steps_distinct : NoDup (map snd doc_steps).
Proof.
  unfold doc_steps. simpl.
  repeat (constructor; [simpl; intuition discriminate|]). constructor.
Qed.

(** ** The block of one context *)

Lemma steps_ready_iff (dir : string) (docs : list string) (fs : filesystem) :
  Forall (step_ready dir docs fs) doc_steps
  <-> (forall f, In f doc_files -> dict_get (dir ++ f) fs <> Some Dir)
      /\ (5 <= length docs)%nat.
Proof.
  unfold doc_steps, doc_files, step_ready.
  rewrite !Forall_cons_iff. simpl. split.
  - intros ((H0 & F0) & (H1 & F1) & (H2 & F2) & (H3 & F3) & (H4 & F4) & _).
    split; [|lia].
    intros f [<-|[<-|[<-|[<-|[<-|[]]]]]]; assumption.
  - intros [Hf Hl]. repeat split; try lia; try constructor; apply Hf; auto 10.
Qed.

Lemma write_docs_succeeds (dir : string) (docs : list string)
    (fs : filesystem) :
  str_forall not_slash dir = true ->
  (exists fs', write_docs dir docs fs = (Ok tt, fs'))
  <-> fs_ready dir fs /\ (5 <= length docs)%nat.
Proof.
  intros Hs. unfold fs_ready.
  assert (Hiff : forall fs0,
    dict_get dir fs0 = Some Dir ->
    (forall f, In f doc_files -> dict_get (dir ++ f) fs0 = dict_get (dir ++ f) fs) ->
    (exists fs', write_all dir docs doc_steps fs0 = (Ok tt, fs'))
    <-> (forall f, In f doc_files -> dict_get (dir ++ f) fs <> Some Dir)
        /\ (5 <= length docs)%nat).
  { intros fs0 Hd Hsame.
    rewrite (write_all_succeeds dir docs Hs doc_steps fs0 doc_steps_named Hd).
    rewrite steps_ready_iff.
    split; intros [Hf Hl]; (split; [|exact Hl]); intros f Hin;
      [rewrite <- (Hsame f Hin) | rewrite (Hsame f Hin)]; now apply Hf. }
  assert (Hstep : forall fs',
    write_docs dir docs fs = (Ok tt, fs')
    <-> write_all dir docs doc_steps
          (if dict_mem dir fs then fs else dict_set dir Dir fs) = (Ok tt, fs')).
  { intros fs'. rewrite write_docs_as_steps. unfold mbind.
    now rewrite enter_dir_run. }
  unfold dict_mem in Hstep.
  destruct (dict_get dir fs) as [[c|]|] eqn:Ed.
  - split.
    + intros [fs' H]. apply Hstep in H. exfalso.
      unfold doc_steps in H. cbn [write_all] in H.
      apply mbind_ok in H as ([] & fs1 & H & _).
      unfold write_doc in H. apply mbind_ok in H as (d & fs2 & H1 & H).
      unfold lift in H1. inversion H1; subst fs2.
      apply write_ok_inv in H as (H & _).
      rewrite (split_head_dir dir "enums.md" Hs) in H. congruence.
    + intros [[[H|H] _] _]; discriminate.
  - split.
    + intros [fs' H]. apply Hstep in H.
      split; [split; [now right|]|];
        apply (proj1 (Hiff fs Ed (fun f _ => eq_refl)) (ex_intro _ fs' H)).
    + intros [[_ Hf] Hl].
      destruct (proj2 (Hiff fs Ed (fun f _ => eq_refl)) (conj Hf Hl))
        as [fs' H].
      exists fs'. now apply Hstep.
  - assert (Hd : dict_get dir (dict_set dir Dir fs) = Some Dir)
      by apply dict_get_set_eq.
    assert (Hsame : forall f, In f doc_files ->
              dict_get (dir ++ f) (dict_set dir Dir fs) = dict_get (dir ++ f) fs).
    { intros f Hin. rewrite dict_get_set.
      unfold doc_files in Hin. simpl in Hin.
      destruct Hin as [<-|[<-|[<-|[<-|[<-|[]]]]]];
        now rewrite (proj2 (eqb_append_self dir "/"%char _)). }
    split.
    + intros [fs' H]. apply Hstep in H.
      split; [split; [now left|]|];
        apply (proj1 (Hiff _ Hd Hsame) (ex_intro _ fs' H)).
    + intros [[_ Hf] Hl].
      destruct (proj2 (Hiff _ Hd Hsame) (conj Hf Hl)) as [fs' H].
      exists fs'. now apply Hstep.
Qed.

Lemma write_docs_done (dir : string) (docs : list string)
    (fs fs' : filesystem) :
  str_forall not_slash dir = true ->
  write_docs dir docs fs = (Ok tt, fs') ->
  written dir docs fs'.
Proof.
  intros Hs H. rewrite write_docs_as_steps in H. unfold mbind in H.
  rewrite enter_dir_run in H.
  assert (Hd : dict_get dir (if dict_mem dir fs then fs else dict_set dir Dir fs)
               = Some Dir).
  { unfold dict_mem in *. destruct (dict_get dir fs) as [[c|]|] eqn:Ed.
    - exfalso. unfold doc_steps in H. cbn [write_all] in H.
      apply mbind_ok in H as ([] & fs1 & H & _).
      unfold write_doc in H. apply mbind_ok in H as (d & fs2 & H1 & H).
      unfold lift in H1. inversion H1; subst fs2.
      apply write_ok_inv in H as (H & _).
      rewrite (split_head_dir dir "enums.md" Hs) in H. congruence.
    - exact Ed.
    - apply dict_get_set_eq. }
  exact (write_all_done dir docs Hs doc_steps _ fs' doc_steps_named
           doc_steps_distinct Hd H).
Qed.

Lemma write_docs_fixed (dir : string) (docs : list string) (fs : filesystem) :
  str_forall not_slash dir = true ->
  written dir docs fs ->
  write_docs dir docs fs = (Ok tt, fs).
Proof.
  intros Hs [Hd Hall]. rewrite write_docs_as_steps. unfold mbind.
  rewrite enter_dir_run. unfold dict_mem. rewrite Hd.
  exact (write_all_fixed dir docs Hs doc_steps fs doc_steps_named Hd Hall).
Qed.

Lemma written_frame (dir : string) (docs : list string) (fs fs' : filesystem) :
  (forall p, In p (output_paths dir) -> dict_get p fs' = dict_get p fs) ->
  written dir docs fs -> written dir docs fs'.
Proof.
  intros Hsame [Hd Hall]. split.
  - rewrite Hsame; [exact Hd | now left].
  - rewrite Forall_forall in *. intros s Hin.
    destruct (Hall s Hin) as (d & Hi & Hf). exists d. split; [exact Hi|].
    rewrite Hsame; [exact Hf|]. right. apply in_map.
    exact (in_map snd doc_steps s Hin).
Qed.

Lemma fs_ready_frame (dir : string) (fs fs' : filesystem) :
  (forall p, In p (output_paths dir) -> dict_get p fs' = dict_get p fs) ->
  fs_ready dir fs -> fs_ready dir fs'.
Proof.
  intros Hsame [Hd Hf]. split.
  - rewrite Hsame; [exact Hd | now left].
  - intros f Hin. rewrite Hsame; [now apply Hf|].
    right. now apply in_map.
Qed.

Lemma outputs_disjoint (p : string) :
  In p (output_paths "server") -> In p (output_paths "client") -> False.
Proof.
  unfold output_paths, doc_files. simpl.
  intros H1 H2.
  repeat (destruct H1 as [H1|H1]; [subst p;
    repeat (destruct H2 as [H2|H2]; [discriminate|]); exact H2|]).
  exact H1.
Qed.

Lemma input_not_output :
  ~ In input_path (output_paths "server" ++ output_paths "client")%list.
Proof. unfold input_path. simpl. intuition discriminate. Qed.

(** ** The script as a whole *)

Lemma generate_docs_length (raw version category_label : string)
    (info : Info) (docs : list string) :
  gather_info raw = Ok info ->
  generate_docs version info category_label = Ok docs ->
  length docs = 5%nat.
Proof.
  intros Hg Hd.
  pose proof (gather_loop_wf _ _ _ Hg wf_init) as Hwf.
  rewrite (generate_docs_chain version category_label info Hwf) in Hd.
  destruct (generate_doc version category_label "Enum" (category info "Enum"))
    as [e|]; [|discriminate].
  destruct (generate_doc version category_label "Constant"
              (category info "Constant")) as [c|]; [|discriminate].
  destruct (generate_doc version category_label "Class"
              (category info "Class")) as [k|]; [|discriminate].
  destruct (generate_doc version category_label "Function"
              (category info "Function")) as [f|]; [|discriminate].
  destruct (generate_doc version category_label "Hook"
              (category info "Hook")) as [h|]; [|discriminate].
  simpl in Hd. now inversion Hd.
Qed.

Lemma load_docs_lengths (fs fs0 : filesystem) (s c : list string) :
  load_docs fs = (Ok (s, c), fs0) -> length s = 5%nat /\ length c = 5%nat.
Proof.
  unfold load_docs, mbind, read_file, lift, ret.
  destruct (dict_get input_path fs) as [[stored|]|]; try discriminate.
  generalize (universal_newlines stored). intros dump.
  destruct (unpack2 (split_once nl dump)) as [[version body]|]; [|discriminate].
  destruct (unpack2 (split client_marker body)) as [[server client]|];
    [|discriminate].
  destruct (gather_info server) as [si|] eqn:Es; [|discriminate].
  simpl.
  destruct (generate_docs version si "Server") as [sd|] eqn:Esd;
    [|discriminate].
  destruct (gather_info client) as [ci|] eqn:Ec; [|discriminate].
  simpl.
  destruct (generate_docs version ci "Client") as [cd|] eqn:Ecd;
    [|discriminate].
  intros H. inversion H; subst. split.
  - exact (generate_docs_length _ _ _ _ _ Es Esd).
  - exact (generate_docs_length _ _ _ _ _ Ec Ecd).
Qed.

Lemma load_docs_reads (fs fs2 : filesystem) :
  dict_get input_path fs = dict_get input_path fs2 ->
  fst (load_docs fs) = fst (load_docs fs2).
Proof.
  intros H. unfold load_docs, mbind, read_file, lift, ret. rewrite H.
  destruct (dict_get input_path fs2) as [[stored|]|]; try reflexivity.
  generalize (universal_newlines stored). intros dump.
  destruct (unpack2 (split_once nl dump)) as [[version body]|]; [|reflexivity].
  destruct (unpack2 (split client_marker body)) as [[server client]|];
    [|reflexivity].
  destruct (info <- gather_info server ;; generate_docs version info "Server");
    [|reflexivity].
  now destruct (info <- gather_info client ;;
                generate_docs version info "Client").
Qed.

Lemma load_docs_ok (fs fs0 : filesystem) (docs : list string * list string) :
  load_docs fs = (Ok docs, fs0) -> fs0 = fs.
Proof.
  intros H. pose proof (load_docs_pure fs) as Hp. rewrite H in Hp.
  exact Hp.
Qed.

Lemma main_after_load (fs : filesystem) (s c : list string) :
  load_docs fs = (Ok (s, c), fs) ->
  main fs = (write_docs "server" s ;;; write_docs "client" c) fs.
Proof.
  intros H. unfold main.
  now rewrite (mbind_step _ _ load_docs _ fs fs (s, c) H).
Qed.

Lemma main_run (fs fs' : filesystem) :
  main fs = (Ok tt, fs') ->
  exists s c fs1,
    load_docs fs = (Ok (s, c), fs)
    /\ write_docs "server" s fs = (Ok tt, fs1)
    /\ write_docs "client" c fs1 = (Ok tt, fs').
Proof.
  intros H. unfold main in H.
  apply mbind_ok in H as ([s c] & fs0 & H0 & H).
  pose proof (load_docs_ok _ _ _ H0) as ->.
  apply mbind_ok in H as ([] & fs1 & H1 & H2).
  now exists s, c, fs1.
Qed.

Lemma server_kept (c : list string) (fs1 fs' : filesystem) (r : result unit) :
  write_docs "client" c fs1 = (r, fs') ->
  forall p, In p (output_paths "server") -> dict_get p fs' = dict_get p fs1.
Proof.
  intros H p Hp. apply (touches_write_docs "client" c fs1 r fs' H p).
  intros Hc. exact (outputs_disjoint p Hp Hc).
Qed.

Lemma client_kept (s : list string) (fs fs1 : filesystem) (r : result unit) :
  write_docs "server" s fs = (r, fs1) ->
  forall p, In p (output_paths "client") -> dict_get p fs1 = dict_get p fs.
Proof.
  intros H p Hp. apply (touches_write_docs "server" s fs r fs1 H p).
  intros Hs. exact (outputs_disjoint p Hs Hp).
Qed.

(** X12.  The script ends without an exception exactly when the dump is
    read, cut, classified and rendered without one, [server] and [client]
    are each absent or a directory, and none of the ten output paths is a
    directory.  An existing output file is no obstacle: it is overwritten. *)
Theorem X12_script_succeeds_iff :
  forall fs : filesystem,
    (exists fs', main fs = (Ok tt, fs'))
    <-> (exists docs, load_docs fs = (Ok docs, fs))
        /\ fs_ready "server" fs /\ fs_ready "client" fs.
Proof.
  intros fs. destruct (load_docs fs) as [[[s c]|e] fs0] eqn:El.
  - pose proof (load_docs_ok _ _ _ El) as ->.
    destruct (load_docs_lengths _ _ _ _ El) as [Ls Lc].
    rewrite (main_after_load fs s c El). split.
    + intros [fs' H]. apply mbind_ok in H as ([] & fs1 & H1 & H2).
      split; [now exists (s, c)|].
      pose proof (proj1 (write_docs_succeeds "server" s fs eq_refl)
                    (ex_intro _ fs1 H1)) as [Rs _].
      pose proof (proj1 (write_docs_succeeds "client" c fs1 eq_refl)
                    (ex_intro _ fs' H2)) as [Rc _].
      split; [exact Rs|].
      apply (fs_ready_frame "client" fs1 fs); [|exact Rc].
      intros p Hp. symmetry. exact (client_kept s fs fs1 (Ok tt) H1 p Hp).
    + intros (_ & Rs & Rc).
      destruct (proj2 (write_docs_succeeds "server" s fs eq_refl))
        as [fs1 H1]; [split; [exact Rs | lia]|].
      destruct (proj2 (write_docs_succeeds "client" c fs1 eq_refl))
        as [fs' H2].
      { split; [|lia]. apply (fs_ready_frame "client" fs fs1); [|exact Rc].
        exact (client_kept s fs fs1 (Ok tt) H1). }
      exists fs'. now rewrite (mbind_step _ _ _ _ fs fs1 tt H1).
  - split.
    + intros [fs' H]. unfold main, mbind in H. rewrite El in H. discriminate.
    + intros ((docs & H) & _). discriminate.
Qed.

Lemma X12_script_succeeds_iff_witness :
  exists fs', main fs_X11 = (Ok tt, fs').
Proof.
  apply (proj2 (X12_script_succeeds_iff fs_X11)).
  split; [eexists; vm_compute; reflexivity|].
  split; (split; [left; reflexivity|]); intros f Hf; simpl in Hf;
    repeat (destruct Hf as [<-|Hf]; [vm_compute; discriminate|]);
    destruct Hf.
Defined.

(** X13.  When the script ends without an exception, [server] and [client]
    are directories and each of the ten files holds, unchanged, the document
    of its position in the list that [generate_docs] returned for its
    context: [enums.md] the first, [constants.md] the second, [classes.md],
    [functions.md] and [hooks.md] the third to fifth; the files of [server]
    are not touched by the writes to [client]. *)
Theorem X13_outputs_hold_the_documents :
  forall fs fs' : filesystem,
    main fs = (Ok tt, fs') ->
    exists s c,
      load_docs fs = (Ok (s, c), fs)
      /\ written "server" s fs' /\ written "client" c fs'.
Proof.
  intros fs fs' H.
  destruct (main_run fs fs' H) as (s & c & fs1 & H0 & H1 & H2).
  exists s, c. split; [exact H0|]. split.
  - apply (written_frame "server" s fs1 fs').
    + exact (server_kept c fs1 fs' (Ok tt) H2).
    + exact (write_docs_done "server" s fs fs1 eq_refl H1).
  - exact (write_docs_done "client" c fs1 fs' eq_refl H2).
Qed.

Lemma X13_outputs_hold_the_documents_witness :
  main fs_X11 = (Ok tt, fs_X11')
  /\ exists s c,
       load_docs fs_X11 = (Ok (s, c), fs_X11)
       /\ written "server" s fs_X11' /\ written "client" c fs_X11'.
Proof.
  assert (Hrun : main fs_X11 = (Ok tt, fs_X11')) by (vm_compute; reflexivity).
  split; [exact Hrun|].
  exact (X13_outputs_hold_the_documents fs_X11 fs_X11' Hrun).
Defined.

(** X14.  Running the script again on the file system it has left changes
    nothing: it ends without an exception and every path holds what it held
    after the first run. *)
Theorem X14_second_run_changes_nothing :
  forall fs fs' : filesystem,
    main fs = (Ok tt, fs') -> main fs' = (Ok tt, fs').
Proof.
  intros fs fs' H.
  destruct (main_run fs fs' H) as (s & c & fs1 & H0 & H1 & H2).
  assert (Ws : written "server" s fs').
  { apply (written_frame "server" s fs1 fs').
    - exact (server_kept c fs1 fs' (Ok tt) H2).
    - exact (write_docs_done "server" s fs fs1 eq_refl H1). }
  assert (Wc : written "client" c fs')
    by exact (write_docs_done "client" c fs1 fs' eq_refl H2).
  assert (Hin : dict_get input_path fs' = dict_get input_path fs).
  { rewrite (touches_write_docs "client" c fs1 (Ok tt) fs' H2 input_path).
    - apply (touches_write_docs "server" s fs (Ok tt) fs1 H1 input_path).
      intros Hp. apply input_not_output. apply in_or_app. now left.
    - intros Hp. apply input_not_output. apply in_or_app. now right. }
  assert (H0' : load_docs fs' = (Ok (s, c), fs')).
  { pose proof (load_docs_reads fs' fs Hin) as Hf.
    pose proof (load_docs_pure fs') as Hs.
    rewrite H0 in Hf. simpl in Hf.
    destruct (load_docs fs') as [r fs2]. simpl in Hf, Hs. now subst. }
  rewrite (main_after_load fs' s c H0').
  rewrite (mbind_step _ _ _ _ fs' fs' tt
             (write_docs_fixed "server" s fs' eq_refl Ws)).
  exact (write_docs_fixed "client" c fs' eq_refl Wc).
Qed.

Lemma X14_second_run_changes_nothing_witness :
  main fs_X11 = (Ok tt, fs_X11') /\ main fs_X11' = (Ok tt, fs_X11').
Proof.
  assert (Hrun : main fs_X11 = (Ok tt, fs_X11')) by (vm_compute; reflexivity).
  split; [exact Hrun|].
  exact (X14_second_run_changes_nothing fs_X11 fs_X11' Hrun).
Defined.

(** ** Cutting the dump *)

Lemma split_once_join (s : string) :
  match split_once nl s with
  | [a] => a = s /\ str_forall not_newline s = true
  | [a; b] => s = a ++ NL ++ b /\ str_forall not_newline a = true
  | _ => False
  end.
Proof.
  induction s as [|c t IH]; cbn [split_once]; [now split|].
  destruct (Ascii.eqb c nl) eqn:E.
  - apply Ascii.eqb_eq in E. subst c. now split.
  - destruct (split_once nl t) as [|a [|b [|x l]]]; try contradiction;
      destruct IH as [H1 H2]; subst; cbn [str_forall]; rewrite H2;
      unfold not_newline at 1; rewrite E; now split.
Qed.

Lemma split_from_nonempty (sep : string) (s : string) :
  forall k, split_from sep k s <> [].
Proof.
  induction s as [|c t IH]; intros k; cbn [split_from]; [discriminate|].
  destruct k as [|k]; [|apply IH].
  destruct (prefix sep (String c t)); [discriminate|].
  now destruct (split_from sep 0 t).
Qed.

Lemma split_from_skip (sep : string) (a r : string) :
  split_from sep (String.length a) (a ++ r) = split_from sep 0 r.
Proof.
  induction a as [|c a IH]; [reflexivity|].
  exact IH.
Qed.

Lemma prefix_append (a s : string) :
  prefix a s = true -> exists r, s = a ++ r.
Proof.
  revert s. induction a as [|c a IH]; intros s H; [now exists s|].
  destruct s as [|d s]; [discriminate|]. cbn [prefix] in H.
  destruct (ascii_dec c d) as [<-|]; [|discriminate].
  destruct (IH s H) as [r ->]. now exists r.
Qed.

Lemma join_cons_char (sep : string) (c : ascii) (l : string)
    (ls : list string) :
  join sep (String c l :: ls) = String c (join sep (l :: ls)).
Proof. reflexivity. Qed.

Lemma join_split_from (c0 : ascii) (sep' : string) (n : nat) :
  forall s, (String.length s <= n)%nat ->
    join (String c0 sep') (split_from (String c0 sep') 0 s) = s.
Proof.
  induction n as [|n IH]; intros s Hn.
  - destruct s; [reflexivity | simpl in Hn; lia].
  - destruct s as [|c t]; [reflexivity|].
    cbn [split_from].
    destruct (prefix (String c0 sep') (String c t)) eqn:Ep.
    + destruct (prefix_append _ _ Ep) as [r Hr].
      change (String c0 sep' ++ r) with (String c0 (sep' ++ r)) in Hr.
      inversion Hr; subst c t.
      change (String.length (String c0 sep') - 1)%nat with (String.length sep' - 0)%nat.
      rewrite Nat.sub_0_r.
      assert (Hlen : (String.length r <= n)%nat).
      { simpl in Hn. rewrite length_append in Hn. lia. }
      rewrite (split_from_skip (String c0 sep') sep' r).
      pose proof (IH r Hlen) as Hj.
      pose proof (split_from_nonempty (String c0 sep') r 0%nat) as Hne.
      destruct (split_from (String c0 sep') 0 r) as [|x l];
        [contradiction|].
      unfold join in *. cbn [join_rest app]. rewrite Hj.
      reflexivity.
    + pose proof (IH t ltac:(simpl in Hn; lia)) as Hj.
      pose proof (split_from_nonempty (String c0 sep') t 0%nat) as Hne.
      destruct (split_from (String c0 sep') 0 t) as [|x l];
        [contradiction|].
      rewrite join_cons_char. now rewrite Hj.
Qed.

Lemma join_split (c0 : ascii) (sep' s : string) :
  join (String c0 sep') (split (String c0 sep') s) = s.
Proof. exact (join_split_from c0 sep' (String.length s) s (le_n _)). Qed.

Lemma universal_newlines_plain (s : string) :
  str_forall no_line_end s = true -> universal_newlines s = s.
Proof.
  induction s as [|c t IH]; [reflexivity|].
  cbn [str_forall]. intros H. apply andb_prop in H as [Hc Ht].
  unfold no_line_end in Hc. apply andb_prop in Hc as [_ Hc].
  apply negb_true_iff in Hc. cbn [universal_newlines]. rewrite Hc.
  now rewrite (IH Ht).
Qed.

(** X15.  When the dump is read and both contexts are rendered, the text
    read (the stored dump with its line endings turned into newlines) is
    the version line, a line break, the server text, the line
    [DOCUMENTATION_CLIENT] between two line breaks, and the client text:
    the version is the text before the first line break, nothing of the
    text is dropped but these two separators, and the documents are those
    of [generate_docs] for the classified server text and client text. *)
Theorem X15_dump_is_cut_in_three :
  forall (fs : filesystem) (docs : list string * list string),
    load_docs fs = (Ok docs, fs) ->
    exists stored version server_text client_text,
      dict_get input_path fs = Some (File stored)
      /\ universal_newlines stored
         = version ++ NL ++ server_text ++ client_marker ++ client_text
      /\ str_forall not_newline version = true
      /\ (info <- gather_info server_text ;;
          generate_docs version info "Server") = Ok (fst docs)
      /\ (info <- gather_info client_text ;;
          generate_docs version info "Client") = Ok (snd docs).
Proof.
  intros fs docs. unfold load_docs, mbind, read_file, lift, ret.
  destruct (dict_get input_path fs) as [[stored|]|]; try discriminate.
  pose proof (split_once_join (universal_newlines stored)) as Hv.
  destruct (split_once nl (universal_newlines stored))
    as [|version [|body [|x l]]]; try discriminate.
  destruct Hv as [Hr Hv]. cbn [unpack2].
  pose proof (join_split nl ("DOCUMENTATION_CLIENT" ++ NL) body) as Hb.
  change (String nl ("DOCUMENTATION_CLIENT" ++ NL)) with client_marker in Hb.
  destruct (split client_marker body) as [|server [|client [|x l]]];
    try discriminate.
  cbn [unpack2].
  destruct (info <- gather_info server ;; generate_docs version info "Server")
    as [sd|] eqn:Es; [|discriminate].
  destruct (info <- gather_info client ;; generate_docs version info "Client")
    as [cd|] eqn:Ec; [|discriminate].
  intros H. inversion H; subst docs. exists stored, version, server, client.
  split; [reflexivity|]. split; [|now repeat split].
  rewrite Hr, <- Hb. unfold join, join_rest. now rewrite append_nil_r.
Qed.

Lemma X15_dump_is_cut_in_three_witness :
  exists docs,
    load_docs fs_X15 = (Ok docs, fs_X15)
    /\ exists stored version server_text client_text,
         dict_get input_path fs_X15 = Some (File stored)
         /\ universal_newlines stored
            = version ++ NL ++ server_text ++ client_marker ++ client_text
         /\ str_forall not_newline version = true
         /\ (info <- gather_info server_text ;;
             generate_docs version info "Server") = Ok (fst docs)
         /\ (info <- gather_info client_text ;;
             generate_docs version info "Client") = Ok (snd docs).
Proof.
  destruct (load_docs fs_X15) as [[docs|e] fs0] eqn:E;
    [|vm_compute in E; discriminate].
  pose proof (load_docs_ok _ _ _ E) as ->.
  exists docs. split; [reflexivity|].
  exact (X15_dump_is_cut_in_three fs_X15 docs E).
Defined.

(** X16.  The script ends with an [OSError] when [mapbase_7.1.txt] is
    missing or is a directory, and with a [ValueError] when the dump has no
    line ending (no newline and no carriage return), or when the text read
    after the first line is not cut in exactly two by the line
    [DOCUMENTATION_CLIENT] (the marker is missing or occurs twice); in each
    case nothing is created or written. *)
Theorem X16_unreadable_or_uncut_dump :
  forall fs : filesystem,
    ((forall stored, dict_get input_path fs <> Some (File stored)) ->
     main fs = (Err OSError, fs))
    /\ (forall stored,
           dict_get input_path fs = Some (File stored) ->
           str_forall no_line_end stored = true ->
           main fs = (Err ValueError, fs))
    /\ (forall stored version body,
           dict_get input_path fs = Some (File stored) ->
           split_once nl (universal_newlines stored) = [version; body] ->
           length (split client_marker body) <> 2%nat ->
           main fs = (Err ValueError, fs)).
Proof.
  intros fs. repeat split.
  - intros H. apply main_load_failure.
    unfold load_docs, mbind, read_file.
    destruct (dict_get input_path fs) as [[stored|]|]; try reflexivity.
    now destruct (H stored).
  - intros stored Hd Hn. apply main_load_failure.
    unfold load_docs, mbind, read_file, lift. rewrite Hd.
    rewrite (universal_newlines_plain stored Hn).
    pose proof (split_once_join stored) as Hv.
    destruct (split_once nl stored) as [|a [|b [|x l]]]; try contradiction.
    + reflexivity.
    + exfalso. destruct Hv as [-> Hv].
      rewrite str_forall_app in Hn. apply andb_prop in Hn as [_ Hn].
      discriminate.
  - intros stored version body Hd Hv Hl. apply main_load_failure.
    unfold load_docs, mbind, read_file, lift. rewrite Hd, Hv. cbn [unpack2].
    destruct (split client_marker body) as [|a [|b [|x l]]]; try reflexivity.
    now destruct Hl.
Qed.

Lemma X16_unreadable_or_uncut_dump_witness :
  main [] = (Err OSError, [])
  /\ main [(input_path, File dump_X15)]
     = (Err ValueError, [(input_path, File dump_X15)])
  /\ main [(input_path, File dump_X16)]
     = (Err ValueError, [(input_path, File dump_X16)]).
Proof.
  split; [|split].
  - apply (proj1 (X16_unreadable_or_uncut_dump [])).
    intros stored. discriminate.
  - apply (proj1 (proj2 (X16_unreadable_or_uncut_dump
                           [(input_path, File dump_X15)])) dump_X15);
      reflexivity.
  - apply (proj2 (proj2 (X16_unreadable_or_uncut_dump
                           [(input_path, File dump_X16)]))
             dump_X16 "7.1" _ eq_refl eq_refl).
    vm_compute. discriminate.
Defined.

(** ** Every record has a Description *)

Lemma parsed_Description (block : string) (inst : Instance) :
  Instance_init block = Ok inst ->
  exists d, get_str inst "Description" = Ok d.
Proof.
  intros Hinit. destruct (splitlines block) as [|l0 rest] eqn:El.
  - rewrite (Instance_init_empty block El) in Hinit. inversion Hinit; subst.
    now exists "".
  - destruct (Instance_init_attr block l0 rest inst El Hinit)
      as (k & v & Hk & Ha).
    destruct (parsed_Name block l0 rest inst k v El Hk Hinit) as [_ Hd].
    eexists. exact Hd.
Qed.

Lemma append_child_described (info info' : Info) (cat key field : string)
    (inst : Instance) :
  described info ->
  (exists d, get_str inst "Description" = Ok d) ->
  append_child info cat key field inst = Ok info' ->
  described info'.
Proof.
  intros Hd Hi H.
  apply append_child_inv in H as (d & parent & l & Hc & Hp & Hl & ->).
  apply category_get in Hc. subst d.
  destruct (Hd cat key parent Hp) as [[dp Hdp] Hch].
  assert (Hne : "Description" <> field).
  { intros <-. unfold get_str in Hdp. rewrite Hl in Hdp. discriminate. }
  intros c n i. rewrite category_set.
  destruct (String.eqb_spec c cat) as [->|]; [|apply Hd].
  rewrite dict_get_set.
  destruct (String.eqb_spec n key) as [->|]; [|apply Hd].
  intros E. inversion E; subst i. split.
  - exists dp. now rewrite get_str_assign_other.
  - intros field2 vs v. rewrite getattr_assign.
    destruct (String.eqb_spec field2 field) as [->|].
    + intros Hvs Hin. inversion Hvs; subst vs.
      apply in_app_or in Hin as [Hin|[<-|[]]]; [|exact Hi].
      exact (Hch field l v Hl Hin).
    + apply Hch.
Qed.

Lemma file_record_described (info info' : Info) (inst : Instance) :
  described info ->
  (exists d, get_str inst "Description" = Ok d) ->
  fresh inst ->
  file_record info inst = Ok info' ->
  described info'.
Proof.
  intros Hd Hi Hfresh H.
  apply file_record_inv in H as (t & n & d & Ht & Hn & Hc & ->).
  apply category_get in Hc. subst d.
  intros c n' i. rewrite category_set.
  destruct (String.eqb_spec c t) as [->|]; [|apply Hd].
  rewrite dict_get_set.
  destruct (String.eqb_spec n' n) as [->|]; [|apply Hd].
  intros E. inversion E; subst i. split; [exact Hi|].
  intros field vs v Hvs Hin. apply Hfresh in Hvs. subst vs. destruct Hin.
Qed.

Lemma classify_described (info info' : Info) (inst : Instance) :
  described info ->
  (exists d, get_str inst "Description" = Ok d) ->
  fresh inst ->
  classify info inst = Ok info' ->
  described info'.
Proof.
  intros Hd Hi Hfresh H.
  apply classify_inv in H as (info1 & H1 & H2).
  assert (Hd1 : described info1).
  { apply attach_constant_cases in H1 as [[_ ->] | (e & _ & H1)];
      [exact Hd|].
    exact (append_child_described _ _ _ _ _ _ Hd Hi H1). }
  apply attach_or_file_cases in H2 as [(key & field & H2)|H2].
  - exact (append_child_described _ _ _ _ _ _ Hd1 Hi H2).
  - exact (file_record_described _ _ _ Hd1 Hi Hfresh H2).
Qed.

Lemma gather_loop_described (blocks : list string) :
  forall info info',
    described info -> gather_loop info blocks = Ok info' -> described info'.
Proof.
  induction blocks as [|b blocks IH]; intros info info' Hd H; simpl in H.
  - now inversion H; subst.
  - destruct (gather_step info b) as [info1|] eqn:E; [|discriminate].
    simpl in H. apply gather_step_inv in E as (inst & Hi & Hc).
    apply (IH info1 info'); [|exact H].
    apply (classify_described info info1 inst Hd).
    + exact (parsed_Description _ _ Hi).
    + intros a l Ha. now apply (parsed_lists_empty _ _ _ _ Hi Ha).
    + exact Hc.
Qed.

Lemma gather_info_described (raw : string) (info : Info) :
  gather_info raw = Ok info -> described info.
Proof.
  apply gather_loop_described.
  intros c n i. unfold category. simpl.
  repeat (destruct (c =? _); [discriminate|]). discriminate.
Qed.

Lemma dict_values_get (V : Type) (d : dict V) (v : V) :
  NoDup (dict_keys d) -> In v (dict_values d) ->
  exists k, dict_get k d = Some v.
Proof.
  unfold dict_keys, dict_values.
  induction d as [|[k' v'] d IH]; simpl; intros Hn Hin; [destruct Hin|].
  inversion Hn as [|x l Hx Hn']; subst. destruct Hin as [->|Hin].
  - exists k'. now rewrite String.eqb_refl.
  - destruct (IH Hn' Hin) as [k Hk]. exists k.
    destruct (String.eqb_spec k k') as [->|]; [|exact Hk].
    exfalso. apply Hx. apply (dict_mem_keys _ d k'). unfold dict_mem.
    now rewrite Hk.
Qed.

(** ** When the renderer succeeds *)

Lemma is_ok_bind (A B : Type) (r : result A) (k : A -> result B) :
  is_ok (bind r k) = match r with Ok a => is_ok (k a) | Err _ => false end.
Proof. now destruct r. Qed.

Lemma forallb_eq_in (A : Type) (f g : A -> bool) (l : list A) :
  (forall x, In x l -> f x = g x) -> forallb f l = forallb g l.
Proof.
  induction l as [|a l IH]; intros H; [reflexivity|]. simpl.
  rewrite (H a (or_introl eq_refl)). rewrite IH; [reflexivity|].
  intros x Hx. apply H. now right.
Qed.

Lemma table_row_ok (x : Instance) :
  named x -> is_ok (table_row x) = has_str "Value" x.
Proof.
  intros (n & d & Hn & Hd). unfold table_row, has_str. rewrite Hn. simpl.
  destruct (get_str x "Value"); simpl; [now rewrite Hd | reflexivity].
Qed.

Lemma table_rows_ok (l : list Instance) :
  (forall x, In x l -> named x) ->
  is_ok (table_rows l) = forallb (has_str "Value") l.
Proof.
  induction l as [|a l IH]; intros H; [reflexivity|].
  cbn [table_rows forallb]. rewrite is_ok_bind.
  rewrite <- (table_row_ok a (H a (or_introl eq_refl))).
  rewrite <- IH by (intros x Hx; apply H; now right).
  destruct (table_row a); [|reflexivity]. simpl.
  now destruct (table_rows l).
Qed.

Lemma generate_table_ok (l : list Instance) :
  (forall x, In x l -> named x) ->
  is_ok (generate_table l) = forallb (has_str "Value") l.
Proof.
  intros H. unfold generate_table. rewrite <- (table_rows_ok l H).
  now destruct (table_rows l).
Qed.

Lemma describe_signed_ok (x : Instance) (indents : nat) :
  named x -> is_ok (describe_signed x indents) = has_str "Signature" x.
Proof.
  intros (n & d & Hn & Hd). unfold describe_signed, has_str.
  rewrite Hn, Hd. simpl. now destruct (get_str x "Signature").
Qed.

Lemma join_signed_ok (sep : string) (indents : nat) (l : list Instance) :
  (forall x, In x l -> named x) ->
  is_ok (join_signed sep indents l) = forallb (has_str "Signature") l.
Proof.
  induction l as [|x l IH]; intros H; [reflexivity|].
  pose proof (describe_signed_ok x indents (H x (or_introl eq_refl))) as Hx.
  destruct l as [|y l].
  - simpl. now rewrite andb_true_r.
  - change (join_signed sep indents (x :: y :: l))
      with (d <- describe_signed x indents ;;
            ds <- join_signed sep indents (y :: l) ;;
            Ok (d ++ sep ++ ds)).
    change (forallb (has_str "Signature") (x :: y :: l))
      with (has_str "Signature" x && forallb (has_str "Signature") (y :: l)).
    rewrite <- Hx. rewrite <- IH by (intros z Hz; apply H; now right).
    generalize (join_signed sep indents (y :: l)). intros J.
    destruct (describe_signed x indents); [|reflexivity].
    now destruct J.
Qed.

Lemma signed_page_ok (l : list Instance) (type : string) :
  (forall x, In x l -> named x) ->
  is_ok (signed_page l type) = forallb (has_str "Signature") l.
Proof.
  intros H. unfold signed_page. rewrite <- (join_signed_ok NL 4 l H).
  now destruct (join_signed NL 4 l).
Qed.

Lemma class_part_ok (c : Instance) (field : string) :
  (forall vs v, getattr c field = Some (AList vs) -> In v vs -> named v) ->
  is_ok (class_part c field) = children_ok field (has_str "Signature") c.
Proof.
  intros H. unfold class_part, children_ok, get_attr.
  destruct (getattr c field) as [[s|vs]|] eqn:E; [| |reflexivity].
  - now destruct s.
  - cbn [of_option bind]. destruct vs as [|v vs]; [reflexivity|].
    cbn [truthy elements bind]. apply signed_page_ok.
    intros x Hx. exact (H (v :: vs) x eq_refl Hx).
Qed.

Lemma entry_section_enum_ok (e : Instance) :
  named e ->
  (forall vs v, getattr e "Values" = Some (AList vs) -> In v vs -> named v) ->
  is_ok (entry_section "Enum" e) = children_ok "Values" (has_str "Value") e.
Proof.
  intros (n & d & Hn & Hd) H. unfold entry_section, children_ok, get_attr.
  cbn [String.eqb Ascii.eqb Bool.eqb]. rewrite Hn, Hd. cbn [bind].
  destruct (getattr e "Values") as [[s|vs]|] eqn:E; [| |reflexivity].
  - now destruct s.
  - cbn [of_option elements bind].
    rewrite <- (generate_table_ok vs (fun x Hx => H vs x eq_refl Hx)).
    now destruct (generate_table vs).
Qed.

Lemma entry_section_class_ok (c : Instance) :
  named c ->
  (forall field vs v,
      In field ["Members"; "Functions"; "Hooks"] ->
      getattr c field = Some (AList vs) -> In v vs -> named v) ->
  is_ok (entry_section "Class" c) = class_ok c.
Proof.
  intros (n & d & Hn & Hd) H. unfold entry_section, class_ok.
  cbn [String.eqb Ascii.eqb Bool.eqb]. rewrite Hn, Hd. cbn [bind].
  rewrite <- (class_part_ok c "Members"
               (fun vs v => H "Members" vs v ltac:(simpl; auto))).
  rewrite <- (class_part_ok c "Functions"
               (fun vs v => H "Functions" vs v ltac:(simpl; auto))).
  rewrite <- (class_part_ok c "Hooks"
               (fun vs v => H "Hooks" vs v ltac:(simpl; auto))).
  destruct (class_part c "Members"); [|reflexivity].
  destruct (class_part c "Functions"); [|reflexivity].
  now destruct (class_part c "Hooks").
Qed.

Lemma entry_sections_ok (type : string) (l : list Instance) :
  is_ok (entry_sections type l)
  = forallb (fun x => is_ok (entry_section type x)) l.
Proof.
  induction l as [|x l IH]; [reflexivity|].
  cbn [entry_sections forallb]. rewrite <- IH.
  destruct (entry_section type x); [|reflexivity]. simpl.
  now destruct (entry_sections type l).
Qed.

Lemma generate_doc_ok (version category_label type : string)
    (d : dict Instance) :
  In type categories ->
  is_ok (generate_doc version category_label type d)
  = is_ok (entry_sections type (dict_values d)) && is_ok (category_tail type d).
Proof.
  intros Hin. unfold generate_doc.
  assert (Hp : exists p, dict_item type pretty_names = Ok p).
  { unfold categories in Hin. simpl in Hin.
    destruct Hin as [<-|[<-|[<-|[<-|[<-|[]]]]]]; eexists; reflexivity. }
  destruct Hp as [p ->]. cbn [bind].
  destruct (entry_sections type (dict_values d)); [|reflexivity].
  now destruct (category_tail type d).
Qed.

Section Rendered.
Variable info : Info.
Hypothesis Hwf : wf info.
Hypothesis Hfiled : filed_under_own_name info.
Hypothesis Hbelong : children_belong info.
Hypothesis Hdescribed : described info.

Lemma filed_named (c : string) (i : Instance) :
  In i (dict_values (category info c)) -> named i.
Proof.
  intros Hin.
  destruct (dict_values_get _ _ i (proj2 Hwf c) Hin) as [n Hn].
  destruct (Hfiled c n i Hn) as [_ HN].
  destruct (Hdescribed c n i Hn) as [[d HD] _].
  now exists n, d.
Qed.

Lemma child_named (cat field ty sep : string) (e : Instance)
    (vs : list Instance) (v : Instance) :
  In (cat, field, ty, sep) child_rules ->
  In e (dict_values (category info cat)) ->
  getattr e field = Some (AList vs) -> In v vs -> named v.
Proof.
  intros Hrule Hin Hvs Hv.
  destruct (dict_values_get _ _ e (proj2 Hwf cat) Hin) as [n Hn].
  destruct (Hbelong cat field ty sep n e vs v Hrule Hn Hvs Hv)
    as (_ & nm & HN & _).
  destruct (Hdescribed cat n e Hn) as [_ Hch].
  destruct (Hch field vs v Hvs Hv) as [d HD].
  now exists nm, d.
Qed.

Lemma enum_doc_ok (version category_label : string) :
  is_ok (generate_doc version category_label "Enum" (category info "Enum"))
  = forallb (children_ok "Values" (has_str "Value"))
      (dict_values (category info "Enum")).
Proof.
  rewrite generate_doc_ok by (unfold categories; simpl; auto).
  rewrite entry_sections_ok.
  change (category_tail "Enum" (category info "Enum")) with (@Ok string "").
  rewrite andb_true_r. apply forallb_eq_in. intros e He.
  apply entry_section_enum_ok; [exact (filed_named "Enum" e He)|].
  intros vs v.
  apply (child_named "Enum" "Values" "Constant" "." e vs v);
    [unfold child_rules; simpl; auto | exact He].
Qed.

Lemma class_doc_ok (version category_label : string) :
  is_ok (generate_doc version category_label "Class" (category info "Class"))
  = forallb class_ok (dict_values (category info "Class")).
Proof.
  rewrite generate_doc_ok by (unfold categories; simpl; auto).
  rewrite entry_sections_ok.
  change (category_tail "Class" (category info "Class")) with (@Ok string "").
  rewrite andb_true_r. apply forallb_eq_in. intros c Hc.
  apply entry_section_class_ok; [exact (filed_named "Class" c Hc)|].
  intros field vs v [<-|[<-|[<-|[]]]].
  - apply (child_named "Class" "Members" "Member" "." c vs v);
      [unfold child_rules; simpl; auto 10 | exact Hc].
  - apply (child_named "Class" "Functions" "Function" "::" c vs v);
      [unfold child_rules; simpl; auto 10 | exact Hc].
  - apply (child_named "Class" "Hooks" "Hook" " -> " c vs v);
      [unfold child_rules; simpl; auto 10 | exact Hc].
Qed.

Lemma constant_doc_ok (version category_label : string) :
  is_ok (generate_doc version category_label "Constant"
           (category info "Constant"))
  = forallb (has_str "Value") (dict_values (category info "Constant")).
Proof.
  rewrite generate_doc_ok by (unfold categories; simpl; auto).
  rewrite entry_sections_other by reflexivity.
  change (category_tail "Constant" (category info "Constant"))
    with (generate_table (dict_values (category info "Constant"))).
  apply generate_table_ok. apply filed_named.
Qed.

Lemma signed_doc_ok (version category_label type : string) :
  type = "Function" \/ type = "Hook" ->
  is_ok (generate_doc version category_label type (category info type))
  = forallb (has_str "Signature") (dict_values (category info type)).
Proof.
  intros Ht.
  rewrite generate_doc_ok
    by (unfold categories; simpl; destruct Ht as [->| ->]; auto 10).
  rewrite entry_sections_other by (destruct Ht as [->| ->]; reflexivity).
  assert (Htail : category_tail type (category info type)
                  = (body <- join_signed NL 2
                               (dict_values (category info type)) ;;
                     Ok (body ++ NL)))
    by (destruct Ht as [->| ->]; reflexivity).
  rewrite Htail.
  rewrite <- (join_signed_ok NL 2 (dict_values (category info type))
                (filed_named type)).
  now destruct (join_signed NL 2 (dict_values (category info type))).
Qed.

Lemma generate_docs_ok (version category_label : string) :
  is_ok (generate_docs version info category_label) = renderable info.
Proof.
  rewrite (generate_docs_chain version category_label info Hwf).
  unfold renderable.
  rewrite <- (enum_doc_ok version category_label).
  rewrite <- (constant_doc_ok version category_label).
  rewrite <- (class_doc_ok version category_label).
  rewrite <- (signed_doc_ok version category_label "Function")
    by now left.
  rewrite <- (signed_doc_ok version category_label "Hook")
    by now right.
  destruct (generate_doc version category_label "Enum" (category info "Enum"));
    [|reflexivity].
  destruct (generate_doc version category_label "Constant"
              (category info "Constant")); [|reflexivity].
  destruct (generate_doc version category_label "Class"
              (category info "Class")); [|reflexivity].
  destruct (generate_doc version category_label "Function"
              (category info "Function")); [|reflexivity].
  now destruct (generate_doc version category_label "Hook"
                  (category info "Hook")).
Qed.
End Rendered.

(** X17.  For the result of [gather_info], [generate_docs] returns its five
    documents exactly when every Constant, filed or among the Values of an
    Enum, has a Value, every Function and Hook, filed or in a list of a
    Class, and every Member has a Signature, and the Values of every Enum
    and the Members, Functions and Hooks of every Class are still lists (or
    the empty string); otherwise it ends with an exception.  Name and
    Description never stop it: every record has both. *)
Theorem X17_rendering_succeeds_iff_renderable :
  forall (raw version category_label : string) (info : Info),
    gather_info raw = Ok info ->
    is_ok (generate_docs version info category_label) = renderable info.
Proof.
  intros raw version category_label info H.
  destruct (gather_info_keeps raw info H) as [Hf Hb].
  exact (generate_docs_ok info (gather_loop_wf _ _ _ H wf_init) Hf Hb
           (gather_info_described raw info H) version category_label).
Qed.

Lemma X17_rendering_succeeds_iff_renderable_witness :
  (gather_info raw_X6 = Ok info_X6
   /\ is_ok (generate_docs "7.1" info_X6 "Server") = true)
  /\ exists info,
       gather_info raw_X17 = Ok info
       /\ is_ok (generate_docs "7.1" info "Server") = false.
Proof.
  split.
  - split; [reflexivity|].
    exact (eq_trans
             (X17_rendering_succeeds_iff_renderable raw_X6 "7.1" "Server"
                info_X6 eq_refl) eq_refl).
  - destruct (gather_info raw_X17) as [info|e] eqn:E;
      [|vm_compute in E; discriminate].
    exists info. split; [reflexivity|].
    rewrite (X17_rendering_succeeds_iff_renderable raw_X17 "7.1" "Server"
               info E).
    vm_compute in E. inversion E. reflexivity.
Defined.

(** ** The character a document loses *)

Lemma drop_last_nl (s : string) : drop_last (s ++ NL) = s.
Proof.
  induction s as [|c s IH]; [reflexivity|].
  change (String c s ++ NL) with (String c (s ++ NL)).
  destruct s as [|c' s]; [reflexivity|].
  change (String c' s ++ NL) with (String c' (s ++ NL)) in *.
  change (drop_last (String c (String c' (s ++ NL))))
    with (String c (drop_last (String c' (s ++ NL)))).
  now rewrite IH.
Qed.

Lemma ends_nl_app (a b : string) : ends_nl b -> ends_nl (a ++ b).
Proof. intros [b' ->]. exists (a ++ b'). now rewrite append_assoc_r. Qed.

Lemma nl_or_empty_app (a b : string) :
  nl_or_empty a -> nl_or_empty b -> nl_or_empty (a ++ b).
Proof.
  intros [->|Ha] [->|Hb].
  - now left.
  - now right.
  - right. now rewrite append_nil_r.
  - right. now apply ends_nl_app.
Qed.

Lemma nl_then (r : string) : nl_or_empty r -> ends_nl (NL ++ r).
Proof.
  intros [->|H]; [now exists "" | now apply ends_nl_app].
Qed.

Lemma Ok_inj (A : Type) (a b : A) : @Ok A a = Ok b -> a = b.
Proof. intros H. now inversion H. Qed.

Lemma generate_table_ends (l : list Instance) (t : string) :
  generate_table l = Ok t -> nl_or_empty t.
Proof.
  unfold generate_table. destruct (table_rows l) as [rows|]; [|discriminate].
  cbn [bind]. intros H. apply Ok_inj in H. subst t. right. apply ends_nl_app, ends_nl_app. now exists "".
Qed.

Lemma signed_page_ends (l : list Instance) (type s : string) :
  signed_page l type = Ok s -> nl_or_empty s.
Proof.
  unfold signed_page. destruct (join_signed NL 4 l) as [body|]; [|discriminate].
  cbn [bind]. intros H. apply Ok_inj in H. subst s. right. do 4 apply ends_nl_app. now exists body.
Qed.

Lemma class_part_ends (c : Instance) (field s : string) :
  class_part c field = Ok s -> nl_or_empty s.
Proof.
  unfold class_part. destruct (get_attr c field) as [v|]; [|discriminate].
  cbn [bind]. destruct (truthy v).
  - destruct (elements v) as [l|]; [|discriminate]. apply signed_page_ends.
  - intros H. apply Ok_inj in H. subst s. now left.
Qed.

Lemma entry_section_ends (type : string) (x : Instance) (s : string) :
  entry_section type x = Ok s -> nl_or_empty s.
Proof.
  unfold entry_section. destruct (type =? "Enum").
  - destruct (get_str x "Name") as [name|]; [|discriminate].
    destruct (get_str x "Description") as [desc|]; [|discriminate].
    destruct (get_attr x "Values") as [values|]; [|discriminate].
    cbn [bind]. destruct (elements values) as [l|]; [|discriminate].
    cbn [bind]. destruct (generate_table l) as [table|] eqn:Et;
      [|discriminate].
    cbn [bind]. intros H. apply Ok_inj in H. subst s.
    right. do 2 apply ends_nl_app. apply nl_then.
    right. apply nl_then. apply nl_or_empty_app.
    + destruct (nonempty desc); [right; now exists desc | now left].
    + exact (generate_table_ends l table Et).
  - destruct (type =? "Class");
      [|intros H; apply Ok_inj in H; subst s; now left].
    destruct (get_str x "Name") as [name|]; [|discriminate].
    destruct (get_str x "Description") as [desc|]; [|discriminate].
    cbn [bind].
    destruct (class_part x "Members") as [m|] eqn:Em; [|discriminate].
    destruct (class_part x "Functions") as [f|] eqn:Ef; [|discriminate].
    destruct (class_part x "Hooks") as [h|] eqn:Eh; [|discriminate].
    cbn [bind]. intros H. apply Ok_inj in H. subst s.
    right. do 2 apply ends_nl_app. apply nl_then.
    right. apply nl_then. apply nl_or_empty_app.
    + destruct (nonempty desc); [right|now left].
      apply ends_nl_app. now exists NL.
    + apply nl_or_empty_app; [exact (class_part_ends _ _ _ Em)|].
      apply nl_or_empty_app; [exact (class_part_ends _ _ _ Ef)|].
      exact (class_part_ends _ _ _ Eh).
Qed.

Lemma entry_sections_ends (type : string) (l : list Instance) :
  forall s, entry_sections type l = Ok s -> nl_or_empty s.
Proof.
  induction l as [|x l IH]; intros s; cbn [entry_sections].
  - intros H. apply Ok_inj in H. subst s. now left.
  - destruct (entry_section type x) as [a|] eqn:Ea; [|discriminate].
    cbn [bind]. destruct (entry_sections type l) as [b|]; [|discriminate].
    cbn [bind]. intros H. apply Ok_inj in H. subst s. apply nl_or_empty_app.
    + exact (entry_section_ends type x a Ea).
    + now apply IH.
Qed.

Lemma category_tail_ends (type : string) (d : dict Instance) (s : string) :
  category_tail type d = Ok s -> nl_or_empty s.
Proof.
  unfold category_tail. destruct (type =? "Constant").
  - apply generate_table_ends.
  - destruct ((type =? "Function") || (type =? "Hook"));
      [|intros H; apply Ok_inj in H; subst s; now left].
    destruct (join_signed NL 2 (dict_values d)) as [body|]; [|discriminate].
    cbn [bind]. intros H. apply Ok_inj in H. subst s. right. now exists body.
Qed.

(** X18.  The last character that [generate_docs] cuts from every document
    is a line break: the document followed by a line break is the header
    (context, category title, version, the line [Generated by Macosaro])
    followed by the sections of the entries and the table or list of the
    category, so no character of the content is lost. *)
Theorem X18_document_loses_only_a_line_break :
  forall (version category_label type : string) (d : dict Instance)
         (doc : string),
    generate_doc version category_label type d = Ok doc ->
    exists pretty sections tail,
      dict_item type pretty_names = Ok pretty
      /\ entry_sections type (dict_values d) = Ok sections
      /\ category_tail type d = Ok tail
      /\ doc ++ NL
         = page_header version category_label pretty ++ sections ++ tail.
Proof.
  intros version category_label type d doc. unfold generate_doc.
  destruct (dict_item type pretty_names) as [pretty|]; [|discriminate].
  cbn [bind].
  destruct (entry_sections type (dict_values d)) as [sections|] eqn:Es;
    [|discriminate].
  cbn [bind].
  destruct (category_tail type d) as [tail|] eqn:Et; [|discriminate].
  cbn [bind]. intros H. apply Ok_inj in H. subst doc.
  exists pretty, sections, tail. repeat split.
  assert (Hfull : "# VScript " ++ category_label ++ " " ++ pretty
                  ++ ", version " ++ version ++ NL ++ NL
                  ++ "Generated by Macosaro" ++ NL ++ NL ++ sections ++ tail
                  = page_header version category_label pretty
                    ++ sections ++ tail).
  { unfold page_header. now rewrite !append_assoc_r. }
  rewrite Hfull.
  assert (Hend : ends_nl (page_header version category_label pretty
                          ++ sections ++ tail)).
  { rewrite <- Hfull. do 10 apply ends_nl_app. apply nl_then.
    apply nl_or_empty_app.
    - exact (entry_sections_ends _ _ _ Es).
    - exact (category_tail_ends _ _ _ Et). }
  destruct Hend as [w Hw]. rewrite Hw. now rewrite drop_last_nl.
Qed.

Lemma X18_document_loses_only_a_line_break_witness :
  exists doc pretty sections tail,
    generate_doc "7.1" "Server" "Hook" (category info_X6 "Hook") = Ok doc
    /\ dict_item "Hook" pretty_names = Ok pretty
    /\ entry_sections "Hook" (dict_values (category info_X6 "Hook"))
       = Ok sections
    /\ category_tail "Hook" (category info_X6 "Hook") = Ok tail
    /\ doc ++ NL = page_header "7.1" "Server" pretty ++ sections ++ tail.
Proof.
  destruct (generate_doc "7.1" "Server" "Hook" (category info_X6 "Hook"))
    as [doc|e] eqn:E; [|vm_compute in E; discriminate].
  destruct (X18_document_loses_only_a_line_break "7.1" "Server" "Hook"
              (category info_X6 "Hook") doc E)
    as (pretty & sections & tail & H).
  exists doc, pretty, sections, tail. split; [reflexivity | exact H].
Defined.

(** * Nested and replaced records, and what is rendered of them *)


(** ** A row in a rendered document *)

Lemma inside_app_l (piece x text : string) :
  inside piece text -> inside piece (x ++ text).
Proof.
  intros (a & b & -> & Hb). exists (x ++ a), b.
  split; [now rewrite append_assoc_r | exact Hb].
Qed.

Lemma inside_app_r (piece text y : string) :
  inside piece text -> inside piece (text ++ y).
Proof.
  intros (a & b & -> & Hb). exists a, (b ++ y). split.
  - now rewrite !append_assoc_r.
  - destruct b; [now destruct Hb | discriminate].
Qed.

Lemma drop_last_app (a b : string) :
  b <> "" -> drop_last (a ++ b) = a ++ drop_last b.
Proof.
  intros Hb. induction a as [|c a IH]; [reflexivity|].
  change (String c a ++ b) with (String c (a ++ b)).
  change (String c a ++ drop_last b) with (String c (a ++ drop_last b)).
  rewrite <- IH. destruct (a ++ b) as [|x y] eqn:E; [|reflexivity].
  destruct a; [simpl in E; now destruct Hb | discriminate].
Qed.

Lemma inside_drop_last (piece text : string) :
  inside piece text -> contains piece (drop_last text).
Proof.
  intros (a & b & -> & Hb). exists a, (drop_last b).
  rewrite drop_last_app by (destruct piece; [exact Hb | discriminate]).
  now rewrite drop_last_app.
Qed.

Lemma table_rows_in (l : list Instance) :
  forall (rows : string) (x : Instance),
    In x l -> table_rows l = Ok rows ->
    exists row a b, table_row x = Ok row /\ rows = a ++ row ++ b.
Proof.
  induction l as [|y l IH]; intros rows x Hin; [destruct Hin|].
  cbn [table_rows].
  destruct (table_row y) as [r0|] eqn:Ey; [|discriminate]. cbn [bind].
  destruct (table_rows l) as [rs|] eqn:El; [|discriminate]. cbn [bind].
  intros H. apply Ok_inj in H. subst rows. destruct Hin as [->|Hin].
  - now exists r0, "", rs.
  - destruct (IH rs x Hin eq_refl) as (row & a & b & Hr & ->).
    exists row, (r0 ++ a), b. split; [exact Hr|].
    now rewrite append_assoc_r.
Qed.

Lemma generate_table_in (l : list Instance) (table : string) (x : Instance) :
  In x l -> generate_table l = Ok table ->
  exists row, table_row x = Ok row /\ inside row table.
Proof.
  intros Hin. unfold generate_table.
  destruct (table_rows l) as [rows|] eqn:El; [|discriminate]. cbn [bind].
  intros H. apply Ok_inj in H. subst table.
  destruct (table_rows_in l rows x Hin El) as (row & a & b & Hr & ->).
  exists row. split; [exact Hr|].
  apply inside_app_l. exists a, (b ++ NL).
  split; [now rewrite !append_assoc_r | destruct b; discriminate].
Qed.

Lemma entry_sections_in (type : string) (l : list Instance) :
  forall (s : string) (x : Instance),
    In x l -> entry_sections type l = Ok s ->
    exists sx a b, entry_section type x = Ok sx /\ s = a ++ sx ++ b.
Proof.
  induction l as [|y l IH]; intros s x Hin; [destruct Hin|].
  cbn [entry_sections].
  destruct (entry_section type y) as [s0|] eqn:Ey; [|discriminate].
  cbn [bind].
  destruct (entry_sections type l) as [ss|] eqn:El; [|discriminate].
  cbn [bind]. intros H. apply Ok_inj in H. subst s.
  destruct Hin as [->|Hin].
  - now exists s0, "", ss.
  - destruct (IH ss x Hin eq_refl) as (sx & a & b & Hx & ->).
    exists sx, (s0 ++ a), b. split; [exact Hx|].
    now rewrite append_assoc_r.
Qed.

Lemma enum_section_in (e : Instance) (vs : list Instance) (x : Instance)
    (section : string) :
  getattr e "Values" = Some (AList vs) -> In x vs ->
  entry_section "Enum" e = Ok section ->
  exists row, table_row x = Ok row /\ inside row section.
Proof.
  intros Hv Hin. unfold entry_section, get_attr.
  cbn [String.eqb Ascii.eqb Bool.eqb].
  destruct (get_str e "Name") as [name|]; [|discriminate].
  destruct (get_str e "Description") as [desc|]; [|discriminate].
  rewrite Hv. cbn [of_option bind elements].
  destruct (generate_table vs) as [table|] eqn:Et; [|discriminate].
  cbn [bind]. intros H. apply Ok_inj in H. subst section.
  destruct (generate_table_in vs table x Hin Et) as (row & Hr & Hi).
  exists row. split; [exact Hr|]. now do 5 apply inside_app_l.
Qed.

Lemma enum_doc_row (version category_label E : string) (d : dict Instance)
    (e : Instance) (vs : list Instance) (x : Instance) (doc : string) :
  dict_get E d = Some e ->
  getattr e "Values" = Some (AList vs) -> In x vs ->
  generate_doc version category_label "Enum" d = Ok doc ->
  exists row, table_row x = Ok row /\ contains row doc.
Proof.
  intros He Hv Hin. unfold generate_doc.
  destruct (dict_item "Enum" pretty_names) as [pretty|]; [|discriminate].
  cbn [bind].
  destruct (entry_sections "Enum" (dict_values d)) as [sections|] eqn:Es;
    [|discriminate].
  cbn [bind]. change (category_tail "Enum" d) with (@Ok string "").
  cbn [bind]. intros H. apply Ok_inj in H. subst doc.
  destruct (entry_sections_in "Enum" (dict_values d) sections e
              (dict_get_values _ d E e He) Es) as (sx & a & b & Hx & ->).
  destruct (enum_section_in e vs x sx Hv Hin Hx) as (row & Hr & Hi).
  exists row. split; [exact Hr|]. apply inside_drop_last.
  do 11 apply inside_app_l. apply inside_app_r.
  now apply inside_app_l, inside_app_r.
Qed.

Lemma constant_doc_row (version category_label n : string)
    (d : dict Instance) (x : Instance) (doc : string) :
  dict_get n d = Some x ->
  generate_doc version category_label "Constant" d = Ok doc ->
  exists row, table_row x = Ok row /\ contains row doc.
Proof.
  intros Hx. unfold generate_doc.
  destruct (dict_item "Constant" pretty_names) as [pretty|]; [|discriminate].
  cbn [bind]. rewrite entry_sections_other by reflexivity. cbn [bind].
  change (category_tail "Constant" d) with (generate_table (dict_values d)).
  destruct (generate_table (dict_values d)) as [table|] eqn:Et;
    [|discriminate].
  cbn [bind]. intros H. apply Ok_inj in H. subst doc.
  destruct (generate_table_in (dict_values d) table x
              (dict_get_values _ d n x Hx) Et) as (row & Hr & Hi).
  exists row. split; [exact Hr|]. apply inside_drop_last.
  now do 12 apply inside_app_l.
Qed.

Lemma rows_in_both_documents (version category_label E n : string)
    (info : Info) (e x : Instance) (vs : list Instance) (docs : list string) :
  wf info ->
  dict_get E (category info "Enum") = Some e ->
  getattr e "Values" = Some (AList vs) -> In x vs ->
  dict_get n (category info "Constant") = Some x ->
  generate_docs version info category_label = Ok docs ->
  exists row enums constants,
    table_row x = Ok row
    /\ index docs 0 = Ok enums /\ contains row enums
    /\ index docs 1 = Ok constants /\ contains row constants.
Proof.
  intros Hwf He Hv Hin Hx Hd.
  rewrite (generate_docs_chain version category_label info Hwf) in Hd.
  destruct (generate_doc version category_label "Enum" (category info "Enum"))
    as [de|] eqn:Ee; [|discriminate].
  destruct (generate_doc version category_label "Constant"
              (category info "Constant")) as [dc|] eqn:Ec; [|discriminate].
  destruct (generate_doc version category_label "Class"
              (category info "Class")) as [dk|]; [|discriminate].
  destruct (generate_doc version category_label "Function"
              (category info "Function")) as [df|]; [|discriminate].
  destruct (generate_doc version category_label "Hook"
              (category info "Hook")) as [dh|]; [|discriminate].
  cbn [bind] in Hd. apply Ok_inj in Hd. subst docs.
  destruct (enum_doc_row _ _ _ _ _ _ _ _ He Hv Hin Ee) as (row & Hr & Hce).
  destruct (constant_doc_row _ _ _ _ _ _ Hx Ec) as (row' & Hr' & Hcc).
  assert (row' = row) by congruence. subst row'.
  exists row, de, dc. repeat split; assumption.
Qed.

(** ** C1: an enum constant is nested and filed *)

(** C1, counterexample.  After the blocks [Enum: E] and [Constant: E.X], the
    constant is in the Values of [E] and is also filed under [E.X] in the
    Constant category, so the constants document has a row for it. *)
Lemma C1_enum_constant_also_filed_standalone :
  exists info docs,
    gather_info raw_C1 = Ok info
    /\ (e <- dict_item "E" (category info "Enum") ;; get_attr e "Values")
       = Ok (AList [constant_C1])
    /\ dict_get "E.X" (category info "Constant") = Some constant_C1
    /\ generate_docs "7.1" info "Server" = Ok docs
    /\ index docs 1
       = Ok ("# VScript Server Constants, version 7.1" ++ NL ++ NL
             ++ "Generated by Macosaro" ++ NL ++ NL
             ++ table_header ++ "| E.X | 1 |" ++ NL).
Proof. do 2 eexists. repeat split; reflexivity. Qed.

(** C1, as amended.  In every state the loop of [gather_info] reaches, a
    Constant record whose name has a prefix, before the first dot, that names
    an Enum of [info], and that is classified without a failure, is appended
    to the Values of that Enum and is also filed under its own name in the
    Constant category; nothing else changes: it is given to no other Enum and
    to no Class.  So when the records classified up to this block are
    rendered, the table row of the record is both in the enums document and
    in the constants document. *)
Theorem C1_enum_constant_nested_and_filed :
  forall (pre : list string) (info info' : Info) (inst : Instance)
         (name : string),
    gather_loop info_init pre = Ok info ->
    get_str inst "Type" = Ok "Constant" ->
    get_str inst "Name" = Ok name ->
    dict_mem (split_head "." name) (category info "Enum") = true ->
    classify info inst = Ok info' ->
    exists e vs,
      dict_get (split_head "." name) (category info "Enum") = Some e
      /\ getattr e "Values" = Some (AList vs)
      /\ info'
         = dict_set "Constant"
             (dict_set name inst (category info "Constant"))
             (dict_set "Enum"
                (dict_set (split_head "." name)
                   (assign e "Values" (AList (vs ++ [inst])%list))
                   (category info "Enum"))
                info)
      /\ dict_get (split_head "." name) (category info' "Enum")
         = Some (assign e "Values" (AList (vs ++ [inst])%list))
      /\ dict_get name (category info' "Constant") = Some inst
      /\ (forall (version category_label : string) (docs : list string),
             generate_docs version info' category_label = Ok docs ->
             exists row enums constants,
               table_row inst = Ok row
               /\ index docs 0 = Ok enums /\ contains row enums
               /\ index docs 1 = Ok constants /\ contains row constants).
Proof.
  intros pre info info' inst name Hloop Ht Hn Hm Hc.
  pose proof (gather_loop_wf pre _ _ Hloop wf_init) as Hwf.
  pose proof (classify_wf _ _ _ Hc Hwf) as Hwf'.
  apply classify_inv in Hc as (info1 & H1 & H2).
  pose proof (attach_constant_keeps _ _ _ H1) as (_ & Ho1 & Hwf1).
  specialize (Hwf1 Hwf).
  unfold attach_constant in H1.
  rewrite (owner_eval info inst "Constant" "." "Enum" "Constant" name Hwf
             (in_categories_dec "Enum" eq_refl) Ht Hn) in H1.
  simpl in H1. rewrite Hm in H1. simpl in H1.
  apply append_child_inv in H1 as (d & e & vs & Hd & He & Hv & ->).
  apply category_get in Hd. subst d.
  rewrite (attach_or_file_standalone _ inst "Constant" name Hwf1 Ht Hn eq_refl)
    in H2.
  apply file_record_inv in H2 as (t' & n' & d & Ht' & Hn' & Hd & ->).
  assert (t' = "Constant") by congruence.
  assert (n' = name) by congruence. subst t' n'.
  apply category_get in Hd. rewrite (Ho1 "Constant") in Hd by discriminate.
  subst d. exists e, vs.
  split; [exact He | split; [exact Hv | split; [reflexivity|]]].
  rewrite !category_set. simpl.
  assert (HE : dict_get (split_head "." name)
                 (dict_set (split_head "." name)
                    (assign e "Values" (AList (vs ++ [inst])%list))
                    (category info "Enum"))
               = Some (assign e "Values" (AList (vs ++ [inst])%list)))
    by apply dict_get_set_eq.
  assert (HC : dict_get name (dict_set name inst (category info "Constant"))
               = Some inst) by apply dict_get_set_eq.
  split; [exact HE | split; [exact HC|]].
  intros version category_label docs Hd.
  apply (rows_in_both_documents version category_label (split_head "." name)
           name _ (assign e "Values" (AList (vs ++ [inst])%list)) inst
           (vs ++ [inst])%list docs Hwf').
  - rewrite !category_set. exact HE.
  - rewrite getattr_assign. reflexivity.
  - apply in_or_app. right. now left.
  - rewrite !category_set. exact HC.
  - exact Hd.
Qed.

Lemma C1_enum_constant_nested_and_filed_witness :
  gather_loop info_init ["Enum: E"]
  = Ok (dict_set "Enum" [("E", enum_record "E" [])] info_init)
  /\ dict_mem (split_head "." "E.X")
       (category (dict_set "Enum" [("E", enum_record "E" [])] info_init) "Enum")
     = true
  /\ exists e vs,
       getattr e "Values" = Some (AList vs)
       /\ dict_get "E.X" (category info_C1 "Constant") = Some constant_C1
       /\ dict_get "E" (category info_C1 "Enum")
          = Some (assign e "Values" (AList (vs ++ [constant_C1])%list)).
Proof.
  split; [reflexivity | split; [reflexivity|]].
  destruct (C1_enum_constant_nested_and_filed ["Enum: E"]
              (dict_set "Enum" [("E", enum_record "E" [])] info_init)
              info_C1 constant_C1 "E.X" eq_refl eq_refl eq_refl eq_refl eq_refl)
    as (e & vs & _ & Hv & _ & He & Hc & _).
  exists e, vs. split; [exact Hv | split; [exact Hc | exact He]].
Defined.

(** ** C10: the later record under a name *)

(** A Constant that has a parent is not filed standalone.  Two Constant
    blocks named [E.X] follow the block of the Enum [E]: both are appended
    to the Values of [E], and the Constant category keeps the later one. *)
Lemma nested_twins_both_in_values :
  exists info,
    gather_info raw_C10_twice = Ok info
    /\ category info "Constant" = [("E.X", constant_C10_later)]
    /\ category info "Enum"
       = [("E", enum_record "E" [constant_C10; constant_C10_later])].
Proof. eexists. repeat split; reflexivity. Qed.


